(** * APINEW: gateway, censor, comment store and news source

    A shallow embedding of the four Go services of the repository
    (api-gateway, censor-service, comment-service, news-aggregator) and
    the properties of the gateway's request orchestration.

    Conventions of the embedding
    - Go [int] values are [Z]; the only arithmetic the modelled handlers
      do on them is comparison with zero and the store's [seq + 1].
    - Go [string] values are [string] (byte strings).
    - A JSON document on the wire is the tree [json]; the codec of
      encoding/json is library code and is represented by the functions
      [marshal_*] (struct to tree, following the struct tags) and
      [decode_*] (tree to struct, following Unmarshal's rules).
    - A response body is either such a document or the plain text written
      by [http.Error].
    - An outbound call of the gateway is a typed operation together with
      the headers the code sets on it; the handlers are programs in a small
      interaction type [Prog] whose [Call] nodes are exactly the
      [client.Get] / [client.Do] calls of the source, in source order.
    - The list endpoint of the news source (mock data, search, paging) is
      not modelled; its answers are a component of the world.
    - Time is outside the embedding: the 30 s [http.TimeoutHandler] and the
      10 s client timeout appear only as the possibility of a transport
      error.  The logging and recovery middlewares write nothing to the
      client on the paths studied here and are left out. *)

From Stdlib Require Import ZArith List String Ascii Bool Lia.
From Stdlib Require Import DecimalString DecimalPos Permutation Sorted.
Import ListNotations.

Set Warnings "-register-all".
Open Scope string_scope.
Open Scope Z_scope.

(** ** Strings and numbers as the Go standard library treats them *)

Definition LF : string := String (ascii_of_nat 10) EmptyString.

Definition max_int64 : Z := 9223372036854775807.
Definition min_int64 : Z := -9223372036854775808.

Definition in_int64 (n : Z) : bool := (min_int64 <=? n) && (n <=? max_int64).

Definition digit_of (c : ascii) : option Z :=
  let n := Z.of_N (N_of_ascii c) in
  if (48 <=? n) && (n <=? 57) then Some (n - 48) else None.

Definition max_uint64 : Z := 18446744073709551615.

Inductive NumError : Type := ErrSyntax | ErrRange.

(** strconv.ParseUint in base 10 on a non-empty string, from the value
    [n] read so far: left to right, stopping at the first byte that is no
    digit or at the first overflow of 64 bits. *)
Fixpoint ParseUint_digits (s : string) (n : Z) : Z * option NumError :=
  match s with
  | EmptyString => (n, None)
  | String c r =>
      match digit_of c with
      | None => (0, Some ErrSyntax)
      | Some d =>
          if max_uint64 / 10 + 1 <=? n then (max_uint64, Some ErrRange)
          else
            let n1 := n * 10 + d in
            if max_uint64 <? n1 then (max_uint64, Some ErrRange)
            else ParseUint_digits r n1
      end
  end.

Definition ParseUint (s : string) : Z * option NumError :=
  match s with
  | EmptyString => (0, Some ErrSyntax)
  | _ => ParseUint_digits s 0
  end.

(** strconv.ParseInt(s, 10, 0) on a 64-bit platform, which is what
    strconv.Atoi computes: the value and the error, if any.  A syntax
    error comes with the value 0, a range error with the nearest bound. *)
Definition ParseInt (s : string) : Z * option NumError :=
  match s with
  | EmptyString => (0, Some ErrSyntax)
  | String c r =>
      let neg := Ascii.eqb c "-" in
      let ds := if neg || Ascii.eqb c "+" then r else s in
      match ParseUint ds with
      | (_, Some ErrSyntax) => (0, Some ErrSyntax)
      | (un, _) =>
          if negb neg && (max_int64 + 1 <=? un) then (max_int64, Some ErrRange)
          else if neg && (max_int64 + 1 <? un) then (min_int64, Some ErrRange)
          else (if neg then - un else un, None)
      end
  end.

(** [n, err := strconv.Atoi(s)] with [err == nil]. *)
Definition Atoi (s : string) : option Z :=
  match ParseInt s with
  | (n, None) => Some n
  | (_, Some _) => None
  end.

(** [n, _ := strconv.Atoi(s)]. *)
Definition Atoi_value (s : string) : Z := fst (ParseInt s).

(** The [%d] verb of fmt.Sprintf and strconv.Itoa. *)
Definition Itoa (n : Z) : string :=
  match n with
  | Z0 => "0"
  | Zpos p => NilEmpty.string_of_uint (Pos.to_uint p)
  | Zneg p => String "-" (NilEmpty.string_of_uint (Pos.to_uint p))
  end.

(** strings.Contains. *)
Fixpoint Contains (s substr : string) : bool :=
  String.prefix substr s ||
  match s with
  | EmptyString => false
  | String _ r => Contains r substr
  end.

(** Lower-casing of the ASCII letters; all other bytes are kept.  It agrees
    with strings.ToLower on every text whose non-ASCII code points have no
    distinct lower-case form. *)
Definition ascii_lower (c : ascii) : ascii :=
  let n := N_of_ascii c in
  if (65 <=? n)%N && (n <=? 90)%N then ascii_of_N (n + 32) else c.

Fixpoint ToLowerASCII (s : string) : string :=
  match s with
  | EmptyString => EmptyString
  | String c r => String (ascii_lower c) (ToLowerASCII r)
  end.

(** ** Wall-clock formatting, layout "2006-01-02 15:04:05"

    A clock reading is a number of seconds since 1970-01-01 00:00:00 in
    the zone of the process; [time.Add] is addition of seconds. *)

Definition pad (width : nat) (n : Z) : string :=
  let s := Itoa n in
  (fix zeros (k : nat) : string :=
     match k with O => s | S k' => String "0" (zeros k') end)
    (width - String.length s)%nat.

Definition civil_from_days (days : Z) : Z * Z * Z :=
  let z := days + 719468 in
  let era := z / 146097 in
  let doe := z - era * 146097 in
  let yoe := (doe - doe / 1460 + doe / 36524 - doe / 146096) / 365 in
  let doy := doe - (365 * yoe + yoe / 4 - yoe / 100) in
  let mp := (5 * doy + 2) / 153 in
  let d := doy - (153 * mp + 2) / 5 + 1 in
  let m := if mp <? 10 then mp + 3 else mp - 9 in
  let y := yoe + era * 400 + (if m <=? 2 then 1 else 0) in
  (y, m, d).

Definition Format (t : Z) : string :=
  let '(y, m, d) := civil_from_days (t / 86400) in
  let s := t mod 86400 in
  pad 4 y ++ "-" ++ pad 2 m ++ "-" ++ pad 2 d ++ " " ++
  pad 2 (s / 3600) ++ ":" ++ pad 2 ((s mod 3600) / 60) ++ ":" ++ pad 2 (s mod 60).

Definition Hour : Z := 3600.

Arguments Format t : simpl never.
Arguments Itoa n : simpl never.

(** ** JSON documents *)

Inductive json : Type :=
| JNull
| JBool (b : bool)
| JNum (n : Z)
| JStr (s : string)
| JArr (items : list json)
| JObj (members : list (string * json)).

Fixpoint member (k : string) (kvs : list (string * json)) : option json :=
  match kvs with
  | [] => None
  | (k', v) :: r => if String.eqb k k' then Some v else member k r
  end.

(** Field of an object, [None] for a missing key or a non-object. *)
Definition field (k : string) (v : json) : option json :=
  match v with
  | JObj kvs => member k kvs
  | _ => None
  end.

(** A Go [map[string]T] is written by encoding/json with its keys in
    increasing byte order; an assignment to a present key replaces it. *)
Fixpoint put (k : string) (v : json) (m : list (string * json))
  : list (string * json) :=
  match m with
  | [] => [(k, v)]
  | (k', v') :: r =>
      match String.compare k k' with
      | Lt => (k, v) :: m
      | Eq => (k, v) :: r
      | Gt => (k', v') :: put k v r
      end
  end.

(** Field names are matched by Unmarshal exactly or, failing that, under
    Unicode simple case folding.  The field names of the source are ASCII;
    besides the two cases of an ASCII letter, folding identifies the long
    s (U+017F, the bytes C5 BF) with [s] and the Kelvin sign (U+212A, the
    bytes E2 84 AA) with [k].  Every other code point outside ASCII folds
    to code points outside ASCII and is left as it is. *)
Definition is_long_s (a b : ascii) : bool :=
  (N_of_ascii a =? 197)%N && (N_of_ascii b =? 191)%N.

Definition is_kelvin (a b c : ascii) : bool :=
  (N_of_ascii a =? 226)%N && (N_of_ascii b =? 132)%N && (N_of_ascii c =? 170)%N.

Fixpoint fold_key (s : string) : string :=
  match s with
  | EmptyString => EmptyString
  | String a r =>
      match r with
      | EmptyString => String (ascii_lower a) EmptyString
      | String b r' =>
          if is_long_s a b then String "s" (fold_key r')
          else
            match r' with
            | EmptyString => String (ascii_lower a) (fold_key r)
            | String c r'' =>
                if is_kelvin a b c then String "k" (fold_key r'')
                else String (ascii_lower a) (fold_key r)
            end
      end
  end.

Definition key_is (name k : string) : bool :=
  String.eqb (fold_key name) (fold_key k).

(** ** HTTP messages *)

(** A body is a JSON document or text that is no JSON document (what
    [http.Error] writes: the message and a line feed; no message of the
    source starts the way a document does, see [starts_document]). *)
Inductive Body : Type :=
| BText (s : string)
| BJson (v : json).

Record HttpResponse : Type := {
  code : Z;
  content_type : string;
  body : Body
}.

Definition StatusOK : Z := 200.
Definition StatusBadRequest : Z := 400.
Definition StatusNotFound : Z := 404.
Definition StatusInternalServerError : Z := 500.
Definition StatusServiceUnavailable : Z := 503.

(** net/http's [Error]: text/plain, the given status, the message and a
    line feed. *)
Definition http_Error (msg : string) (c : Z) : HttpResponse :=
  {| code := c;
     content_type := "text/plain; charset=utf-8";
     body := BText (msg ++ LF) |}.

(** [w.Header().Set("Content-Type", "application/json")] followed by
    [json.NewEncoder(w).Encode(v)] on a fresh writer: status 200. *)
Definition write_json (v : json) : HttpResponse :=
  {| code := StatusOK;
     content_type := "application/json";
     body := BJson v |}.

Definition document (b : Body) : option json :=
  match b with
  | BJson v => Some v
  | BText _ => None
  end.

Definition Header : Type := list (string * string).

Fixpoint Header_Get (h : Header) (name : string) : string :=
  match h with
  | [] => ""
  | (k, v) :: r => if String.eqb k name then v else Header_Get r name
  end.

(** ** The structs shared by the four packages and their JSON tags *)

Record Pagination : Type := {
  Page : Z; PageSize : Z; Total : Z; TotalPages : Z
}.

(** [Data interface{}]: [None] is the nil interface; [Some v] is a value
    whose encoding is the document [v]. *)
Record Response : Type := {
  Status : string;
  Data : option json;
  Error : string;
  Pagination_ : option Pagination
}.

Record NewsItem : Type := {
  n_ID : Z; n_Title : string; n_Content : string; n_Date : string
}.

Record Comment : Type := {
  c_ID : Z; c_NewsID : Z; c_ParentID : option Z;
  c_Text : string; c_CreatedAt : string
}.

Record CommentRequest : Type := {
  NewsID : Z; ParentID : option Z; Text : string
}.

Record CheckRequest : Type := { ck_Text : string }.

Definition marshal_Pagination (p : Pagination) : json :=
  JObj [("page", JNum (Page p)); ("page_size", JNum (PageSize p));
        ("total", JNum (Total p)); ("total_pages", JNum (TotalPages p))].

(** [omitempty] drops a nil interface, an empty string and a nil pointer. *)
Definition marshal_Response (r : Response) : json :=
  JObj ([("status", JStr (Status r))]
        ++ match Data r with Some v => [("data", v)] | None => [] end
        ++ (if String.eqb (Error r) "" then [] else [("error", JStr (Error r))])
        ++ match Pagination_ r with
           | Some p => [("pagination", marshal_Pagination p)]
           | None => []
           end).

Definition marshal_NewsItem (n : NewsItem) : json :=
  JObj [("id", JNum (n_ID n)); ("title", JStr (n_Title n));
        ("content", JStr (n_Content n)); ("date", JStr (n_Date n))].

Definition marshal_parent (p : option Z) : list (string * json) :=
  match p with
  | Some n => [("parent_id", JNum n)]
  | None => []
  end.

Definition marshal_Comment (c : Comment) : json :=
  JObj ([("id", JNum (c_ID c)); ("news_id", JNum (c_NewsID c))]
        ++ marshal_parent (c_ParentID c)
        ++ [("text", JStr (c_Text c)); ("created_at", JStr (c_CreatedAt c))]).

(** A nil slice is written as [null], any other slice as an array. *)
Definition marshal_Comments (l : list Comment) : json :=
  match l with
  | [] => JNull
  | _ => JArr (map marshal_Comment l)
  end.

Definition marshal_CommentRequest (r : CommentRequest) : json :=
  JObj ([("news_id", JNum (NewsID r))]
        ++ marshal_parent (ParentID r)
        ++ [("text", JStr (Text r))]).

(** ** Unmarshal into those structs

    A member whose key names no field is skipped; [null] leaves an [int]
    or [string] field as it is and sets a pointer or interface field to
    nil; a value of the wrong JSON type, or a number outside the [int]
    range, is an error.  A document that is neither an object nor [null]
    is an error for every struct. *)

Definition bind {A B : Type} (o : option A) (f : A -> option B) : option B :=
  match o with
  | Some a => f a
  | None => None
  end.

Notation "x <- e ;; k" := (bind e (fun x => k))
  (at level 61, e at next level, right associativity).

Definition set_int (v : json) (old : Z) : option Z :=
  match v with
  | JNull => Some old
  | JNum n => if in_int64 n then Some n else None
  | _ => None
  end.

Definition set_string (v : json) (old : string) : option string :=
  match v with
  | JNull => Some old
  | JStr s => Some s
  | _ => None
  end.

Definition set_int_ptr (v : json) : option (option Z) :=
  match v with
  | JNull => Some None
  | JNum n => if in_int64 n then Some (Some n) else None
  | _ => None
  end.

Fixpoint CommentRequest_members (kvs : list (string * json)) (acc : CommentRequest)
  : option CommentRequest :=
  match kvs with
  | [] => Some acc
  | (k, v) :: r =>
      if key_is "news_id" k then
        n <- set_int v (NewsID acc) ;;
        CommentRequest_members r
          {| NewsID := n; ParentID := ParentID acc; Text := Text acc |}
      else if key_is "parent_id" k then
        p <- set_int_ptr v ;;
        CommentRequest_members r
          {| NewsID := NewsID acc; ParentID := p; Text := Text acc |}
      else if key_is "text" k then
        t <- set_string v (Text acc) ;;
        CommentRequest_members r
          {| NewsID := NewsID acc; ParentID := ParentID acc; Text := t |}
      else CommentRequest_members r acc
  end.

Definition decode_CommentRequest (b : Body) : option CommentRequest :=
  let zero := {| NewsID := 0; ParentID := None; Text := "" |} in
  match document b with
  | Some (JObj kvs) => CommentRequest_members kvs zero
  | Some JNull => Some zero
  | _ => None
  end.

Fixpoint CheckRequest_members (kvs : list (string * json)) (acc : CheckRequest)
  : option CheckRequest :=
  match kvs with
  | [] => Some acc
  | (k, v) :: r =>
      if key_is "text" k then
        t <- set_string v (ck_Text acc) ;;
        CheckRequest_members r {| ck_Text := t |}
      else CheckRequest_members r acc
  end.

Definition decode_CheckRequest (b : Body) : option CheckRequest :=
  let zero := {| ck_Text := "" |} in
  match document b with
  | Some (JObj kvs) => CheckRequest_members kvs zero
  | Some JNull => Some zero
  | _ => None
  end.

Fixpoint NewsItem_members (kvs : list (string * json)) (acc : NewsItem)
  : option NewsItem :=
  match kvs with
  | [] => Some acc
  | (k, v) :: r =>
      if key_is "id" k then
        n <- set_int v (n_ID acc) ;;
        NewsItem_members r
          {| n_ID := n; n_Title := n_Title acc;
             n_Content := n_Content acc; n_Date := n_Date acc |}
      else if key_is "title" k then
        s <- set_string v (n_Title acc) ;;
        NewsItem_members r
          {| n_ID := n_ID acc; n_Title := s;
             n_Content := n_Content acc; n_Date := n_Date acc |}
      else if key_is "content" k then
        s <- set_string v (n_Content acc) ;;
        NewsItem_members r
          {| n_ID := n_ID acc; n_Title := n_Title acc;
             n_Content := s; n_Date := n_Date acc |}
      else if key_is "date" k then
        s <- set_string v (n_Date acc) ;;
        NewsItem_members r
          {| n_ID := n_ID acc; n_Title := n_Title acc;
             n_Content := n_Content acc; n_Date := s |}
      else NewsItem_members r acc
  end.

Definition decode_NewsItem (b : Body) : option NewsItem :=
  let zero := {| n_ID := 0; n_Title := ""; n_Content := ""; n_Date := "" |} in
  match document b with
  | Some (JObj kvs) => NewsItem_members kvs zero
  | Some JNull => Some zero
  | _ => None
  end.

Fixpoint Pagination_members (kvs : list (string * json)) (acc : Pagination)
  : option Pagination :=
  match kvs with
  | [] => Some acc
  | (k, v) :: r =>
      if key_is "page" k then
        n <- set_int v (Page acc) ;;
        Pagination_members r
          {| Page := n; PageSize := PageSize acc;
             Total := Total acc; TotalPages := TotalPages acc |}
      else if key_is "page_size" k then
        n <- set_int v (PageSize acc) ;;
        Pagination_members r
          {| Page := Page acc; PageSize := n;
             Total := Total acc; TotalPages := TotalPages acc |}
      else if key_is "total" k then
        n <- set_int v (Total acc) ;;
        Pagination_members r
          {| Page := Page acc; PageSize := PageSize acc;
             Total := n; TotalPages := TotalPages acc |}
      else if key_is "total_pages" k then
        n <- set_int v (TotalPages acc) ;;
        Pagination_members r
          {| Page := Page acc; PageSize := PageSize acc;
             Total := Total acc; TotalPages := n |}
      else Pagination_members r acc
  end.

Definition set_Pagination (v : json) (old : option Pagination)
  : option (option Pagination) :=
  let zero := {| Page := 0; PageSize := 0; Total := 0; TotalPages := 0 |} in
  match v with
  | JNull => Some None
  | JObj kvs =>
      p <- Pagination_members kvs (match old with Some p => p | None => zero end) ;;
      Some (Some p)
  | _ => None
  end.

(** ** Unmarshal into [interface{}] and back

    The gateway decodes the [data] member of a collaborator's envelope
    into an [interface{}] and encodes it again: objects become maps (keys
    sorted, a repeated key keeps its last value) and every number passes
    through a [float64].  An integer of magnitude at most 2^53 is written
    back as it came; what strconv makes of a larger one is the library's
    affair and is the parameter [float64_literal] ([None]: the number does
    not fit a [float64] and Unmarshal fails). *)

Section Gateway.

Variable float64_literal : Z -> option Z.

Definition via_float64 (n : Z) : option Z :=
  if Z.abs n <=? 2 ^ 53 then Some n else float64_literal n.

Arguments via_float64 n : simpl never.

Fixpoint reencode (v : json) : option json :=
  match v with
  | JNum n => n' <- via_float64 n ;; Some (JNum n')
  | JArr l =>
      l' <- (fix items (l : list json) : option (list json) :=
               match l with
               | [] => Some []
               | x :: r => x' <- reencode x ;; r' <- items r ;; Some (x' :: r')
               end) l ;;
      Some (JArr l')
  | JObj kvs =>
      m <- (fix members (kvs acc : list (string * json))
              : option (list (string * json)) :=
              match kvs with
              | [] => Some acc
              | (k, x) :: r => x' <- reencode x ;; members r (put k x' acc)
              end) kvs [] ;;
      Some (JObj m)
  | _ => Some v
  end.

Definition set_interface (v : json) : option (option json) :=
  match v with
  | JNull => Some None
  | _ => v' <- reencode v ;; Some (Some v')
  end.

Fixpoint Response_members (kvs : list (string * json)) (acc : Response)
  : option Response :=
  match kvs with
  | [] => Some acc
  | (k, v) :: r =>
      if key_is "status" k then
        s <- set_string v (Status acc) ;;
        Response_members r
          {| Status := s; Data := Data acc;
             Error := Error acc; Pagination_ := Pagination_ acc |}
      else if key_is "data" k then
        d <- set_interface v ;;
        Response_members r
          {| Status := Status acc; Data := d;
             Error := Error acc; Pagination_ := Pagination_ acc |}
      else if key_is "error" k then
        e <- set_string v (Error acc) ;;
        Response_members r
          {| Status := Status acc; Data := Data acc;
             Error := e; Pagination_ := Pagination_ acc |}
      else if key_is "pagination" k then
        p <- set_Pagination v (Pagination_ acc) ;;
        Response_members r
          {| Status := Status acc; Data := Data acc;
             Error := Error acc; Pagination_ := p |}
      else Response_members r acc
  end.

Definition decode_Response (b : Body) : option Response :=
  let zero := {| Status := ""; Data := None; Error := ""; Pagination_ := None |} in
  match document b with
  | Some (JObj kvs) => Response_members kvs zero
  | Some JNull => Some zero
  | _ => None
  end.

(** ** The gateway (api-gateway/main.go) *)

Inductive Service : Type := CensorSvc | CommentSvc | NewsSvc.

(** The downstream requests the gateway builds. *)
Inductive Op : Type :=
| PostCheck (payload : json)      (* POST  CensorServiceURL  + "/check" *)
| PostComments (payload : json)   (* POST  CommentServiceURL + "/comments" *)
| GetComments (newsIDInt : Z)     (* GET   CommentServiceURL + "/comments?news_id=%d" *)
| GetNews (newsID : string)       (* GET   NewsAggregatorURL + "/news/%s" *)
| GetNewsList (page pageSize : Z) (search : string).
                                  (* GET   NewsAggregatorURL + "/news?page=%d&page_size=%d",
                                           then "&search=" + search unless empty *)

Definition service (o : Op) : Service :=
  match o with
  | PostCheck _ => CensorSvc
  | PostComments _ | GetComments _ => CommentSvc
  | GetNews _ | GetNewsList _ _ _ => NewsSvc
  end.

(** An outbound request: the operation and the headers the handler sets on
    it ([client.Get] sets none). *)
Record Outbound : Type := { op : Op; header : Header }.

(** What [client.Get] / [client.Do] returns: an error, or a response. *)
Inductive Reply : Type :=
| TransportError
| Replied (status : Z) (b : Body).

(** A handler ends by writing its response, or panics. *)
Inductive Outcome : Type :=
| Responded (r : HttpResponse)
| Panicked.

Inductive Prog : Type :=
| Ret (o : Outcome)
| Call (c : Outbound) (k : Reply -> Prog).

Definition respond (r : HttpResponse) : Prog := Ret (Responded r).

(** The value stored under the context key "request_id", if any. *)
Definition Context : Type := option string.

Inductive Route : Type :=
| Health                       (* GET  /health *)
| NewsList (page page_size search : string)
                               (* GET  /news, with the three query values *)
| NewsByID (id : string)       (* GET  /news/{id} *)
| PostComment.                 (* POST /comment *)

(** An inbound request: the matched route, [r.Header.Get("X-Request-ID")]
    (empty when the header is absent) and the body. *)
Record Request : Type := {
  route : Route;
  X_Request_ID : string;
  req_body : Body
}.

Definition hex_digit (n : N) : ascii :=
  if (n <? 10)%N then ascii_of_N (48 + n) else ascii_of_N (87 + n).

(** The low [digits] hexadecimal digits of [n]. *)
Fixpoint hex (digits : nat) (n : N) : string :=
  match digits with
  | O => EmptyString
  | S d => hex d (n / 16)%N ++ String (hex_digit (n mod 16)%N) EmptyString
  end.

(** [uuid.UUID.String]: the 128 bits in the form 8-4-4-4-12. *)
Definition uuid_String (u : N) : string :=
  hex 8 (u / 2 ^ 96)%N ++ "-" ++ hex 4 (u / 2 ^ 80)%N ++ "-" ++
  hex 4 (u / 2 ^ 64)%N ++ "-" ++ hex 4 (u / 2 ^ 48)%N ++ "-" ++ hex 12 u.

Definition healthHandler : Prog :=
  respond (write_json (marshal_Response
    {| Status := "ok"; Data := None; Error := ""; Pagination_ := None |})).

Definition any_string (c : Context) : json :=
  match c with
  | Some s => JStr s
  | None => JNull
  end.

Definition any_value (d : option json) : json :=
  match d with
  | Some v => v
  | None => JNull
  end.

Definition getNewsHandler (page_q pageSize_q search : string) : Prog :=
  let page := Atoi_value page_q in
  let page := if page =? 0 then 1 else page in
  let pageSize := Atoi_value pageSize_q in
  let pageSize := if pageSize =? 0 then 10 else pageSize in
  Call {| op := GetNewsList page pageSize search; header := [] |} (fun resp =>
  match resp with
  | TransportError =>
      respond (http_Error "Failed to fetch news" StatusInternalServerError)
  | Replied _ respBody =>
      match decode_Response respBody with
      | None =>
          respond (http_Error "Failed to decode news response"
                     StatusInternalServerError)
      | Some newsResponse => respond (write_json (marshal_Response newsResponse))
      end
  end).

Definition getNewsByIDHandler (ctx : Context) (newsID : string) : Prog :=
  match Atoi newsID with
  | None => respond (http_Error "Invalid news ID" StatusBadRequest)
  | Some newsIDInt =>
    Call {| op := GetNews newsID; header := [] |} (fun newsResp =>
    match newsResp with
    | TransportError =>
        respond (http_Error "Failed to fetch news" StatusInternalServerError)
    | Replied _ newsBody =>
      match decode_NewsItem newsBody with
      | None =>
          respond (http_Error "Failed to decode news response"
                     StatusInternalServerError)
      | Some newsItem =>
        Call {| op := GetComments newsIDInt; header := [] |} (fun commentsResp =>
        match commentsResp with
        | TransportError =>
            respond (http_Error "Failed to fetch comments"
                       StatusInternalServerError)
        | Replied _ commentsBody =>
          match decode_Response commentsBody with
          | None =>
              respond (http_Error "Failed to decode comments response"
                         StatusInternalServerError)
          | Some commentsResponse =>
              let result :=
                JObj (put "request_id" (any_string ctx)
                     (put "comments" (any_value (Data commentsResponse))
                     (put "news" (marshal_NewsItem newsItem) []))) in
              respond (write_json (marshal_Response
                {| Status := "success"; Data := Some result;
                   Error := ""; Pagination_ := None |}))
          end
        end)
      end
    end)
  end.

Definition createCommentHandler (ctx : Context) (b : Body) : Prog :=
  match decode_CommentRequest b with
  | None => respond (http_Error "Invalid request body" StatusBadRequest)
  | Some req =>
    if String.eqb (Text req) "" then
      respond (http_Error "Comment text is required" StatusBadRequest)
    else if NewsID req <=? 0 then
      respond (http_Error "Valid news ID is required" StatusBadRequest)
    else
      match ctx with
      | None => Ret Panicked     (* .(string) on a nil interface *)
      | Some requestID =>
        let censorPayload := JObj (put "text" (JStr (Text req)) []) in
        Call {| op := PostCheck censorPayload;
                header := [("Content-Type", "application/json");
                           ("X-Request-ID", requestID)] |} (fun censorResp =>
        match censorResp with
        | TransportError =>
            respond (http_Error "Failed to check comment with censor service"
                       StatusInternalServerError)
        | Replied censorStatus _ =>
          if negb (censorStatus =? StatusOK) then
            respond (http_Error "Comment contains prohibited content"
                       StatusBadRequest)
          else
            Call {| op := PostComments (marshal_CommentRequest req);
                    header := [("Content-Type", "application/json");
                               ("X-Request-ID", requestID)] |} (fun commentResp =>
            match commentResp with
            | TransportError =>
                respond (http_Error "Failed to save comment"
                           StatusInternalServerError)
            | Replied commentStatus commentBody =>
              if negb (commentStatus =? StatusOK) then
                respond (http_Error "Failed to save comment"
                           StatusInternalServerError)
              else
                match decode_Response commentBody with
                | None =>
                    respond (http_Error "Failed to decode comment response"
                               StatusInternalServerError)
                | Some commentResponse =>
                    respond (write_json (marshal_Response commentResponse))
                end
            end)
        end)
      end
  end.

(** [requestIDMiddleware]: the inbound header, or a fresh UUID when it is
    empty, is bound to the context key "request_id". *)
Definition requestIDMiddleware (fresh : N) (next : Context -> Request -> Prog)
  (r : Request) : Prog :=
  let requestID := X_Request_ID r in
  let requestID :=
    if String.eqb requestID "" then uuid_String fresh else requestID in
  next (Some requestID) r.

Definition routes (ctx : Context) (r : Request) : Prog :=
  match route r with
  | Health => healthHandler
  | NewsList page page_size search => getNewsHandler page page_size search
  | NewsByID id => getNewsByIDHandler ctx id
  | PostComment => createCommentHandler ctx (req_body r)
  end.

(** The router of [main] for a request whose handler finishes within the
    time limit: [requestIDMiddleware] in front of the routes. *)
Definition gateway (fresh : N) (r : Request) : Prog :=
  requestIDMiddleware fresh routes r.

(** What [http.TimeoutHandler] writes when the time limit passes: status
    503 and the message as it is, without a line feed.  No Content-Type is
    set; the server derives text/plain from these bytes. *)
Definition timeout_response : HttpResponse :=
  {| code := StatusServiceUnavailable;
     content_type := "text/plain; charset=utf-8";
     body := BText "Request timeout" |}.

(** [timeoutMiddleware(30 * time.Second)]: the handler runs in a
    goroutine of its own on a buffered writer.  [expired] says whether the
    time limit passes before the handler is done.  If not, the handler's
    response is copied out (a panic is raised again); if so, the client
    gets [timeout_response] and whatever the handler writes or raises
    later is dropped.  The handler itself runs on: its outbound requests
    do not carry the context of the inbound one. *)
Fixpoint timeoutMiddleware (expired : bool) (next : Prog) : Prog :=
  match next with
  | Ret o => Ret (if expired then Responded timeout_response else o)
  | Call c k => Call c (fun r => timeoutMiddleware expired (k r))
  end.

(** The handler chain of [main]: [requestIDMiddleware], then
    [timeoutMiddleware], then the routes ([loggerMiddleware] only logs). *)
Definition server (expired : bool) (fresh : N) (r : Request) : Prog :=
  requestIDMiddleware fresh
    (fun ctx r => timeoutMiddleware expired (routes ctx r)) r.

(** ** Running a handler against its collaborators

    The collaborators are any state machine answering outbound requests;
    [run] returns the final state, the requests issued in order, and the
    outcome. *)

Fixpoint run {S : Type} (answer : S -> Outbound -> S * Reply) (s : S) (p : Prog)
  : S * list Outbound * Outcome :=
  match p with
  | Ret o => (s, [], o)
  | Call c k =>
      let '(s1, r) := answer s c in
      let '(s2, tr, o) := run answer s1 (k r) in
      (s2, c :: tr, o)
  end.

Definition Service_eqb (a b : Service) : bool :=
  match a, b with
  | CensorSvc, CensorSvc | CommentSvc, CommentSvc | NewsSvc, NewsSvc => true
  | _, _ => false
  end.

(** The requests of a run that went to one collaborator. *)
Definition calls_to (sv : Service) (tr : list Outbound) : list Outbound :=
  filter (fun c => Service_eqb (service (op c)) sv) tr.


End Gateway.

(** ** The moderation collaborator (censor-service/main.go) *)

Module Censor.

Section WithToLower.

(** strings.ToLower (Unicode aware) is library code. *)
Variable ToLower : string -> string.

(** [bannedWords map[string]bool]: the keys, each once. *)
Record CensorService : Type := { bannedWords : list string }.

Definition map_set (k : string) (m : list string) : list string :=
  if existsb (String.eqb k) m then m else m ++ [k].

Definition NewCensorService : CensorService :=
  let bannedWords := ["qwerty"; "йцукен"; "zxvbnm"] in
  {| bannedWords :=
       fold_left (fun m word => map_set (ToLower word) m) bannedWords [] |}.

Definition IsBanned (cs : CensorService) (text : string) : bool :=
  let lowerText := ToLower text in
  existsb (fun word => Contains lowerText word) (bannedWords cs).

Definition checkHandler (cs : CensorService) (b : Body) : HttpResponse :=
  match decode_CheckRequest b with
  | None => http_Error "Invalid request body" StatusBadRequest
  | Some req =>
      if IsBanned cs (ck_Text req) then
        http_Error "Text contains prohibited content" StatusBadRequest
      else
        write_json (marshal_Response
          {| Status := "success";
             Data := Some (JObj (put "message" (JStr "Text is clean") []));
             Error := ""; Pagination_ := None |})
  end.

(** strings.TrimSpace is library code as well. *)
Variable TrimSpace : string -> string.

(** [cs.bannedWords[k] = true] and [delete(cs.bannedWords, k)] on the keys. *)
Definition AddBannedWord (cs : CensorService) (word : string) : CensorService :=
  {| bannedWords := map_set (ToLower (TrimSpace word)) (bannedWords cs) |}.

Definition RemoveBannedWord (cs : CensorService) (word : string) : CensorService :=
  {| bannedWords :=
       filter (fun k => negb (String.eqb k (ToLower (TrimSpace word))))
              (bannedWords cs) |}.

End WithToLower.

End Censor.

(** ** The persistence collaborator (comment-service/main.go) *)

Module CommentService.

(** The table [comments] in rowid order and the AUTOINCREMENT counter. *)
Record DB : Type := { rows : list Comment; seq : Z }.

Definition empty : DB := {| rows := []; seq := 0 |}.

(** Which of the driver calls of a request return an error other than
    [sql.ErrNoRows]. *)
Record Faults : Type := {
  parent_lookup_fails : bool;
  insert_fails : bool;
  last_insert_id_fails : bool;
  reread_fails : bool;
  query_fails : bool;
  scan_fails : bool
}.

Definition no_faults : Faults :=
  {| parent_lookup_fails := false; insert_fails := false;
     last_insert_id_fails := false; reread_fails := false;
     query_fails := false; scan_fails := false |}.

(** [SELECT ... FROM comments WHERE id = ?] *)
Definition select_by_id (d : DB) (id : Z) : option Comment :=
  find (fun r => c_ID r =? id) (rows d).

Fixpoint insert_sorted (c : Comment) (l : list Comment) : list Comment :=
  match l with
  | [] => [c]
  | x :: r =>
      if String.leb (c_CreatedAt c) (c_CreatedAt x) then c :: l
      else x :: insert_sorted c r
  end.

(** [SELECT ... WHERE news_id = ? ORDER BY created_at ASC] *)
Definition select_by_news (d : DB) (newsID : Z) : list Comment :=
  fold_right insert_sorted [] (filter (fun r => c_NewsID r =? newsID) (rows d)).

(** [INSERT INTO comments (news_id, parent_id, text)]: the id is the next
    value of the counter, [created_at] the timestamp of the store. *)
Definition insert (d : DB) (newsID : Z) (parentID : option Z) (text now : string)
  : DB :=
  let id := seq d + 1 in
  {| rows := rows d ++ [{| c_ID := id; c_NewsID := newsID;
                           c_ParentID := parentID; c_Text := text;
                           c_CreatedAt := now |}];
     seq := id |}.

Definition getCommentsHandler (d : DB) (f : Faults) (newsIDStr : string)
  : HttpResponse :=
  if String.eqb newsIDStr "" then
    http_Error "news_id parameter is required" StatusBadRequest
  else
    match Atoi newsIDStr with
    | None => http_Error "Invalid news_id parameter" StatusBadRequest
    | Some newsID =>
        if query_fails f then
          http_Error "Failed to fetch comments" StatusInternalServerError
        else
          let comments := select_by_news d newsID in
          (* [rows.Scan] runs once per row *)
          if scan_fails f && negb (Nat.eqb (List.length comments) 0) then
            http_Error "Failed to scan comment" StatusInternalServerError
          else
            write_json (marshal_Response
              {| Status := "success";
                 Data := Some (marshal_Comments comments);
                 Error := ""; Pagination_ := None |})
    end.

Definition createCommentHandler (d : DB) (f : Faults) (now : string) (b : Body)
  : DB * HttpResponse :=
  match decode_CommentRequest b with
  | None => (d, http_Error "Invalid request body" StatusBadRequest)
  | Some req =>
    if String.eqb (Text req) "" then
      (d, http_Error "Comment text is required" StatusBadRequest)
    else if NewsID req <=? 0 then
      (d, http_Error "Valid news ID is required" StatusBadRequest)
    else
      (* Check if parent_id exists if provided *)
      let parent_check :=
        match ParentID req with
        | Some p =>
            if parent_lookup_fails f then
              Some (http_Error "Failed to validate parent comment"
                      StatusInternalServerError)
            else
              match select_by_id d p with
              | None =>
                  Some (http_Error "Parent comment does not exist"
                          StatusBadRequest)
              | Some _ => None
              end
        | None => None
        end in
      match parent_check with
      | Some failure => (d, failure)
      | None =>
        (* Insert comment *)
        let parentID :=
          match ParentID req with
          | Some p => if 0 <? p then Some p else None
          | None => None
          end in
        if insert_fails f then
          (d, http_Error "Failed to save comment" StatusInternalServerError)
        else
          let d' := insert d (NewsID req) parentID (Text req) now in
          if last_insert_id_fails f then
            (d', http_Error "Failed to get inserted comment ID"
                   StatusInternalServerError)
          else
            let id := seq d' in
            if reread_fails f then
              (d', http_Error "Failed to fetch inserted comment"
                     StatusInternalServerError)
            else
              match select_by_id d' id with
              | None =>
                  (d', http_Error "Failed to fetch inserted comment"
                         StatusInternalServerError)
              | Some comment =>
                  (d', write_json (marshal_Response
                         {| Status := "success";
                            Data := Some (marshal_Comment comment);
                            Error := ""; Pagination_ := None |}))
              end
      end
  end.

(** Every id in the table was handed out by the counter. *)
Definition ids_from_counter (d : DB) : Prop :=
  0 <= seq d /\ Forall (fun r => 1 <= c_ID r <= seq d) (rows d).

(** [DELETE FROM comments WHERE id = ?]; the AUTOINCREMENT counter of the
    schema is not touched by a deletion. *)
Definition delete (d : DB) (id : Z) : DB :=
  {| rows := filter (fun r => negb (c_ID r =? id)) (rows d); seq := seq d |}.

(** [deleteCommentHandler]; the two flags say whether the existence query
    and the DELETE return a driver error. *)
Definition deleteCommentHandler (d : DB) (exists_fails delete_fails : bool)
  (idStr : string) : DB * HttpResponse :=
  match Atoi idStr with
  | None => (d, http_Error "Invalid comment ID" StatusBadRequest)
  | Some id =>
      if exists_fails then
        (d, http_Error "Failed to check comment existence"
              StatusInternalServerError)
      else
        match select_by_id d id with
        | None => (d, http_Error "Comment not found" StatusNotFound)
        | Some _ =>
            if delete_fails then
              (d, http_Error "Failed to delete comment"
                    StatusInternalServerError)
            else
              (delete d id,
               write_json (marshal_Response
                 {| Status := "success";
                    Data := Some (JObj (put "message"
                              (JStr "Comment deleted successfully") []));
                    Error := ""; Pagination_ := None |}))
        end
  end.

(** Every recorded parent is an id handed out before the comment's own. *)
Definition parents_precede (d : DB) : Prop :=
  Forall (fun r => match c_ParentID r with
                   | Some p => 1 <= p < c_ID r
                   | None => True
                   end) (rows d).

End CommentService.

(** ** The news collaborator (news-aggregator/main.go) *)

Module NewsAggregator.

(** The five mock items; their dates are taken from the clock at the time
    of the call. *)
Definition mockNews (now : Z) : list NewsItem :=
  [ {| n_ID := 1;
       n_Title := "Новости технологий";
       n_Content := "В этом выпуске: последние обновления в мире технологий, новые релизы и тренды.";
       n_Date := Format now |};
    {| n_ID := 2;
       n_Title := "Экономическая аналитика";
       n_Content := "Анализ текущей экономической ситуации и прогнозы на ближайшие месяцы.";
       n_Date := Format (now + (-24) * Hour) |};
    {| n_ID := 3;
       n_Title := "Политические события";
       n_Content := "Обзор последних политических событий в стране и за рубежом.";
       n_Date := Format (now + (-48) * Hour) |};
    {| n_ID := 4;
       n_Title := "Спортивные новости";
       n_Content := "Результаты последних соревнований и интервью с известными спортсменами.";
       n_Date := Format (now + (-12) * Hour) |};
    {| n_ID := 5;
       n_Title := "Культура и искусство";
       n_Content := "Открытие новых выставок, премьеры фильмов и театральных постановок.";
       n_Date := Format (now + (-36) * Hour) |} ].

Definition findNewsByID (now : Z) (id : Z) : option NewsItem :=
  find (fun item => n_ID item =? id) (mockNews now).

Definition getNewsByIDHandler (now : Z) (idStr : string) : HttpResponse :=
  match Atoi idStr with
  | None => http_Error "Invalid news ID" StatusBadRequest
  | Some id =>
      match findNewsByID now id with
      | None => http_Error "News not found" StatusNotFound
      | Some news => write_json (marshal_NewsItem news)
      end
  end.

(** The 64-bit wrap-around of [int] arithmetic. *)
Definition wrap64 (z : Z) : Z := (z + 2 ^ 63) mod 2 ^ 64 - 2 ^ 63.

Definition toLower (s : string) : string := ToLowerASCII s.

(** The loop of [indexOf]: [k] iterations are left, the next one at [i]. *)
Fixpoint indexOf_from (k i : nat) (s substr : string) : Z :=
  match k with
  | O => -1
  | S k' =>
      if String.eqb (substring i (String.length substr) s) substr
      then Z.of_nat i
      else indexOf_from k' (S i) s substr
  end.

(** [for i := 0; i <= len(s)-len(substr); i++]. *)
Definition indexOf (s substr : string) : Z :=
  indexOf_from (String.length s + 1 - String.length substr) 0 s substr.

Definition contains (s substr : string) : bool :=
  (String.length substr <=? String.length s)%nat
  && (String.eqb s substr
      || Nat.eqb (String.length substr) 0
      || (0 <=? indexOf s substr)).

Definition containsIgnoreCase (s substr : string) : bool :=
  contains s substr || contains s (toLower substr).

(** [l[a:b]] for [0 <= a <= b <= len(l)]. *)
Definition slice {A : Type} (l : list A) (a b : Z) : list A :=
  firstn (Z.to_nat (b - a)) (skipn (Z.to_nat a) l).

(** [generateMockNews]: [None] when the final slice expression panics;
    otherwise whether the slice is nil, and its items. *)
Definition generateMockNews (now page pageSize : Z) (search : string)
  : option (bool * list NewsItem) :=
  let '(isnil, mockNews) :=
    if String.eqb search "" then (false, mockNews now)
    else
      let filtered :=
        filter (fun item => containsIgnoreCase (n_Title item) search
                            || containsIgnoreCase (n_Content item) search)
               (mockNews now) in
      (match filtered with [] => true | _ => false end, filtered) in
  let len := Z.of_nat (List.length mockNews) in
  let start := wrap64 (wrap64 (page - 1) * pageSize) in
  let start := if len <=? start then len else start in
  let end_ := wrap64 (start + pageSize) in
  let end_ := if len <? end_ then len else end_ in
  if (0 <=? start) && (start <=? end_)
  then Some (isnil, slice mockNews start end_)
  else None.

Definition marshal_NewsItems (isnil : bool) (l : list NewsItem) : json :=
  if isnil then JNull else JArr (map marshal_NewsItem l).

(** [getNewsHandler] of the news source; a panic is left to the recovery
    middleware. *)
Definition getNewsHandler (now : Z) (page_q pageSize_q search : string)
  : Outcome :=
  let page := Atoi_value page_q in
  let page := if page =? 0 then 1 else page in
  let pageSize := Atoi_value pageSize_q in
  let pageSize := if pageSize =? 0 then 10 else pageSize in
  match generateMockNews now page pageSize search with
  | None => Panicked
  | Some (isnil, news) =>
      let total := Z.of_nat (List.length news) in
      let totalPages :=
        wrap64 (Z.quot (wrap64 (wrap64 (total + pageSize) - 1)) pageSize) in
      Responded (write_json (marshal_Response
        {| Status := "success";
           Data := Some (marshal_NewsItems isnil news);
           Error := "";
           Pagination_ := Some {| Page := page; PageSize := pageSize;
                                  Total := total; TotalPages := totalPages |} |}))
  end.

End NewsAggregator.

(** ** The four services together *)

Section System.

Variable float64_literal : Z -> option Z.
Variable ToLower : string -> string.

Record World : Type := {
  censor : Censor.CensorService;
  db : CommentService.DB;
  faults : CommentService.Faults;
  stamp : string;            (* CURRENT_TIMESTAMP as the driver returns it *)
  now : Z;                   (* clock of the news source *)
  news_list : Z -> Z -> string -> HttpResponse;
                             (* GET /news of the news source: mock data,
                                search and paging are not modelled *)
  down : Service -> bool     (* collaborators that cannot be reached *)
}.

Definition with_db (w : World) (d : CommentService.DB) : World :=
  {| censor := censor w; db := d; faults := faults w;
     stamp := stamp w; now := now w; news_list := news_list w;
     down := down w |}.

Definition reply_of (r : HttpResponse) : Reply := Replied (code r) (body r).

(** The collaborators answering the gateway's outbound requests. *)
Definition answer (w : World) (c : Outbound) : World * Reply :=
  if down w (service (op c)) then (w, TransportError)
  else
    match op c with
    | PostCheck payload =>
        (w, reply_of (Censor.checkHandler ToLower (censor w) (BJson payload)))
    | PostComments payload =>
        let '(d, r) :=
          CommentService.createCommentHandler
            (db w) (faults w) (stamp w) (BJson payload) in
        (with_db w d, reply_of r)
    | GetComments newsID =>
        (w, reply_of (CommentService.getCommentsHandler
                        (db w) (faults w) (Itoa newsID)))
    | GetNews id =>
        (w, reply_of (NewsAggregator.getNewsByIDHandler (now w) id))
    | GetNewsList page pageSize search =>
        (w, reply_of (news_list w page pageSize search))
    end.

(** One inbound request served by the gateway in front of the three
    collaborators. *)
Definition serve (w : World) (fresh : N) (r : Request)
  : World * list Outbound * Outcome :=
  run answer w (gateway float64_literal fresh r).

End System.

(** ** Observations on a run *)

Definition state_of {S : Type} (x : S * list Outbound * Outcome) : S :=
  fst (fst x).

Definition trace_of {S : Type} (x : S * list Outbound * Outcome) : list Outbound :=
  snd (fst x).

Definition outcome_of {S : Type} (x : S * list Outbound * Outcome) : Outcome :=
  snd x.

(** Every way a program can end satisfies [P]. *)
Inductive Leaves (P : Outcome -> Prop) : Prog -> Prop :=
| Leaves_Ret : forall o, P o -> Leaves P (Ret o)
| Leaves_Call : forall c k, (forall r, Leaves P (k r)) -> Leaves P (Call c k).

(** Every request a program can issue satisfies [Q]. *)
Inductive Issues (Q : Outbound -> Prop) : Prog -> Prop :=
| Issues_Ret : forall o, Issues Q (Ret o)
| Issues_Call : forall c k,
    Q c -> (forall r, Issues Q (k r)) -> Issues Q (Call c k).

(** The envelope the specification expects for a failure. *)
Definition error_envelope (msg : string) : json :=
  marshal_Response
    {| Status := "error"; Data := None; Error := msg; Pagination_ := None |}.

Definition success_envelope (data : json) : json :=
  marshal_Response
    {| Status := "success"; Data := Some data; Error := ""; Pagination_ := None |}.

(** The [data] member of a JSON response, and the members of the merged
    detail payload. *)
Definition data_of (o : Outcome) : option json :=
  match o with
  | Responded r => v <- document (body r) ;; field "data" v
  | Panicked => None
  end.

Definition news_of (o : Outcome) : option json :=
  d <- data_of o ;; field "news" d.

Definition comments_of (o : Outcome) : option json :=
  d <- data_of o ;; field "comments" d.

Definition request_id_of (o : Outcome) : option json :=
  d <- data_of o ;; field "request_id" d.

Definition news_member (k : string) (o : Outcome) : option json :=
  n <- news_of o ;; field k n.

(** How a JSON document can start: a blank (the decoder skips it), an
    opening brace, bracket or quote, a minus sign, a digit, or one of the
    three literals. *)
Definition starts_document (s : string) : bool :=
  String.prefix "true" s || String.prefix "false" s || String.prefix "null" s ||
  match s with
  | EmptyString => false
  | String c _ =>
      let n := N_of_ascii c in
      existsb (N.eqb n) [123; 91; 34; 45; 32; 9; 10; 13]%N
      || ((48 <=? n)%N && (n <=? 57)%N)
  end.

(** The messages the three collaborators pass to [http.Error]. *)
Definition collaborator_errors : list string :=
  [ "Invalid request body"; "Text contains prohibited content";
    "news_id parameter is required"; "Invalid news_id parameter";
    "Failed to fetch comments"; "Failed to scan comment";
    "Comment text is required"; "Valid news ID is required";
    "Parent comment does not exist"; "Failed to validate parent comment";
    "Failed to save comment"; "Failed to get inserted comment ID";
    "Failed to fetch inserted comment"; "Invalid news ID"; "News not found" ].

(** A GET /news/{id} and a POST /comment request. *)
Definition get_news (id rid : string) : Request :=
  {| route := NewsByID id; X_Request_ID := rid; req_body := BText "" |}.

Definition post_comment (b : Body) (rid : string) : Request :=
  {| route := PostComment; X_Request_ID := rid; req_body := b |}.

Definition at_time (w : World) (t : Z) : World :=
  {| censor := censor w; db := db w; faults := faults w;
     stamp := stamp w; now := t; news_list := news_list w; down := down w |}.

(** The list endpoint of the news source in the examples, none of which
    asks for the list. *)
Definition no_list : Z -> Z -> string -> HttpResponse :=
  fun _ _ _ => http_Error "" StatusInternalServerError.

(** The services as [main] starts them: the three banned words, an empty
    table, every collaborator reachable. *)
Definition initial (ToLower : string -> string) (ts : string) (t : Z) : World :=
  {| censor := Censor.NewCensorService ToLower;
     db := CommentService.empty;
     faults := CommentService.no_faults;
     stamp := ts; now := t;
     news_list := no_list;
     down := fun _ => false |}.

(** An instance of the [float64] parameter for the examples, all of whose
    numbers are below 2^53: it is never consulted there. *)
Definition no_literal : Z -> option Z := fun _ => None.



(** A response is either a JSON document with status 200 or the plain
    text of [http.Error] with another status. *)
Definition plain_or_json (o : Outcome) : Prop :=
  match o with
  | Responded r =>
      (code r = StatusOK /\ exists v, r = write_json v)
      \/ (code r <> StatusOK /\ exists msg, r = http_Error msg (code r))
  | Panicked => False
  end.

(** The moderation request for a text. *)
Definition check_of (text : string) : Op :=
  PostCheck (JObj [("text", JStr text)]).

(** A POST /comment served by the gateway against any collaborators. *)
Definition submit {S : Type} (float64_literal : Z -> option Z)
  (answer : S -> Outbound -> S * Reply) (s : S) (fresh : N) (b : Body)
  (rid : string) : S * list Outbound * Outcome :=
  run answer s (gateway float64_literal fresh (post_comment b rid)).

(** What a detail request returns, step by step. *)
Definition detail_result (float64_literal : Z -> option Z) (w : World)
  (cid id : string)
  : World * list Outbound * Outcome :=
  let fail msg c := Responded (http_Error msg c) in
  let news := {| op := GetNews id; header := [] |} in
  match Atoi id with
  | None => (w, [], fail "Invalid news ID" StatusBadRequest)
  | Some n =>
    let comments := {| op := GetComments n; header := [] |} in
    if down w NewsSvc then
      (w, [news], fail "Failed to fetch news" StatusInternalServerError)
    else
      match NewsAggregator.findNewsByID (now w) n with
      | None =>
          (w, [news],
           fail "Failed to decode news response" StatusInternalServerError)
      | Some item =>
        if down w CommentSvc then
          (w, [news; comments],
           fail "Failed to fetch comments" StatusInternalServerError)
        else
          match decode_Response float64_literal
                  (body (CommentService.getCommentsHandler
                           (db w) (faults w) (Itoa n))) with
          | None =>
              (w, [news; comments],
               fail "Failed to decode comments response"
                    StatusInternalServerError)
          | Some cr =>
              (w, [news; comments],
               Responded (write_json (success_envelope
                 (JObj [("comments", any_value (Data cr));
                        ("news", marshal_NewsItem item);
                        ("request_id", JStr cid)]))))
          end
      end
  end.

(** The [int] fields of a decoded request are in range. *)
Definition int_fields (r : CommentRequest) : Prop :=
  in_int64 (NewsID r) = true /\
  match ParentID r with Some p => in_int64 p = true | None => True end.

(** The parent the store records: a positive [parent_id], else none. *)
Definition stored_parent (p : option Z) : option Z :=
  match p with
  | Some n => if 0 <? n then Some n else None
  | None => None
  end.

Definition stored_comment (d : CommentService.DB) (req : CommentRequest)
  (ts : string) : Comment :=
  {| c_ID := CommentService.seq d + 1; c_NewsID := NewsID req;
     c_ParentID := stored_parent (ParentID req);
     c_Text := Text req; c_CreatedAt := ts |}.

(** The comment as the gateway writes it back: the members of the map it
    was decoded into, in key order. *)
Definition gateway_Comment (c : Comment) : json :=
  JObj ([("created_at", JStr (c_CreatedAt c)); ("id", JNum (c_ID c));
         ("news_id", JNum (c_NewsID c))]
        ++ marshal_parent (c_ParentID c)
        ++ [("text", JStr (c_Text c))]).

(** Sample submissions and a world whose censor cannot be reached. *)
Definition qwerty_comment : Body :=
  BJson (JObj [("news_id", JNum 1); ("text", JStr "contains qwerty")]).

Definition hello_comment : Body :=
  BJson (JObj [("news_id", JNum 1); ("text", JStr "hello")]).

Definition without_censor (w : World) : World :=
  {| censor := censor w; db := db w; faults := faults w;
     stamp := stamp w; now := now w; news_list := news_list w;
     down := fun sv => match sv with CensorSvc => true | _ => down w sv end |}.

(** ** Notions used to state the behaviour of the remaining code *)

(** [sub] occurs in [s]. *)
Definition Substring (sub s : string) : Prop :=
  exists pre post, s = pre ++ sub ++ post.

(** [sub] occurs in [s] at byte offset [i]. *)
Definition occurs_at (i : nat) (sub s : string) : Prop :=
  exists pre post, String.length pre = i /\ s = pre ++ sub ++ post.

(** The mock items a search keeps: all of them for the empty search. *)
Definition matching (now : Z) (search : string) : list NewsItem :=
  if String.eqb search "" then NewsAggregator.mockNews now
  else filter (fun item =>
                 NewsAggregator.containsIgnoreCase (n_Title item) search
                 || NewsAggregator.containsIgnoreCase (n_Content item) search)
              (NewsAggregator.mockNews now).

(** The [pagination] member of a list response. *)
Definition pagination_of (o : Outcome) : option json :=
  match o with
  | Responded r => v <- document (body r) ;; field "pagination" v
  | Panicked => None
  end.

(** The number a decimal numeral denotes when read left to right after
    the value [n]. *)
Fixpoint read_digits (d : Decimal.uint) (n : Z) : Z :=
  match d with
  | Decimal.Nil => n
  | Decimal.D0 d => read_digits d (10 * n)
  | Decimal.D1 d => read_digits d (10 * n + 1)
  | Decimal.D2 d => read_digits d (10 * n + 2)
  | Decimal.D3 d => read_digits d (10 * n + 3)
  | Decimal.D4 d => read_digits d (10 * n + 4)
  | Decimal.D5 d => read_digits d (10 * n + 5)
  | Decimal.D6 d => read_digits d (10 * n + 6)
  | Decimal.D7 d => read_digits d (10 * n + 7)
  | Decimal.D8 d => read_digits d (10 * n + 8)
  | Decimal.D9 d => read_digits d (10 * n + 9)
  end.

(** The requests that change the comment store, and the store after a
    sequence of them, starting from the empty table. *)
Inductive StoreRequest : Type :=
| CreateComment (f : CommentService.Faults) (now : string) (b : Body)
| DeleteComment (exists_fails delete_fails : bool) (idStr : string).

Definition store_step (d : CommentService.DB) (r : StoreRequest)
  : CommentService.DB :=
  match r with
  | CreateComment f now b =>
      fst (CommentService.createCommentHandler d f now b)
  | DeleteComment ef df idStr =>
      fst (CommentService.deleteCommentHandler d ef df idStr)
  end.

Definition store_after (l : list StoreRequest) : CommentService.DB :=
  fold_left store_step l CommentService.empty.

Definition by_created_at (a b : Comment) : Prop :=
  String.leb (c_CreatedAt a) (c_CreatedAt b) = true.

(** The part of the store's [createCommentHandler] that follows the
    INSERT: reading the id and the row back from the table [d']. *)
Definition after_insert (f : CommentService.Faults) (d' : CommentService.DB)
  : HttpResponse :=
  if CommentService.last_insert_id_fails f then
    http_Error "Failed to get inserted comment ID" StatusInternalServerError
  else if CommentService.reread_fails f then
    http_Error "Failed to fetch inserted comment" StatusInternalServerError
  else
    match CommentService.select_by_id d' (CommentService.seq d') with
    | None =>
        http_Error "Failed to fetch inserted comment" StatusInternalServerError
    | Some comment => write_json (success_envelope (marshal_Comment comment))
    end.

(** The two requests of the submission pipeline under the identifier
    [cid]. *)
Definition check_request (cid text : string) : Outbound :=
  {| op := check_of text;
     header := [("Content-Type", "application/json"); ("X-Request-ID", cid)] |}.

Definition save_request (cid : string) (req : CommentRequest) : Outbound :=
  {| op := PostComments (marshal_CommentRequest req);
     header := [("Content-Type", "application/json"); ("X-Request-ID", cid)] |}.

(** What the gateway's [createCommentHandler] makes of the store's reply. *)
Definition relay_store_reply (float64_literal : Z -> option Z) (r : Reply)
  : Outcome :=
  match r with
  | TransportError =>
      Responded (http_Error "Failed to save comment" StatusInternalServerError)
  | Replied status b =>
      if negb (status =? StatusOK) then
        Responded (http_Error "Failed to save comment" StatusInternalServerError)
      else
        match decode_Response float64_literal b with
        | None =>
            Responded (http_Error "Failed to decode comment response"
                         StatusInternalServerError)
        | Some commentResponse =>
            Responded (write_json (marshal_Response commentResponse))
        end
  end.

(** strings.TrimSpace on texts whose white space is ASCII: the bytes
    tab, line feed, vertical tab, form feed, carriage return and space
    are cut from both ends. *)
Definition is_space (c : ascii) : bool :=
  let n := N_of_ascii c in
  ((9 <=? n)%N && (n <=? 13)%N) || (n =? 32)%N.

Fixpoint trim_left (s : string) : string :=
  match s with
  | EmptyString => EmptyString
  | String c r => if is_space c then trim_left r else s
  end.

Fixpoint trim_right (s : string) : string :=
  match s with
  | EmptyString => EmptyString
  | String c r =>
      match trim_right r with
      | EmptyString => if is_space c then EmptyString else String c EmptyString
      | r' => String c r'
      end
  end.

Definition TrimSpaceASCII (s : string) : string := trim_right (trim_left s).

(** Collaborators whose status codes are passed through [f]; transport
    errors, bodies and state changes are as before. *)
Definition restatus {S : Type} (f : Z -> Z)
  (answer : S -> Outbound -> S * Reply) (s : S) (c : Outbound) : S * Reply :=
  let '(s1, r) := answer s c in
  (s1, match r with
       | TransportError => TransportError
       | Replied status b => Replied (f status) b
       end).

(** The comments of [l] carry numbers that a [float64] holds exactly. *)
Definition exact_numbers (c : Comment) : Prop :=
  Z.abs (c_ID c) <= 2 ^ 53 /\ Z.abs (c_NewsID c) <= 2 ^ 53 /\
  match c_ParentID c with Some p => Z.abs p <= 2 ^ 53 | None => True end.

(** A news item as the gateway writes it back from the map it was decoded
    into: the members in key order. *)
Definition gateway_NewsItem (n : NewsItem) : json :=
  JObj [("content", JStr (n_Content n)); ("date", JStr (n_Date n));
        ("id", JNum (n_ID n)); ("title", JStr (n_Title n))].

(** A GET /news request with its three query values. *)
Definition list_news (page_q pageSize_q search rid : string) : Request :=
  {| route := NewsList page_q pageSize_q search;
     X_Request_ID := rid; req_body := BText "" |}.

(** ** Sample data for the examples *)

Definition sample_comment : Comment :=
  {| c_ID := 1; c_NewsID := 1; c_ParentID := None;
     c_Text := "hello"; c_CreatedAt := "ts" |}.

Definition sample_store : CommentService.DB :=
  {| CommentService.rows := [sample_comment]; CommentService.seq := 1 |}.

Definition hello_request : CommentRequest :=
  {| NewsID := 1; ParentID := None; Text := "hello" |}.

Definition reply_request : CommentRequest :=
  {| NewsID := 1; ParentID := Some 7; Text := "hello" |}.

(** The first page of the news source at clock 0, without a search. *)
Definition sample_list : HttpResponse :=
  write_json (marshal_Response
    {| Status := "success";
       Data := Some (NewsAggregator.marshal_NewsItems false
                       (NewsAggregator.mockNews 0));
       Error := "";
       Pagination_ := Some {| Page := 1; PageSize := 10;
                              Total := 5; TotalPages := 1 |} |}).

Definition with_faults (w : World) (f : CommentService.Faults) : World :=
  {| censor := censor w; db := db w; faults := f;
     stamp := stamp w; now := now w; news_list := news_list w;
     down := down w |}.

Definition without_store (w : World) : World :=
  {| censor := censor w; db := db w; faults := faults w;
     stamp := stamp w; now := now w; news_list := news_list w;
     down := fun sv => match sv with CommentSvc => true | _ => down w sv end |}.

Definition reread_fault : CommentService.Faults :=
  {| CommentService.parent_lookup_fails := false;
     CommentService.insert_fails := false;
     CommentService.last_insert_id_fails := false;
     CommentService.reread_fails := true;
     CommentService.query_fails := false;
     CommentService.scan_fails := false |}.

(** ** Basic facts *)

Lemma run_Leaves :
  forall (S : Type) (answer : S -> Outbound -> S * Reply) (P : Outcome -> Prop)
         (p : Prog) (s : S),
    Leaves P p -> P (outcome_of (run answer s p)).
Proof.
  intros S answer P p s H. revert s.
  induction H as [o Ho | c k _ IH]; intros s; simpl.
  - exact Ho.
  - destruct (answer s c) as [s1 r].
    specialize (IH r s1).
    destruct (run answer s1 (k r)) as [[s2 tr] o]. exact IH.
Qed.

Lemma run_Issues :
  forall (S : Type) (answer : S -> Outbound -> S * Reply) (Q : Outbound -> Prop)
         (p : Prog) (s : S),
    Issues Q p -> Forall Q (trace_of (run answer s p)).
Proof.
  intros S answer Q p s H. revert s.
  induction H as [o | c k Hc _ IH]; intros s; simpl.
  - constructor.
  - destruct (answer s c) as [s1 r].
    specialize (IH r s1).
    destruct (run answer s1 (k r)) as [[s2 tr] o].
    constructor; assumption.
Qed.

Lemma http_Error_is_no_document :
  forallb (fun m => negb (starts_document (m ++ LF))) collaborator_errors = true.
Proof. reflexivity. Qed.

Lemma hex_S_not_empty : forall d n, hex (S d) n <> EmptyString.
Proof.
  intros d n. simpl. destruct (hex d (n / 16)%N); discriminate.
Qed.

Lemma uuid_String_not_empty : forall u, uuid_String u <> EmptyString.
Proof.
  intros u. unfold uuid_String.
  pose proof (hex_S_not_empty 7 (u / 2 ^ 96)%N) as H.
  destruct (hex 8 (u / 2 ^ 96)%N); [ congruence | discriminate ].
Qed.

Lemma eqb_empty_false : forall s, s <> "" -> String.eqb s "" = false.
Proof. intros s H. apply String.eqb_neq. exact H. Qed.

(** The identifier the middleware binds is never empty. *)
Lemma requestIDMiddleware_binds :
  forall fresh next r,
    exists rid, rid <> "" /\
      requestIDMiddleware fresh next r = next (Some rid) r /\
      (X_Request_ID r <> "" -> rid = X_Request_ID r).
Proof.
  intros fresh next r. unfold requestIDMiddleware.
  destruct (String.eqb (X_Request_ID r) "") eqn:E.
  - exists (uuid_String fresh). split; [ apply uuid_String_not_empty | ].
    split; [ reflexivity | ].
    apply String.eqb_eq in E. congruence.
  - exists (X_Request_ID r). apply String.eqb_neq in E. auto.
Qed.

(** ** The comment submission pipeline *)

Section Submission.

Variable float64_literal : Z -> option Z.
Variables (S : Type) (answer : S -> Outbound -> S * Reply).

(** A submission that fails the local checks ends at once. *)
Lemma submission_invalid :
  forall ctx b,
    match decode_CommentRequest b with
    | Some req => Text req = "" \/ NewsID req <= 0
    | None => True
    end ->
    exists msg,
      createCommentHandler float64_literal ctx b =
      respond (http_Error msg StatusBadRequest).
Proof.
  intros ctx b H. unfold createCommentHandler.
  destruct (decode_CommentRequest b) as [req|]; [ | eauto ].
  destruct (String.eqb (Text req) "") eqn:Et; [ eauto | ].
  destruct (NewsID req <=? 0) eqn:En; [ eauto | ].
  apply String.eqb_neq in Et. apply Z.leb_gt in En.
  destruct H; [ contradiction | lia ].
Qed.

(** A valid submission starts with the moderation request, which carries
    the correlation identifier. *)
Lemma submission_valid :
  forall rid b req,
    decode_CommentRequest b = Some req ->
    Text req <> "" -> 0 < NewsID req ->
    exists k,
      createCommentHandler float64_literal (Some rid) b =
      Call {| op := check_of (Text req);
              header := [("Content-Type", "application/json");
                         ("X-Request-ID", rid)] |} k
      /\ k TransportError =
         respond (http_Error "Failed to check comment with censor service"
                    StatusInternalServerError)
      /\ (forall status rb, status <> StatusOK ->
            k (Replied status rb) =
            respond (http_Error "Comment contains prohibited content"
                       StatusBadRequest)).
Proof.
  intros rid b req Hd Ht Hn. unfold createCommentHandler. rewrite Hd.
  rewrite (eqb_empty_false _ Ht).
  assert (En : (NewsID req <=? 0) = false) by (apply Z.leb_gt; exact Hn).
  rewrite En. simpl. eexists. split; [ reflexivity | ]. split; [ reflexivity | ].
  intros status rb Hs.
  assert (E : (status =? StatusOK) = false) by (apply Z.eqb_neq; exact Hs).
  rewrite E. reflexivity.
Qed.

(** C1.  A submission that passes the local validation and whose
    moderation request is answered with a status other than 200 is
    answered with HTTP 400, and no request goes to the comment
    collaborator. *)
Theorem C1_rejection_blocks_persistence :
  forall (s s1 : S) (fresh : N) (rid : string) (b : Body) (req : CommentRequest)
         (status : Z) (rb : Body),
    decode_CommentRequest b = Some req ->
    Text req <> "" -> 0 < NewsID req ->
    (forall c, op c = check_of (Text req) ->
               answer s c = (s1, Replied status rb)) ->
    status <> StatusOK ->
    outcome_of (submit float64_literal answer s fresh b rid) =
      Responded (http_Error "Comment contains prohibited content" StatusBadRequest)
    /\ calls_to CommentSvc
         (trace_of (submit float64_literal answer s fresh b rid)) = []
    /\ state_of (submit float64_literal answer s fresh b rid) = s1.
Proof.
  intros s s1 fresh rid b req status rb Hd Ht Hn Hans Hs.
  unfold submit, gateway.
  destruct (requestIDMiddleware_binds fresh (routes float64_literal)
              (post_comment b rid)) as (id & _ & -> & _).
  unfold routes. simpl route. simpl req_body.
  destruct (submission_valid id b req Hd Ht Hn) as (k & -> & _ & Hk).
  simpl run. rewrite Hans by reflexivity.
  rewrite (Hk status rb Hs). simpl. auto.
Qed.

(** C2.  A submission whose moderation request fails in transport is
    answered with HTTP 500, and no request goes to the comment
    collaborator. *)
Theorem C2_unreachable_moderation_fails_closed :
  forall (s s1 : S) (fresh : N) (rid : string) (b : Body) (req : CommentRequest),
    decode_CommentRequest b = Some req ->
    Text req <> "" -> 0 < NewsID req ->
    (forall c, op c = check_of (Text req) ->
               answer s c = (s1, TransportError)) ->
    outcome_of (submit float64_literal answer s fresh b rid) =
      Responded (http_Error "Failed to check comment with censor service"
                   StatusInternalServerError)
    /\ calls_to CommentSvc
         (trace_of (submit float64_literal answer s fresh b rid)) = []
    /\ state_of (submit float64_literal answer s fresh b rid) = s1.
Proof.
  intros s s1 fresh rid b req Hd Ht Hn Hans.
  unfold submit, gateway.
  destruct (requestIDMiddleware_binds fresh (routes float64_literal)
              (post_comment b rid)) as (id & _ & -> & _).
  unfold routes. simpl route. simpl req_body.
  destruct (submission_valid id b req Hd Ht Hn) as (k & -> & Hk & _).
  simpl run. rewrite Hans by reflexivity.
  rewrite Hk. simpl. auto.
Qed.

(** C6.  A submission whose text is empty or whose news id is not positive
    is answered with HTTP 400 and no downstream request is issued at all. *)
Theorem C6_invalid_submission_makes_no_call :
  forall (s : S) (fresh : N) (rid : string) (b : Body) (req : CommentRequest),
    decode_CommentRequest b = Some req ->
    Text req = "" \/ NewsID req <= 0 ->
    (exists msg,
       outcome_of (submit float64_literal answer s fresh b rid) =
       Responded (http_Error msg StatusBadRequest))
    /\ trace_of (submit float64_literal answer s fresh b rid) = []
    /\ state_of (submit float64_literal answer s fresh b rid) = s.
Proof.
  intros s fresh rid b req Hd Hbad.
  unfold submit, gateway.
  destruct (requestIDMiddleware_binds fresh (routes float64_literal)
              (post_comment b rid)) as (id & _ & -> & _).
  unfold routes. simpl route. simpl req_body.
  destruct (submission_invalid (Some id) b) as (msg & ->).
  - rewrite Hd. exact Hbad.
  - simpl. eauto.
Qed.

End Submission.

(** ** The detail aggregator *)

Ltac step_leaves :=
  match goal with
  | |- Leaves _ (respond _) => apply Leaves_Ret
  | |- Leaves _ (Ret _) => apply Leaves_Ret
  | |- Leaves _ (Call _ _) => apply Leaves_Call; intros [ | ? ? ]
  | |- Leaves _ (match ?x with _ => _ end) => destruct x eqn:?
  end.

Ltac step_issues :=
  match goal with
  | |- Issues _ (respond _) => apply Issues_Ret
  | |- Issues _ (Ret _) => apply Issues_Ret
  | |- Issues _ (Call _ _) => apply Issues_Call; [ | intros [ | ? ? ] ]
  | |- Issues _ (match ?x with _ => _ end) => destruct x eqn:?
  end.

Lemma plain_error : forall msg c, c <> StatusOK -> plain_or_json (Responded (http_Error msg c)).
Proof. intros msg c H. simpl. right. split; [ exact H | eauto ]. Qed.

Lemma json_ok : forall v, plain_or_json (Responded (write_json v)).
Proof. intros v. simpl. left. split; [ reflexivity | eauto ]. Qed.

(** Every way the gateway can end is a 200 JSON document or an
    [http.Error] text. *)
Lemma gateway_Leaves :
  forall f64 fresh r, Leaves plain_or_json (gateway f64 fresh r).
Proof.
  intros f64 fresh r. unfold gateway.
  destruct (requestIDMiddleware_binds fresh (routes f64) r) as (id & _ & -> & _).
  unfold routes. destruct (route r).
  - apply Leaves_Ret. apply json_ok.
  - unfold getNewsHandler. cbv zeta.
    repeat step_leaves; first [ apply json_ok | apply plain_error; discriminate ].
  - unfold getNewsByIDHandler.
    repeat step_leaves; first [ apply json_ok | apply plain_error; discriminate ].
  - unfold createCommentHandler.
    repeat step_leaves; first [ apply json_ok | apply plain_error; discriminate ].
Qed.

(** No request of the detail aggregator carries a header. *)
Lemma detail_Issues :
  forall f64 ctx id,
    Issues (fun c => header c = []) (getNewsByIDHandler f64 ctx id).
Proof.
  intros f64 ctx id. unfold getNewsByIDHandler.
  repeat step_issues; reflexivity.
Qed.

Lemma list_Issues :
  forall f64 page page_size search,
    Issues (fun c => header c = []) (getNewsHandler f64 page page_size search).
Proof.
  intros f64 page page_size search. unfold getNewsHandler. cbv zeta.
  repeat step_issues; reflexivity.
Qed.

(** Both requests of the submission pipeline carry the identifier. *)
Lemma submission_Issues :
  forall f64 rid b,
    Issues (fun c => Header_Get (header c) "X-Request-ID" = rid)
           (createCommentHandler f64 (Some rid) b).
Proof.
  intros f64 rid b. unfold createCommentHandler.
  repeat step_issues; reflexivity.
Qed.

Section Detail.

Variable float64_literal : Z -> option Z.
Variable ToLower : string -> string.

Lemma answer_GetNews :
  forall w id h,
    answer ToLower w {| op := GetNews id; header := h |} =
    if down w NewsSvc then (w, TransportError)
    else (w, reply_of (NewsAggregator.getNewsByIDHandler (now w) id)).
Proof. reflexivity. Qed.

Lemma answer_GetComments :
  forall w n h,
    answer ToLower w {| op := GetComments n; header := h |} =
    if down w CommentSvc then (w, TransportError)
    else (w, reply_of (CommentService.getCommentsHandler
                         (db w) (faults w) (Itoa n))).
Proof. reflexivity. Qed.

(** C7.  A detail request for an identifier the news collaborator does not
    know ends in a failure (an [http.Error] with a status other than 200),
    issues no request to the comment collaborator, and returns no
    payload. *)
Theorem C7_unknown_news_fetches_no_comments :
  forall (w : World) (fresh : N) (rid id : string),
    (forall n, Atoi id = Some n ->
               NewsAggregator.findNewsByID (now w) n = None) ->
    (exists msg c,
       outcome_of (serve float64_literal ToLower w fresh (get_news id rid)) =
       Responded (http_Error msg c) /\ c <> StatusOK)
    /\ calls_to CommentSvc
         (trace_of (serve float64_literal ToLower w fresh (get_news id rid))) = []
    /\ data_of
         (outcome_of (serve float64_literal ToLower w fresh (get_news id rid))) = None.
Proof.
  intros w fresh rid id Hnone.
  unfold serve, gateway.
  destruct (requestIDMiddleware_binds fresh (routes float64_literal)
              (get_news id rid)) as (cid & _ & -> & _).
  unfold routes. simpl route. unfold getNewsByIDHandler.
  destruct (Atoi id) as [n|] eqn:Ea.
  - simpl run. rewrite answer_GetNews.
    destruct (down w NewsSvc).
    + simpl. split; [ do 2 eexists; split; [ reflexivity | discriminate ] | auto ].
    + unfold NewsAggregator.getNewsByIDHandler. rewrite Ea.
      rewrite (Hnone n eq_refl). simpl.
      split; [ do 2 eexists; split; [ reflexivity | discriminate ] | auto ].
  - simpl. split; [ do 2 eexists; split; [ reflexivity | discriminate ] | auto ].
Qed.

End Detail.

(** C3.  On GET /news/1 with the inbound header X-Request-ID: abc the
    gateway fetches the news item and the comment list without any
    header: the identifier is not forwarded (it only appears in the
    payload).  The same holds for every request of the two GET /news
    routes, whereas both requests of the submission pipeline carry the
    identifier. *)
Theorem C3_detail_requests_drop_request_id :
  trace_of (serve no_literal ToLowerASCII (initial ToLowerASCII "" 0) 0
              (get_news "1" "abc")) =
    [ {| op := GetNews "1"; header := [] |};
      {| op := GetComments 1; header := [] |} ]
  /\ request_id_of
       (outcome_of (serve no_literal ToLowerASCII (initial ToLowerASCII "" 0) 0
                      (get_news "1" "abc"))) = Some (JStr "abc")
  /\ (forall f64 (S : Type) (answer : S -> Outbound -> S * Reply) s fresh r,
        match route r with
        | PostComment => True
        | _ =>
            Forall (fun c => Header_Get (header c) "X-Request-ID" = "")
                   (trace_of (run answer s (gateway f64 fresh r)))
        end)
  /\ (forall f64 rid b,
        Issues (fun c => Header_Get (header c) "X-Request-ID" = rid)
               (createCommentHandler f64 (Some rid) b)).
Proof.
  split; [ vm_compute; reflexivity | ].
  split; [ vm_compute; reflexivity | ].
  split; [ | exact submission_Issues ].
  intros f64 S answer s fresh r. unfold gateway.
  destruct (requestIDMiddleware_binds fresh (routes f64) r)
    as (cid & _ & -> & _).
  assert (Hno : forall c : Outbound,
             header c = [] -> Header_Get (header c) "X-Request-ID" = "")
    by (intros c Hc; rewrite Hc; reflexivity).
  unfold routes. destruct (route r); [ | | | exact I ].
  - constructor.
  - eapply Forall_impl; [ exact Hno | apply run_Issues; apply list_Issues ].
  - eapply Forall_impl; [ exact Hno | apply run_Issues; apply detail_Issues ].
Qed.

(** ** The detail aggregator in front of its two collaborators *)

Lemma ParseUint_digits_nonneg :
  forall s n, 0 <= n -> 0 <= fst (ParseUint_digits s n).
Proof.
  induction s as [|c r IH]; intros n Hn; cbn [ParseUint_digits].
  - exact Hn.
  - unfold digit_of.
    set (a := Z.of_N (N_of_ascii c)).
    destruct ((48 <=? a) && (a <=? 57)) eqn:Ed; [ | cbn [fst]; lia ].
    apply andb_prop in Ed. destruct Ed as [E1 E2].
    apply Z.leb_le in E1. apply Z.leb_le in E2.
    destruct (max_uint64 / 10 + 1 <=? n); [ cbn [fst]; unfold max_uint64; lia | ].
    destruct (max_uint64 <? n * 10 + (a - 48));
      [ cbn [fst]; unfold max_uint64; lia | ].
    apply IH. lia.
Qed.

Lemma Atoi_in_int64 : forall s n, Atoi s = Some n -> in_int64 n = true.
Proof.
  intros s n H. unfold Atoi, ParseInt in H.
  destruct s as [|c r]; [ discriminate | ].
  set (ds := if (Ascii.eqb c "-" || Ascii.eqb c "+")%bool then r else String c r)
    in H.
  assert (Hun : 0 <= fst (ParseUint ds)).
  { unfold ParseUint. destruct ds; [ simpl; lia | ].
    apply ParseUint_digits_nonneg. lia. }
  destruct (ParseUint ds) as [un e]. simpl in Hun.
  assert (Hcases :
    (if negb (Ascii.eqb c "-") && (max_int64 + 1 <=? un)
     then (max_int64, Some ErrRange)
     else if Ascii.eqb c "-" && (max_int64 + 1 <? un)
          then (min_int64, Some ErrRange)
          else (if Ascii.eqb c "-" then - un else un, None)) = (n, None)).
  { destruct e as [[ | ]|]; [ cbv iota beta in H; discriminate | | ];
      match type of H with
      | (let (_, _) := ?x in _) = _ => destruct x as [m [e'|]]
      end; try discriminate; injection H as <-; reflexivity. }
  clear H.
  unfold in_int64.
  destruct (Ascii.eqb c "-"); cbn [negb andb] in Hcases.
  - destruct (max_int64 + 1 <? un) eqn:E; [ discriminate | ].
    injection Hcases as <-. apply Z.ltb_ge in E.
    unfold max_int64, min_int64 in *. apply andb_true_intro.
    split; apply Z.leb_le; lia.
  - destruct (max_int64 + 1 <=? un) eqn:E; [ discriminate | ].
    injection Hcases as <-. apply Z.leb_gt in E.
    unfold max_int64, min_int64 in *. apply andb_true_intro.
    split; apply Z.leb_le; lia.
Qed.

Lemma decode_marshal_NewsItem :
  forall x, in_int64 (n_ID x) = true ->
    decode_NewsItem (BJson (marshal_NewsItem x)) = Some x.
Proof.
  intros [i t c d] H. simpl in H.
  unfold decode_NewsItem, marshal_NewsItem. simpl.
  rewrite H. reflexivity.
Qed.

(** The news source knows the identifiers 1 to 5, whatever the clock. *)
Lemma findNewsByID_some :
  forall t n item,
    NewsAggregator.findNewsByID t n = Some item ->
    n_ID item = n /\ In item (NewsAggregator.mockNews t) /\ 1 <= n <= 5.
Proof.
  intros t n item H. unfold NewsAggregator.findNewsByID in H.
  apply find_some in H. destruct H as [Hin Heq].
  apply Z.eqb_eq in Heq. split; [ exact Heq | ]. split; [ exact Hin | ].
  subst n. simpl in Hin.
  repeat (destruct Hin as [<- | Hin]; [ simpl; lia | ]). contradiction.
Qed.

Lemma findNewsByID_clock :
  forall t1 t2 n,
    match NewsAggregator.findNewsByID t1 n, NewsAggregator.findNewsByID t2 n with
    | Some a, Some b =>
        n_ID a = n_ID b /\ n_Title a = n_Title b /\ n_Content a = n_Content b
    | None, None => True
    | _, _ => False
    end.
Proof.
  intros t1 t2 n. unfold NewsAggregator.findNewsByID, NewsAggregator.mockNews.
  cbn [find n_ID].
  repeat (destruct (_ =? n); [ cbn [n_ID n_Title n_Content]; auto | ]). exact I.
Qed.

Lemma select_by_news_none :
  forall d n,
    (forall c, In c (CommentService.rows d) -> c_NewsID c <> n) ->
    CommentService.select_by_news d n = [].
Proof.
  intros d n H. unfold CommentService.select_by_news.
  replace (filter (fun r => c_NewsID r =? n) (CommentService.rows d))
    with (@nil Comment); [ reflexivity | ].
  symmetry. induction (CommentService.rows d) as [|c l IH]; [ reflexivity | ].
  simpl. destruct (c_NewsID c =? n) eqn:E.
  - apply Z.eqb_eq in E. exfalso. apply (H c); [ left; reflexivity | exact E ].
  - apply IH. intros c' Hc'. apply H. right. exact Hc'.
Qed.

Lemma Atoi_Itoa_small : forall n, 1 <= n <= 5 -> Atoi (Itoa n) = Some n.
Proof.
  intros n H.
  assert (E : n = 1 \/ n = 2 \/ n = 3 \/ n = 4 \/ n = 5) by lia.
  destruct E as [-> | [-> | [-> | [-> | ->]]]]; reflexivity.
Qed.

Section DetailRun.

Variable float64_literal : Z -> option Z.
Variable ToLower : string -> string.

Lemma serve_detail :
  forall w fresh id rid,
    exists cid,
      cid <> "" /\ (rid <> "" -> cid = rid) /\
      serve float64_literal ToLower w fresh (get_news id rid) =
      detail_result float64_literal w cid id.
Proof.
  intros w fresh id rid. unfold serve, gateway.
  destruct (requestIDMiddleware_binds fresh (routes float64_literal)
              (get_news id rid)) as (cid & Hne & -> & Hrid).
  exists cid. split; [ exact Hne | ]. split; [ exact Hrid | ].
  unfold routes, detail_result. simpl route. unfold getNewsByIDHandler.
  destruct (Atoi id) as [n|] eqn:Ea; [ | reflexivity ].
  simpl run. rewrite answer_GetNews.
  destruct (down w NewsSvc); [ reflexivity | ].
  unfold NewsAggregator.getNewsByIDHandler. rewrite Ea.
  destruct (NewsAggregator.findNewsByID (now w) n) as [item|] eqn:Ef;
    [ | reflexivity ].
  unfold reply_of at 1. unfold write_json at 1. cbv beta iota.
  simpl body. simpl code.
  rewrite decode_marshal_NewsItem.
  2:{ apply findNewsByID_some in Ef. destruct Ef as (-> & _).
      eapply Atoi_in_int64. exact Ea. }
  simpl run. rewrite answer_GetComments.
  destruct (down w CommentSvc); [ reflexivity | ].
  unfold reply_of.
  destruct (decode_Response float64_literal
              (body (CommentService.getCommentsHandler (db w) (faults w) (Itoa n))));
    reflexivity.
Qed.

End DetailRun.

Section DetailClaims.

Variable float64_literal : Z -> option Z.
Variable ToLower : string -> string.

Lemma detail_result_state :
  forall w cid id, state_of (detail_result float64_literal w cid id) = w.
Proof.
  intros w cid id. unfold detail_result.
  destruct (Atoi id); [ | reflexivity ].
  destruct (down w NewsSvc); [ reflexivity | ].
  destruct (NewsAggregator.findNewsByID (now w) z); [ | reflexivity ].
  destruct (down w CommentSvc); [ reflexivity | ].
  destruct (decode_Response _ _); reflexivity.
Qed.

(** An empty result set is written by the comment collaborator as
    [data: null]. *)
Lemma getComments_empty :
  forall d f n,
    1 <= n <= 5 ->
    (forall c, In c (CommentService.rows d) -> c_NewsID c <> n) ->
    CommentService.query_fails f = false ->
    CommentService.getCommentsHandler d f (Itoa n) =
    write_json (JObj [("status", JStr "success"); ("data", JNull)]).
Proof.
  intros d f n Hn Hrows Hq. unfold CommentService.getCommentsHandler.
  rewrite (Atoi_Itoa_small n Hn).
  replace (String.eqb (Itoa n) "") with false.
  2:{ assert (E : n = 1 \/ n = 2 \/ n = 3 \/ n = 4 \/ n = 5) by lia.
      destruct E as [-> | [-> | [-> | [-> | ->]]]]; reflexivity. }
  rewrite Hq. rewrite (select_by_news_none d n Hrows).
  cbn [List.length Nat.eqb negb]. rewrite andb_false_r. reflexivity.
Qed.

(** C10.  For a news item without stored comments the comment collaborator
    answers with [data: null], and the detail payload of the gateway has
    [comments: null] (not an empty array) next to the news item and the
    correlation identifier. *)
Theorem C10_no_comments_is_null :
  forall (w : World) (fresh : N) (rid id : string) (n : Z) (item : NewsItem),
    Atoi id = Some n ->
    NewsAggregator.findNewsByID (now w) n = Some item ->
    (forall c, In c (CommentService.rows (db w)) -> c_NewsID c <> n) ->
    down w NewsSvc = false -> down w CommentSvc = false ->
    CommentService.query_fails (faults w) = false ->
    CommentService.getCommentsHandler (db w) (faults w) (Itoa n) =
      write_json (JObj [("status", JStr "success"); ("data", JNull)])
    /\ (exists cid,
          outcome_of (serve float64_literal ToLower w fresh (get_news id rid)) =
          Responded (write_json (success_envelope
            (JObj [("comments", JNull);
                   ("news", marshal_NewsItem item);
                   ("request_id", JStr cid)]))))
    /\ comments_of
         (outcome_of (serve float64_literal ToLower w fresh (get_news id rid))) =
       Some JNull
    /\ Some JNull <> Some (JArr []).
Proof.
  intros w fresh rid id n item Ea Ef Hrows Hdn Hdc Hq.
  assert (Hn : 1 <= n <= 5) by (apply findNewsByID_some in Ef; tauto).
  pose proof (getComments_empty (db w) (faults w) n Hn Hrows Hq) as Hc.
  split; [ exact Hc | ].
  destruct (serve_detail float64_literal ToLower w fresh id rid)
    as (cid & _ & _ & ->).
  unfold detail_result. rewrite Ea, Hdn, Ef, Hdc, Hc.
  split; [ exists cid; reflexivity | ].
  split; [ reflexivity | discriminate ].
Qed.

(** C8, as amended.  Reading the detail of a news item does not change the
    store; a second read of the same identifier, at any later clock
    reading and under any correlation identifier, returns the same
    [comments] and the same [id], [title] and [content] of the news item;
    the whole [news] member is the same when both reads see the same
    clock reading. *)
Theorem C8_repeated_detail_reads :
  forall (w : World) (fresh1 fresh2 : N) (rid1 rid2 id : string) (t1 t2 : Z),
    let first :=
      serve float64_literal ToLower (at_time w t1) fresh1 (get_news id rid1) in
    let second (t : Z) :=
      serve float64_literal ToLower (at_time (state_of first) t) fresh2
            (get_news id rid2) in
    db (state_of first) = db w
    /\ comments_of (outcome_of first) = comments_of (outcome_of (second t2))
    /\ news_member "id" (outcome_of first) =
       news_member "id" (outcome_of (second t2))
    /\ news_member "title" (outcome_of first) =
       news_member "title" (outcome_of (second t2))
    /\ news_member "content" (outcome_of first) =
       news_member "content" (outcome_of (second t2))
    /\ news_of (outcome_of first) = news_of (outcome_of (second t1)).
Proof.
  intros w fresh1 fresh2 rid1 rid2 id t1 t2 first second.
  subst first second. cbv beta.
  destruct (serve_detail float64_literal ToLower (at_time w t1) fresh1 id rid1)
    as (cid1 & _ & _ & ->).
  rewrite detail_result_state.
  destruct (serve_detail float64_literal ToLower (at_time (at_time w t1) t2)
              fresh2 id rid2) as (cid2 & _ & _ & ->).
  destruct (serve_detail float64_literal ToLower (at_time (at_time w t1) t1)
              fresh2 id rid2) as (cid3 & _ & _ & ->).
  split; [ reflexivity | ].
  unfold detail_result. cbn [at_time down now db faults].
  destruct (Atoi id) as [n|]; [ | cbn; tauto ].
  destruct (down w NewsSvc); [ cbn; tauto | ].
  pose proof (findNewsByID_clock t1 t2 n) as Hclock.
  destruct (NewsAggregator.findNewsByID t1 n) as [a|],
           (NewsAggregator.findNewsByID t2 n) as [b|];
    try contradiction; [ | cbn; tauto ].
  destruct Hclock as (Hid & Htitle & Hcontent).
  destruct (down w CommentSvc); [ cbn; tauto | ].
  destruct (decode_Response float64_literal _); [ | cbn; tauto ].
  cbn. rewrite Hid, Htitle, Hcontent. tauto.
Qed.

End DetailClaims.

(** C8, as stated, fails: two reads of news item 1 one second apart, with no
    write in between, return different [news] members (the [date] of the
    mock item is the time of the read). *)
Lemma C8_counterexample :
  let w := initial ToLowerASCII "" 0 in
  let first := serve no_literal ToLowerASCII w 0 (get_news "1" "abc") in
  let second :=
    serve no_literal ToLowerASCII (at_time (state_of first) 1) 0
          (get_news "1" "abc") in
  db (state_of first) = db w
  /\ news_of (outcome_of first) <> news_of (outcome_of second)
  /\ news_member "date" (outcome_of first) = Some (JStr "1970-01-01 00:00:00")
  /\ news_member "date" (outcome_of second) = Some (JStr "1970-01-01 00:00:01").
Proof.
  cbv zeta. split; [ reflexivity | ].
  split; [ vm_compute; discriminate | ].
  split; vm_compute; reflexivity.
Qed.

(** ** The submission pipeline in front of the censor and the store *)

Lemma CommentRequest_members_int :
  forall kvs acc r,
    CommentRequest_members kvs acc = Some r -> int_fields acc -> int_fields r.
Proof.
  induction kvs as [| [k v] kvs IH]; intros acc r H Hacc; simpl in H.
  - injection H as <-. exact Hacc.
  - destruct Hacc as [Hn Hp].
    destruct (key_is "news_id" k).
    { destruct v; simpl in H; try discriminate.
      - apply (IH _ _ H). split; assumption.
      - destruct (in_int64 n) eqn:E; [ | discriminate ].
        apply (IH _ _ H). split; assumption. }
    destruct (key_is "parent_id" k).
    { destruct v; simpl in H; try discriminate.
      - apply (IH _ _ H). split; [ assumption | exact I ].
      - destruct (in_int64 n) eqn:E; [ | discriminate ].
        apply (IH _ _ H). split; assumption. }
    destruct (key_is "text" k).
    { destruct v; simpl in H; try discriminate;
        apply (IH _ _ H); split; assumption. }
    apply (IH _ _ H). split; assumption.
Qed.

Lemma decode_CommentRequest_int :
  forall b r, decode_CommentRequest b = Some r -> int_fields r.
Proof.
  intros b r H. unfold decode_CommentRequest in H.
  destruct (document b) as [[ | | | | | kvs]|]; try discriminate.
  - injection H as <-. split; [ reflexivity | exact I ].
  - apply (CommentRequest_members_int _ _ _ H). split; [ reflexivity | exact I ].
Qed.

(** What the gateway forwards is decoded by the store to the same
    request. *)
Lemma decode_marshal_CommentRequest :
  forall r, int_fields r ->
    decode_CommentRequest (BJson (marshal_CommentRequest r)) = Some r.
Proof.
  intros [n [p|] t] [Hn Hp]; simpl in Hn, Hp;
    unfold decode_CommentRequest, marshal_CommentRequest; simpl;
    rewrite Hn; simpl; [ rewrite Hp; reflexivity | reflexivity ].
Qed.

Lemma select_by_id_old :
  forall l c id,
    Forall (fun r => c_ID r <> id) l ->
    find (fun r => c_ID r =? id) (l ++ [c]) =
    if c_ID c =? id then Some c else None.
Proof.
  induction l as [|x l IH]; intros c id H; simpl.
  - reflexivity.
  - inversion H as [|? ? Hx Hl]; subst.
    apply Z.eqb_neq in Hx. rewrite Hx. apply IH. exact Hl.
Qed.

Lemma select_by_id_inserted :
  forall d newsID parent text ts,
    CommentService.ids_from_counter d ->
    CommentService.select_by_id
      (CommentService.insert d newsID parent text ts)
      (CommentService.seq (CommentService.insert d newsID parent text ts)) =
    Some {| c_ID := CommentService.seq d + 1; c_NewsID := newsID;
            c_ParentID := parent; c_Text := text; c_CreatedAt := ts |}.
Proof.
  intros d newsID parent text ts [_ Hids].
  unfold CommentService.select_by_id, CommentService.insert. simpl.
  rewrite select_by_id_old.
  - simpl. rewrite Z.eqb_refl. reflexivity.
  - eapply Forall_impl; [ | exact Hids ]. simpl. intros r Hr. lia.
Qed.

Lemma select_by_id_some :
  forall d id c,
    CommentService.ids_from_counter d ->
    CommentService.select_by_id d id = Some c ->
    1 <= id <= CommentService.seq d.
Proof.
  intros d id c [_ Hids] H. unfold CommentService.select_by_id in H.
  apply find_some in H. destruct H as [Hin Heq]. apply Z.eqb_eq in Heq.
  rewrite Forall_forall in Hids. specialize (Hids c Hin). lia.
Qed.

(** The store's invariant is kept by every request. *)
Lemma createComment_keeps_ids :
  forall d f ts b,
    CommentService.ids_from_counter d ->
    CommentService.ids_from_counter
      (fst (CommentService.createCommentHandler d f ts b)).
Proof.
  intros d f ts b H. unfold CommentService.createCommentHandler.
  assert (Hins : forall n p t,
             CommentService.ids_from_counter (CommentService.insert d n p t ts)).
  { intros n p t. destruct H as [H0 Hall]. split; simpl; [ lia | ].
    apply Forall_app. split.
    - eapply Forall_impl; [ | exact Hall ]. simpl. intros r Hr. lia.
    - constructor; [ simpl; lia | constructor ]. }
  repeat match goal with
         | |- CommentService.ids_from_counter (fst (match ?x with _ => _ end)) =>
             destruct x
         | |- CommentService.ids_from_counter (fst (let _ := _ in _)) => cbv zeta
         end; simpl; auto.
Qed.


Section SubmissionRun.

Variable float64_literal : Z -> option Z.
Variable ToLower : string -> string.

Lemma via_float64_exact :
  forall n, Z.abs n <= 2 ^ 53 -> via_float64 float64_literal n = Some n.
Proof.
  intros n H. unfold via_float64.
  apply Z.leb_le in H. rewrite H. reflexivity.
Qed.

Lemma reencode_Comment :
  forall c,
    Z.abs (c_ID c) <= 2 ^ 53 -> Z.abs (c_NewsID c) <= 2 ^ 53 ->
    match c_ParentID c with Some p => Z.abs p <= 2 ^ 53 | None => True end ->
    reencode float64_literal (marshal_Comment c) = Some (gateway_Comment c).
Proof.
  intros [i n [p|] t ts] Hi Hn Hp; simpl in Hi, Hn, Hp;
    unfold marshal_Comment, gateway_Comment; simpl;
    rewrite (via_float64_exact i Hi); simpl;
    rewrite (via_float64_exact n Hn); simpl;
    [ rewrite (via_float64_exact p Hp); reflexivity | reflexivity ].
Qed.

Lemma answer_PostCheck :
  forall w payload h,
    answer ToLower w {| op := PostCheck payload; header := h |} =
    if down w CensorSvc then (w, TransportError)
    else (w, reply_of (Censor.checkHandler ToLower (censor w) (BJson payload))).
Proof. reflexivity. Qed.

Lemma answer_PostComments :
  forall w payload h,
    answer ToLower w {| op := PostComments payload; header := h |} =
    if down w CommentSvc then (w, TransportError)
    else
      (with_db w (fst (CommentService.createCommentHandler
                         (db w) (faults w) (stamp w) (BJson payload))),
       reply_of (snd (CommentService.createCommentHandler
                        (db w) (faults w) (stamp w) (BJson payload)))).
Proof.
  intros w payload h. unfold answer. simpl.
  destruct (down w CommentSvc); [ reflexivity | ].
  destruct (CommentService.createCommentHandler _ _ _ _). reflexivity.
Qed.

(** The censor answers 200 exactly to the texts it does not ban. *)
Lemma checkHandler_code :
  forall cs text,
    code (Censor.checkHandler ToLower cs (BJson (JObj [("text", JStr text)]))) =
    if Censor.IsBanned ToLower cs text then StatusBadRequest else StatusOK.
Proof.
  intros cs text. unfold Censor.checkHandler. simpl.
  destruct (Censor.IsBanned ToLower cs text); reflexivity.
Qed.

(** The gateway decodes a success envelope to its re-encoded [data]. *)
Lemma decode_success_envelope :
  forall v v',
    v <> JNull -> reencode float64_literal v = Some v' ->
    decode_Response float64_literal (BJson (success_envelope v)) =
    Some {| Status := "success"; Data := Some v';
            Error := ""; Pagination_ := None |}.
Proof.
  intros v v' Hv Hre.
  unfold decode_Response, success_envelope, marshal_Response.
  cbn [document Data Status Error Pagination_ String.eqb app].
  cbn [Response_members]. 
  change (key_is "status" "status") with true.
  change (key_is "status" "data") with false.
  change (key_is "data" "data") with true.
  cbv iota. cbn [set_string bind Status Data Error Pagination_].
  unfold set_interface.
  destruct v; try congruence; rewrite Hre; reflexivity.
Qed.



End SubmissionRun.


(** ** Failures as the client sees them *)

(** Every way the full handler chain can end is a 200 JSON document, an
    [http.Error] text or the text of the timeout handler. *)
Lemma timeoutMiddleware_Leaves :
  forall (P : Outcome -> Prop) expired p,
    Leaves P p ->
    Leaves (fun o => (expired = true /\ o = Responded timeout_response)
                     \/ (expired = false /\ P o))
           (timeoutMiddleware expired p).
Proof.
  intros P expired p H. induction H as [o Ho | c k _ IH]; simpl.
  - apply Leaves_Ret. destruct expired; [ left | right ]; auto.
  - apply Leaves_Call. exact IH.
Qed.

Lemma server_Leaves :
  forall f64 expired fresh r,
    Leaves (fun o => (expired = true /\ o = Responded timeout_response)
                     \/ (expired = false /\ plain_or_json o))
           (server f64 expired fresh r).
Proof.
  intros f64 expired fresh r. unfold server, requestIDMiddleware.
  apply timeoutMiddleware_Leaves.
  pose proof (gateway_Leaves f64 fresh r) as H.
  unfold gateway, requestIDMiddleware in H. exact H.
Qed.

(** Within the time limit the full chain runs as [gateway] does. *)
Lemma timeoutMiddleware_in_time :
  forall (S : Type) (answer : S -> Outbound -> S * Reply) p s,
    run answer s (timeoutMiddleware false p) = run answer s p.
Proof.
  intros S answer p. induction p as [o | c k IH]; intros s; simpl.
  - reflexivity.
  - destruct (answer s c) as [s1 r]. rewrite IH. reflexivity.
Qed.

Lemma server_in_time :
  forall f64 (S : Type) (answer : S -> Outbound -> S * Reply) s fresh r,
    run answer s (server f64 false fresh r) = run answer s (gateway f64 fresh r).
Proof.
  intros f64 S answer s fresh r. unfold server, gateway, requestIDMiddleware.
  apply timeoutMiddleware_in_time.
Qed.

(** Past the time limit the same requests go out and the collaborators
    end in the same state; only the answer is replaced. *)
Lemma timeoutMiddleware_expired :
  forall (S : Type) (answer : S -> Outbound -> S * Reply) p s,
    run answer s (timeoutMiddleware true p) =
    (state_of (run answer s p), trace_of (run answer s p),
     Responded timeout_response).
Proof.
  intros S answer p. induction p as [o | c k IH]; intros s; simpl.
  - reflexivity.
  - destruct (answer s c) as [s1 r]. rewrite IH.
    destruct (run answer s1 (k r)) as [[s2 tr] o]. reflexivity.
Qed.

(** C4.  The gateway never writes the failure envelope
    [{status: "error", error: <message>}].  Whatever the collaborators
    answer and whether or not the time limit passes, a response with a
    status other than 200 is text/plain and its body is text, not a JSON
    document: the message and a line feed of [http.Error], or the bare
    "Request timeout" of the timeout handler.  In particular the
    submission [{news_id: 1, text: "contains qwerty"}] against the censor
    yields 400 with the text "Comment contains prohibited content" (503
    with "Request timeout" past the time limit) after a single moderation
    request, and the store stays empty. *)
Theorem C4_failures_are_text_not_envelopes :
  (forall f64 (S : Type) (answer : S -> Outbound -> S * Reply) s expired fresh r
          resp,
      outcome_of (run answer s (server f64 expired fresh r)) = Responded resp ->
      code resp <> StatusOK ->
      content_type resp = "text/plain; charset=utf-8"
      /\ ((exists msg, resp = http_Error msg (code resp))
          \/ resp = timeout_response)
      /\ document (body resp) = None
      /\ forall msg, body resp <> BJson (error_envelope msg))
  /\ (forall expired,
        run (answer ToLowerASCII) (initial ToLowerASCII "" 0)
            (server no_literal expired 0 (post_comment qwerty_comment "abc")) =
        (initial ToLowerASCII "" 0,
         [ {| op := check_of "contains qwerty";
              header := [("Content-Type", "application/json");
                         ("X-Request-ID", "abc")] |} ],
         Responded (if expired then timeout_response
                    else http_Error "Comment contains prohibited content"
                           StatusBadRequest)))
  /\ body (http_Error "Comment contains prohibited content" StatusBadRequest) =
     BText ("Comment contains prohibited content" ++ LF)
  /\ CommentService.rows (db (initial ToLowerASCII "" 0)) = [].
Proof.
  split.
  { intros f64 S answer s expired fresh r resp Ho Hc.
    pose proof (run_Leaves S answer _ _ s (server_Leaves f64 expired fresh r))
      as H.
    cbv beta in H. rewrite Ho in H.
    assert (Hcases : (exists msg, resp = http_Error msg (code resp))
                     \/ resp = timeout_response).
    { destruct H as [[_ H] | [_ H]].
      - right. injection H as ->. reflexivity.
      - simpl in H. destruct H as [[H200 _] | [_ Hmsg]];
          [ contradiction | left; exact Hmsg ]. }
    destruct Hcases as [[msg Hmsg] | Htimeout].
    - rewrite Hmsg. cbn [content_type body http_Error document].
      split; [ reflexivity | ]. split; [ left; eauto | ].
      split; [ reflexivity | discriminate ].
    - rewrite Htimeout. cbn [content_type body timeout_response document].
      split; [ reflexivity | ]. split; [ right; reflexivity | ].
      split; [ reflexivity | discriminate ]. }
  split.
  { intros [|]; reflexivity. }
  split; reflexivity.
Qed.

(** ** The parent of a stored comment *)

Lemma no_row_zero :
  forall d, CommentService.ids_from_counter d ->
            CommentService.select_by_id d 0 = None.
Proof.
  intros d Hids.
  destruct (CommentService.select_by_id d 0) eqn:E; [ | reflexivity ].
  apply (select_by_id_some d 0 c Hids) in E. lia.
Qed.

(** In every store filled through the service, a valid request with
    [parent_id: 0] is refused and nothing is stored. *)
Lemma zero_parent_is_refused :
  forall d ts news text,
    CommentService.ids_from_counter d ->
    0 < news -> in_int64 news = true -> text <> "" ->
    CommentService.createCommentHandler d CommentService.no_faults ts
      (BJson (marshal_CommentRequest
                {| NewsID := news; ParentID := Some 0; Text := text |})) =
    (d, http_Error "Parent comment does not exist" StatusBadRequest).
Proof.
  intros d ts news text Hids Hn Hr Ht.
  unfold CommentService.createCommentHandler.
  rewrite decode_marshal_CommentRequest by (split; [ exact Hr | reflexivity ]).
  cbn [Text NewsID ParentID].
  rewrite (eqb_empty_false _ Ht).
  assert (En : (news <=? 0) = false) by (apply Z.leb_gt; exact Hn).
  rewrite En. cbv zeta. cbn [CommentService.parent_lookup_fails CommentService.no_faults].
  rewrite (no_row_zero d Hids). reflexivity.
Qed.

(** C9.  On the empty store the request
    [{news_id: 1, parent_id: 0, text: "hi"}] is refused with 400 "Parent
    comment does not exist" and nothing is stored, whereas the same
    request without [parent_id] is stored with no parent and answered
    with 200; through the gateway the first becomes a 500. *)
Theorem C9_zero_parent_is_not_no_parent :
  CommentService.createCommentHandler CommentService.empty
    CommentService.no_faults "ts"
    (BJson (JObj [("news_id", JNum 1); ("parent_id", JNum 0);
                  ("text", JStr "hi")])) =
    (CommentService.empty,
     http_Error "Parent comment does not exist" StatusBadRequest)
  /\ CommentService.createCommentHandler CommentService.empty
       CommentService.no_faults "ts"
       (BJson (JObj [("news_id", JNum 1); ("text", JStr "hi")])) =
     ({| CommentService.rows :=
           [ {| c_ID := 1; c_NewsID := 1; c_ParentID := None;
                c_Text := "hi"; c_CreatedAt := "ts" |} ];
         CommentService.seq := 1 |},
      write_json (success_envelope
        (JObj [("id", JNum 1); ("news_id", JNum 1);
               ("text", JStr "hi"); ("created_at", JStr "ts")])))
  /\ outcome_of
       (serve no_literal ToLowerASCII (initial ToLowerASCII "ts" 0) 0
          (post_comment
             (BJson (JObj [("news_id", JNum 1); ("parent_id", JNum 0);
                           ("text", JStr "hi")])) "abc")) =
     Responded (http_Error "Failed to save comment" StatusInternalServerError)
  /\ stored_parent (Some 0) = None.
Proof.
  repeat split.
Qed.

(** ** The theorems above at concrete requests *)

Lemma C1_witness :
  outcome_of (submit no_literal (answer ToLowerASCII)
                (initial ToLowerASCII "" 0) 0 qwerty_comment "abc") =
    Responded (http_Error "Comment contains prohibited content" StatusBadRequest)
  /\ calls_to CommentSvc
       (trace_of (submit no_literal (answer ToLowerASCII)
                    (initial ToLowerASCII "" 0) 0 qwerty_comment "abc")) = []
  /\ state_of (submit no_literal (answer ToLowerASCII)
                 (initial ToLowerASCII "" 0) 0 qwerty_comment "abc") =
     initial ToLowerASCII "" 0.
Proof.
  apply (C1_rejection_blocks_persistence no_literal World (answer ToLowerASCII)
           (initial ToLowerASCII "" 0) (initial ToLowerASCII "" 0) 0 "abc"
           qwerty_comment
           {| NewsID := 1; ParentID := None; Text := "contains qwerty" |}
           StatusBadRequest (BText ("Text contains prohibited content" ++ LF))).
  - reflexivity.
  - discriminate.
  - reflexivity.
  - intros [o h] Hc. simpl in Hc. subst o. reflexivity.
  - discriminate.
Defined.

Lemma C2_witness :
  outcome_of (submit no_literal (answer ToLowerASCII)
                (without_censor (initial ToLowerASCII "" 0)) 0
                hello_comment "abc") =
    Responded (http_Error "Failed to check comment with censor service"
                 StatusInternalServerError)
  /\ calls_to CommentSvc
       (trace_of (submit no_literal (answer ToLowerASCII)
                    (without_censor (initial ToLowerASCII "" 0)) 0
                    hello_comment "abc")) = []
  /\ state_of (submit no_literal (answer ToLowerASCII)
                 (without_censor (initial ToLowerASCII "" 0)) 0
                 hello_comment "abc") =
     without_censor (initial ToLowerASCII "" 0).
Proof.
  apply (C2_unreachable_moderation_fails_closed no_literal World
           (answer ToLowerASCII)
           (without_censor (initial ToLowerASCII "" 0))
           (without_censor (initial ToLowerASCII "" 0)) 0 "abc"
           hello_comment
           {| NewsID := 1; ParentID := None; Text := "hello" |}).
  - reflexivity.
  - discriminate.
  - reflexivity.
  - intros [o h] Hc. simpl in Hc. subst o. reflexivity.
Defined.

Lemma C4_witness :
  content_type
    (http_Error "Comment contains prohibited content" StatusBadRequest) =
    "text/plain; charset=utf-8"
  /\ ((exists msg,
         http_Error "Comment contains prohibited content" StatusBadRequest =
         http_Error msg
           (code (http_Error "Comment contains prohibited content"
                    StatusBadRequest)))
      \/ http_Error "Comment contains prohibited content" StatusBadRequest =
         timeout_response)
  /\ document
       (body (http_Error "Comment contains prohibited content"
                StatusBadRequest)) = None
  /\ forall msg,
       body (http_Error "Comment contains prohibited content" StatusBadRequest)
       <> BJson (error_envelope msg).
Proof.
  apply (proj1 C4_failures_are_text_not_envelopes no_literal World
           (answer ToLowerASCII) (initial ToLowerASCII "" 0) false 0%N
           (post_comment qwerty_comment "abc")
           (http_Error "Comment contains prohibited content" StatusBadRequest)).
  - reflexivity.
  - discriminate.
Defined.


Lemma C6_witness :
  (exists msg,
     outcome_of (submit no_literal (answer ToLowerASCII)
                   (initial ToLowerASCII "" 0) 0
                   (BJson (JObj [("news_id", JNum 0); ("text", JStr "hello")]))
                   "abc") =
     Responded (http_Error msg StatusBadRequest))
  /\ trace_of (submit no_literal (answer ToLowerASCII)
                 (initial ToLowerASCII "" 0) 0
                 (BJson (JObj [("news_id", JNum 0); ("text", JStr "hello")]))
                 "abc") = []
  /\ state_of (submit no_literal (answer ToLowerASCII)
                 (initial ToLowerASCII "" 0) 0
                 (BJson (JObj [("news_id", JNum 0); ("text", JStr "hello")]))
                 "abc") = initial ToLowerASCII "" 0.
Proof.
  apply (C6_invalid_submission_makes_no_call no_literal World
           (answer ToLowerASCII) (initial ToLowerASCII "" 0) 0 "abc"
           (BJson (JObj [("news_id", JNum 0); ("text", JStr "hello")]))
           {| NewsID := 0; ParentID := None; Text := "hello" |}).
  - reflexivity.
  - right. simpl. lia.
Defined.

Lemma C7_witness :
  (exists msg c,
     outcome_of (serve no_literal ToLowerASCII (initial ToLowerASCII "" 0) 0
                   (get_news "999" "abc")) =
     Responded (http_Error msg c) /\ c <> StatusOK)
  /\ calls_to CommentSvc
       (trace_of (serve no_literal ToLowerASCII (initial ToLowerASCII "" 0) 0
                    (get_news "999" "abc"))) = []
  /\ data_of
       (outcome_of (serve no_literal ToLowerASCII (initial ToLowerASCII "" 0) 0
                      (get_news "999" "abc"))) = None.
Proof.
  apply (C7_unknown_news_fetches_no_comments no_literal ToLowerASCII
           (initial ToLowerASCII "" 0) 0 "abc" "999").
  intros n H. vm_compute in H. injection H as <-. reflexivity.
Defined.

Lemma C10_witness :
  comments_of
    (outcome_of (serve no_literal ToLowerASCII (initial ToLowerASCII "" 0) 0
                   (get_news "1" "abc"))) = Some JNull.
Proof.
  apply (C10_no_comments_is_null no_literal ToLowerASCII
           (initial ToLowerASCII "" 0) 0 "abc" "1" 1
           {| n_ID := 1;
              n_Title := "Новости технологий";
              n_Content := "В этом выпуске: последние обновления в мире технологий, новые релизы и тренды.";
              n_Date := "1970-01-01 00:00:00" |}).
  - reflexivity.
  - reflexivity.
  - intros c [].
  - reflexivity.
  - reflexivity.
  - reflexivity.
Defined.

(** ** The search helpers of the news source *)

Lemma length_append :
  forall a b, String.length (a ++ b) = (String.length a + String.length b)%nat.
Proof.
  induction a as [|c a IH]; intros b; simpl; [ reflexivity | ].
  rewrite IH. reflexivity.
Qed.

Lemma substring_0_append :
  forall sub post, substring 0 (String.length sub) (sub ++ post) = sub.
Proof.
  induction sub as [|c sub IH]; intros post; simpl.
  - destruct post; reflexivity.
  - rewrite IH. reflexivity.
Qed.

Lemma substring_0_prefix :
  forall n s sub,
    substring 0 n s = sub -> String.length sub = n -> exists post, s = sub ++ post.
Proof.
  induction n as [|n IH]; intros s sub H Hlen.
  - destruct sub; [ | discriminate ]. exists s. reflexivity.
  - destruct s as [|c s]; simpl in H.
    + subst sub. discriminate.
    + destruct sub as [|c' sub]; [ discriminate | ].
      injection H as <- H. simpl in Hlen. injection Hlen as Hlen.
      destruct (IH s sub H Hlen) as [post ->]. exists post. reflexivity.
Qed.

Lemma substring_occurs :
  forall i s sub,
    (i + String.length sub <= String.length s)%nat ->
    substring i (String.length sub) s = sub -> occurs_at i sub s.
Proof.
  induction i as [|i IH]; intros s sub Hb H.
  - destruct (substring_0_prefix _ _ _ H eq_refl) as [post ->].
    exists "", post. split; reflexivity.
  - destruct s as [|c s]; [ simpl in Hb; lia | ].
    simpl in H, Hb.
    destruct (IH s sub ltac:(lia) H) as (pre & post & Hlen & ->).
    exists (String c pre), post. split; [ simpl; lia | reflexivity ].
Qed.

Lemma occurs_substring :
  forall i s sub,
    occurs_at i sub s ->
    substring i (String.length sub) s = sub
    /\ (i + String.length sub <= String.length s)%nat.
Proof.
  intros i s sub (pre & post & Hlen & ->). subst i. split.
  - induction pre as [|c pre IH]; simpl; [ apply substring_0_append | exact IH ].
  - rewrite !length_append. lia.
Qed.

(** The loop returns the first offset in its range at which [substr]
    occurs, and -1 when there is none. *)
Lemma indexOf_from_spec :
  forall k i s substr,
    (i + k = String.length s + 1 - String.length substr)%nat ->
    match NewsAggregator.indexOf_from k i s substr with
    | Zneg _ =>
        NewsAggregator.indexOf_from k i s substr = -1
        /\ forall j, (i <= j)%nat -> ~ occurs_at j substr s
    | r =>
        exists j, r = Z.of_nat j /\ (i <= j)%nat /\ occurs_at j substr s
                  /\ forall j', (i <= j' < j)%nat -> ~ occurs_at j' substr s
    end.
Proof.
  induction k as [|k IH]; intros i s substr Hk.
  - simpl. split; [ reflexivity | ].
    intros j Hj Hocc. apply occurs_substring in Hocc. lia.
  - simpl.
    destruct (String.eqb (substring i (String.length substr) s) substr) eqn:E.
    + apply String.eqb_eq in E.
      assert (Hocc : occurs_at i substr s)
        by (apply substring_occurs; [ lia | exact E ]).
      assert (Hex : exists j, Z.of_nat i = Z.of_nat j /\ (i <= j)%nat
                      /\ occurs_at j substr s
                      /\ forall j', (i <= j' < j)%nat -> ~ occurs_at j' substr s).
      { exists i. split; [ reflexivity | ]. split; [ lia | ].
        split; [ exact Hocc | ]. intros j' Hj'. lia. }
      destruct (Z.of_nat i) eqn:Ei; [ exact Hex | exact Hex | lia ].
    + apply String.eqb_neq in E.
      specialize (IH (S i) s substr ltac:(lia)).
      assert (Hi : ~ occurs_at i substr s).
      { intros Hocc. apply occurs_substring in Hocc. tauto. }
      destruct (NewsAggregator.indexOf_from k (S i) s substr) as [ | p | p ].
      * destruct IH as (j & Hj & Hle & Hocc & Hfirst).
        exists j. split; [ exact Hj | ]. split; [ lia | ].
        split; [ exact Hocc | ].
        intros j' Hj'. destruct (Nat.eq_dec j' i) as [-> | Hne];
          [ exact Hi | apply Hfirst; lia ].
      * destruct IH as (j & Hj & Hle & Hocc & Hfirst).
        exists j. split; [ exact Hj | ]. split; [ lia | ].
        split; [ exact Hocc | ].
        intros j' Hj'. destruct (Nat.eq_dec j' i) as [-> | Hne];
          [ exact Hi | apply Hfirst; lia ].
      * destruct IH as [Hr Hnone]. split; [ exact Hr | ].
        intros j Hj. destruct (Nat.eq_dec j i) as [-> | Hne];
          [ exact Hi | apply Hnone; lia ].
Qed.

(** X1.  [indexOf] returns the offset of the first occurrence of [substr]
    in [s], and -1 exactly when [substr] does not occur in [s]. *)
Theorem X1_indexOf_first_occurrence :
  forall s substr,
    (NewsAggregator.indexOf s substr = -1 /\ ~ Substring substr s)
    \/ (exists j,
          NewsAggregator.indexOf s substr = Z.of_nat j
          /\ occurs_at j substr s
          /\ forall j', (j' < j)%nat -> ~ occurs_at j' substr s).
Proof.
  intros s substr. unfold NewsAggregator.indexOf.
  pose proof (indexOf_from_spec
                (String.length s + 1 - String.length substr) 0 s substr eq_refl)
    as H.
  destruct (NewsAggregator.indexOf_from _ 0 s substr) as [ | p | p ].
  - right. destruct H as (j & Hj & _ & Hocc & Hfirst).
    exists j. split; [ exact Hj | ]. split; [ exact Hocc | ].
    intros j' Hj'. apply Hfirst. lia.
  - right. destruct H as (j & Hj & _ & Hocc & Hfirst).
    exists j. split; [ exact Hj | ]. split; [ exact Hocc | ].
    intros j' Hj'. apply Hfirst. lia.
  - left. destruct H as [Hr Hnone]. split; [ exact Hr | ].
    intros (pre & post & Hs).
    apply (Hnone (String.length pre) ltac:(lia)).
    exists pre, post. split; [ reflexivity | exact Hs ].
Qed.

Lemma indexOf_nonneg_iff :
  forall s substr,
    0 <= NewsAggregator.indexOf s substr <-> Substring substr s.
Proof.
  intros s substr. unfold NewsAggregator.indexOf.
  pose proof (indexOf_from_spec
                (String.length s + 1 - String.length substr) 0 s substr eq_refl)
    as H.
  destruct (NewsAggregator.indexOf_from _ 0 s substr) as [ | p | p ].
  - destruct H as (j & _ & _ & (pre & post & _ & Hs) & _).
    split; [ intros _; exists pre, post; exact Hs | lia ].
  - destruct H as (j & _ & _ & (pre & post & _ & Hs) & _).
    split; [ intros _; exists pre, post; exact Hs | lia ].
  - destruct H as [_ Hnone]. split; [ lia | ].
    intros (pre & post & Hs). exfalso.
    apply (Hnone (String.length pre) ltac:(lia)).
    exists pre, post. split; [ reflexivity | exact Hs ].
Qed.

Lemma append_empty_r : forall s, s ++ "" = s.
Proof.
  induction s as [|c s IH]; simpl; [ reflexivity | rewrite IH; reflexivity ].
Qed.

Lemma contains_iff :
  forall s substr,
    NewsAggregator.contains s substr = true <-> Substring substr s.
Proof.
  intros s substr. unfold NewsAggregator.contains. split.
  - intros H. apply andb_prop in H. destruct H as [_ H].
    apply orb_prop in H. destruct H as [H | H].
    + apply orb_prop in H. destruct H as [H | H].
      * apply String.eqb_eq in H. subst s. exists "", "".
        simpl. rewrite append_empty_r. reflexivity.
      * apply Nat.eqb_eq in H. destruct substr; [ | discriminate ].
        exists "", s. reflexivity.
    + apply Z.leb_le in H. apply indexOf_nonneg_iff. exact H.
  - intros Hsub. pose proof Hsub as (pre & post & ->).
    apply andb_true_intro. split.
    + apply Nat.leb_le. rewrite !length_append. lia.
    + apply orb_true_intro. right. apply Z.leb_le.
      apply indexOf_nonneg_iff. exact Hsub.
Qed.

(** X2.  [contains] decides whether [substr] occurs in [s]; in particular
    the empty string occurs in every string, and a string longer than [s]
    in none. *)
Theorem X2_contains_is_substring :
  forall s substr,
    (NewsAggregator.contains s substr = true <-> Substring substr s)
    /\ NewsAggregator.contains s "" = true
    /\ ((String.length s < String.length substr)%nat ->
        NewsAggregator.contains s substr = false).
Proof.
  intros s substr. split; [ apply contains_iff | ]. split.
  - apply contains_iff. exists "", s. reflexivity.
  - intros Hlt. unfold NewsAggregator.contains.
    apply Nat.leb_gt in Hlt. rewrite Hlt. reflexivity.
Qed.

(** X3.  [containsIgnoreCase] holds exactly when [s] contains the needle
    as given or with its ASCII capitals lowered.  Only the needle is
    lowered, never [s]: a capitalised needle finds its lower-case form,
    but a lower-case needle does not find capitals in [s]. *)
Theorem X3_containsIgnoreCase_lowers_needle_only :
  (forall s substr,
      NewsAggregator.containsIgnoreCase s substr = true <->
      Substring substr s \/ Substring (NewsAggregator.toLower substr) s)
  /\ NewsAggregator.containsIgnoreCase "breaking news" "NEWS" = true
  /\ NewsAggregator.containsIgnoreCase "Breaking NEWS" "news" = false.
Proof.
  split; [ | split; reflexivity ].
  intros s substr. unfold NewsAggregator.containsIgnoreCase.
  rewrite orb_true_iff, !contains_iff. tauto.
Qed.

(** ** The list endpoint of the news source *)

Lemma wrap64_exact :
  forall z, min_int64 <= z <= max_int64 -> NewsAggregator.wrap64 z = z.
Proof.
  intros z H. unfold NewsAggregator.wrap64, min_int64, max_int64 in *.
  rewrite Z.mod_small by lia. lia.
Qed.

Lemma ParseInt_in_int64 : forall s, in_int64 (fst (ParseInt s)) = true.
Proof.
  intros s. unfold ParseInt.
  destruct s as [|c r]; [ reflexivity | ].
  set (ds := if (Ascii.eqb c "-" || Ascii.eqb c "+")%bool then r else String c r).
  assert (Hun : 0 <= fst (ParseUint ds)).
  { unfold ParseUint. destruct ds; [ simpl; lia | ].
    apply ParseUint_digits_nonneg. lia. }
  destruct (ParseUint ds) as [un [[ | ]|]]; cbn [fst] in *; try reflexivity;
    destruct (Ascii.eqb c "-"); cbn [negb andb];
    repeat match goal with
           | |- context [if ?b then _ else _] => destruct b eqn:?
           end; cbn [fst]; try reflexivity;
    unfold in_int64, max_int64, min_int64 in *;
    repeat match goal with
           | H : (_ <=? _) = false |- _ => apply Z.leb_gt in H
           | H : (_ <? _) = false |- _ => apply Z.ltb_ge in H
           end;
    apply andb_true_intro; split; apply Z.leb_le; lia.
Qed.

Lemma Atoi_value_in_int64 :
  forall s, min_int64 <= Atoi_value s <= max_int64.
Proof.
  intros s. pose proof (ParseInt_in_int64 s) as H.
  unfold Atoi_value, in_int64 in *.
  apply andb_prop in H. destruct H as [H1 H2].
  apply Z.leb_le in H1. apply Z.leb_le in H2. lia.
Qed.


Lemma generateMockNews_matching :
  forall now page pageSize search,
    NewsAggregator.generateMockNews now page pageSize search =
    let l := matching now search in
    let len := Z.of_nat (List.length l) in
    let start :=
      NewsAggregator.wrap64 (NewsAggregator.wrap64 (page - 1) * pageSize) in
    let start := if len <=? start then len else start in
    let end_ := NewsAggregator.wrap64 (start + pageSize) in
    let end_ := if len <? end_ then len else end_ in
    if (0 <=? start) && (start <=? end_)
    then Some (negb (String.eqb search "")
               && match l with [] => true | _ => false end,
               NewsAggregator.slice l start end_)
    else None.
Proof.
  intros now page pageSize search.
  unfold NewsAggregator.generateMockNews, matching.
  destruct (String.eqb search ""); reflexivity.
Qed.

Lemma matching_length : forall now search, (List.length (matching now search) <= 5)%nat.
Proof.
  intros now search. unfold matching.
  destruct (String.eqb search ""); [ simpl; lia | ].
  etransitivity; [ apply filter_length_le | simpl; lia ].
Qed.

Lemma slice_page :
  forall (A : Type) (l : list A) (start0 size : Z),
    0 <= start0 -> 1 <= size ->
    let len := Z.of_nat (List.length l) in
    let start := if len <=? start0 then len else start0 in
    let end_ := if len <? start + size then len else start + size in
    0 <= start <= end_
    /\ NewsAggregator.slice l start end_ =
       firstn (Z.to_nat size) (skipn (Z.to_nat start0) l).
Proof.
  intros A l start0 size H0 Hs len start end_. subst start end_.
  destruct (len <=? start0) eqn:E1.
  - apply Z.leb_le in E1.
    assert (E2 : (len <? len + size) = true) by (apply Z.ltb_lt; lia).
    rewrite E2. split; [ subst len; lia | ].
    unfold NewsAggregator.slice.
    rewrite Z.sub_diag. simpl firstn.
    rewrite (skipn_all2 l) by (subst len; lia).
    destruct (Z.to_nat size); reflexivity.
  - apply Z.leb_gt in E1. unfold NewsAggregator.slice.
    destruct (len <? start0 + size) eqn:E2.
    + apply Z.ltb_lt in E2. split; [ lia | ].
      assert (Hlen : List.length (skipn (Z.to_nat start0) l)
                     = Z.to_nat (len - start0)).
      { rewrite length_skipn. subst len. lia. }
      rewrite !firstn_all2; [ reflexivity | lia | lia ].
    + apply Z.ltb_ge in E2. split; [ lia | ].
      replace (start0 + size - start0) with size by lia. reflexivity.
Qed.

(** X4.  For a page number and a page size of at least 1 whose products
    stay within the 64-bit range, [generateMockNews] does not panic and
    returns the items of the requested page: it skips [(page-1)*pageSize]
    of the items the search keeps and takes the next [pageSize]. *)
Theorem X4_generateMockNews_is_paging :
  forall now page pageSize search,
    1 <= page -> 1 <= pageSize ->
    (page - 1) * pageSize <= max_int64 -> pageSize <= max_int64 - 5 ->
    exists isnil,
      NewsAggregator.generateMockNews now page pageSize search =
      Some (isnil,
            firstn (Z.to_nat pageSize)
                   (skipn (Z.to_nat ((page - 1) * pageSize))
                          (matching now search))).
Proof.
  intros now page pageSize search Hp Hs Hmul Hsize.
  rewrite generateMockNews_matching. cbv zeta.
  pose proof (matching_length now search) as Hlen.
  set (l := matching now search) in *.
  assert (Hpage : NewsAggregator.wrap64 (page - 1) = page - 1).
  { apply wrap64_exact. unfold min_int64, max_int64 in *. nia. }
  rewrite Hpage.
  assert (Hstart : NewsAggregator.wrap64 ((page - 1) * pageSize)
                   = (page - 1) * pageSize).
  { apply wrap64_exact. unfold min_int64, max_int64 in *. nia. }
  rewrite Hstart.
  destruct (slice_page NewsItem l ((page - 1) * pageSize) pageSize
              ltac:(nia) Hs) as [Hb Hslice].
  set (start := if Z.of_nat (List.length l) <=? (page - 1) * pageSize
                then Z.of_nat (List.length l) else (page - 1) * pageSize) in *.
  assert (Hstart5 : 0 <= start <= 5).
  { subst start. destruct (Z.of_nat (List.length l) <=? (page - 1) * pageSize) eqn:E;
      [ lia | apply Z.leb_gt in E; nia ]. }
  assert (Hend : NewsAggregator.wrap64 (start + pageSize) = start + pageSize).
  { apply wrap64_exact. unfold min_int64, max_int64 in *. lia. }
  rewrite Hend.
  assert (Hok : (0 <=? start) && (start <=?
             (if Z.of_nat (List.length l) <? start + pageSize
              then Z.of_nat (List.length l) else start + pageSize)) = true).
  { apply andb_true_intro. split; apply Z.leb_le; lia. }
  rewrite Hok. rewrite Hslice. eexists. reflexivity.
Qed.

Lemma generateMockNews_negative_size :
  forall now page pageSize search,
    min_int64 <= pageSize < 0 ->
    NewsAggregator.generateMockNews now page pageSize search = None.
Proof.
  intros now page pageSize search Hs.
  rewrite generateMockNews_matching. cbv zeta.
  pose proof (matching_length now search) as Hlen.
  set (l := matching now search) in *.
  set (start0 := NewsAggregator.wrap64 (NewsAggregator.wrap64 (page - 1) * pageSize)).
  set (start := if Z.of_nat (List.length l) <=? start0
                then Z.of_nat (List.length l) else start0).
  destruct (0 <=? start) eqn:E0; [ | reflexivity ].
  apply Z.leb_le in E0.
  assert (H5 : start <= Z.of_nat (List.length l) <= 5).
  { subst start. destruct (Z.of_nat (List.length l) <=? start0) eqn:E;
      [ lia | apply Z.leb_gt in E; lia ]. }
  assert (Hend : NewsAggregator.wrap64 (start + pageSize) = start + pageSize).
  { apply wrap64_exact. unfold min_int64, max_int64 in *. lia. }
  rewrite Hend.
  assert (E2 : (Z.of_nat (List.length l) <? start + pageSize) = false)
    by (apply Z.ltb_ge; lia).
  rewrite E2.
  assert (E3 : (start <=? start + pageSize) = false) by (apply Z.leb_gt; lia).
  rewrite E3. reflexivity.
Qed.



Lemma wrap64_cases :
  forall z, min_int64 <= z <= max_int64 + max_int64 ->
    (z <= max_int64 /\ NewsAggregator.wrap64 z = z)
    \/ (max_int64 < z /\ NewsAggregator.wrap64 z < 0).
Proof.
  intros z H. destruct (Z_le_gt_dec z max_int64) as [Hle | Hgt].
  - left. split; [ exact Hle | apply wrap64_exact; lia ].
  - right. split; [ lia | ].
    unfold NewsAggregator.wrap64, min_int64, max_int64 in *.
    replace (z + 2 ^ 63) with ((z - 2 ^ 63) + 1 * 2 ^ 64) by lia.
    rewrite Z.mod_add by lia. rewrite Z.mod_small by lia. lia.
Qed.

Lemma slice_length :
  forall (A : Type) (l : list A) (a b : Z),
    0 <= a <= b ->
    Z.of_nat (List.length (NewsAggregator.slice l a b)) <= b - a
    /\ (List.length (NewsAggregator.slice l a b) <= List.length l)%nat.
Proof.
  intros A l a b H. unfold NewsAggregator.slice.
  pose proof (length_firstn (Z.to_nat (b - a)) (skipn (Z.to_nat a) l)) as H2.
  rewrite length_skipn in H2.
  split; lia.
Qed.

(** What a page that was produced looks like. *)
Lemma generateMockNews_some :
  forall now page pageSize search isnil news,
    min_int64 <= pageSize <= max_int64 -> pageSize <> 0 ->
    NewsAggregator.generateMockNews now page pageSize search = Some (isnil, news) ->
    1 <= pageSize
    /\ Z.of_nat (List.length news) <= pageSize
    /\ (List.length news <= 5)%nat
    /\ isnil = negb (String.eqb search "")
               && match matching now search with [] => true | _ => false end.
Proof.
  intros now page pageSize search isnil news Hr Hnz H.
  assert (Hpos : 1 <= pageSize).
  { destruct (Z_lt_ge_dec pageSize 0) as [Hneg | Hge]; [ | lia ].
    rewrite generateMockNews_negative_size in H by lia. discriminate. }
  split; [ exact Hpos | ].
  rewrite generateMockNews_matching in H. cbv zeta in H.
  pose proof (matching_length now search) as Hlen.
  set (l := matching now search) in *.
  set (start0 := NewsAggregator.wrap64 (NewsAggregator.wrap64 (page - 1) * pageSize))
    in *.
  set (start := if Z.of_nat (List.length l) <=? start0
                then Z.of_nat (List.length l) else start0) in *.
  set (e := NewsAggregator.wrap64 (start + pageSize)) in *.
  set (end_ := if Z.of_nat (List.length l) <? e
               then Z.of_nat (List.length l) else e) in *.
  destruct ((0 <=? start) && (start <=? end_)) eqn:Eok; [ | discriminate ].
  injection H as <- <-.
  apply andb_prop in Eok. destruct Eok as [E0 E1].
  apply Z.leb_le in E0. apply Z.leb_le in E1.
  assert (H5 : start <= Z.of_nat (List.length l)).
  { subst start. destruct (Z.of_nat (List.length l) <=? start0) eqn:E;
      [ lia | apply Z.leb_gt in E; lia ]. }
  destruct (slice_length NewsItem l start end_ (conj E0 E1)) as [Hs1 Hs2].
  assert (Hend : end_ <= start + pageSize).
  { destruct (wrap64_cases (start + pageSize)
                ltac:(unfold min_int64, max_int64 in *; lia))
      as [[_ He] | [_ He]]; fold e in He.
    - subst end_. destruct (Z.of_nat (List.length l) <? e) eqn:E;
        [ apply Z.ltb_lt in E; lia | lia ].
    - subst end_. destruct (Z.of_nat (List.length l) <? e) eqn:E;
        [ apply Z.ltb_lt in E; lia | lia ]. }
  split; [ lia | ]. split; [ lia | reflexivity ].
Qed.

(** The sum of two [int]s that exceeds the largest one wraps around. *)
Lemma wrap64_over :
  forall z, max_int64 < z <= max_int64 + max_int64 ->
    NewsAggregator.wrap64 z = z - 2 ^ 64.
Proof.
  intros z H. unfold NewsAggregator.wrap64, min_int64, max_int64 in *.
  replace (z + 2 ^ 63) with ((z - 2 ^ 63) + 1 * 2 ^ 64) by lia.
  rewrite Z.mod_add by lia. rewrite Z.mod_small by lia. lia.
Qed.

Lemma wrap64_under :
  forall z, min_int64 + min_int64 <= z < min_int64 ->
    NewsAggregator.wrap64 z = z + 2 ^ 64.
Proof.
  intros z H. unfold NewsAggregator.wrap64, min_int64, max_int64 in *.
  replace (z + 2 ^ 63) with ((z + 2 ^ 63 + 2 ^ 64) + (-1) * 2 ^ 64) by lia.
  rewrite Z.mod_add by lia. rewrite Z.mod_small by lia. lia.
Qed.

(** Go's [/] truncates: a dividend smaller in magnitude than twice the
    divisor gives -1, 0 or 1. *)
Lemma quot_small_range :
  forall a b, 0 < b -> - (2 * b) < a < 2 * b -> -1 <= Z.quot a b <= 1.
Proof.
  intros a b Hb Ha.
  pose proof (Z.quot_rem' a b) as Hqr.
  pose proof (Z.rem_bound_abs a b ltac:(lia)) as Habs.
  destruct (Z_lt_ge_dec a 0) as [Hneg | Hpos].
  - pose proof (Z.rem_nonpos a b ltac:(lia) ltac:(lia)) as Hr. nia.
  - pose proof (Z.rem_nonneg a b ltac:(lia) ltac:(lia)) as Hr. nia.
Qed.

(** X6.  In every list response of the news source [pagination.total] is
    the number of items on the returned page, never more than
    [page_size] or 5, and [total_pages] is -1, 0 or 1.  For a page size
    of at most the largest [int] minus 5, [total_pages] is 1 for a page
    with items and 0 for an empty one; for the few larger page sizes the
    sum [total + page_size - 1] can wrap around. *)
Theorem X6_list_pagination_counts_the_page :
  forall now page_q pageSize_q search r,
    NewsAggregator.getNewsHandler now page_q pageSize_q search = Responded r ->
    exists isnil news p,
      r = write_json (marshal_Response
            {| Status := "success";
               Data := Some (NewsAggregator.marshal_NewsItems isnil news);
               Error := ""; Pagination_ := Some p |})
      /\ Total p = Z.of_nat (List.length news)
      /\ Total p <= PageSize p /\ Total p <= 5
      /\ (PageSize p <= max_int64 - 5 ->
          TotalPages p = if Total p =? 0 then 0 else 1)
      /\ -1 <= TotalPages p <= 1.
Proof.
  intros now page_q pageSize_q search r H.
  unfold NewsAggregator.getNewsHandler in H.
  set (page := if Atoi_value page_q =? 0 then 1 else Atoi_value page_q) in *.
  set (pageSize := if Atoi_value pageSize_q =? 0 then 10
                   else Atoi_value pageSize_q) in *.
  assert (Hr : min_int64 <= pageSize <= max_int64 /\ pageSize <> 0).
  { pose proof (Atoi_value_in_int64 pageSize_q) as Hv. subst pageSize.
    destruct (Atoi_value pageSize_q =? 0) eqn:E;
      [ unfold min_int64, max_int64; lia | apply Z.eqb_neq in E; lia ]. }
  destruct Hr as [Hr Hnz].
  destruct (NewsAggregator.generateMockNews now page pageSize search)
    as [[isnil news]|] eqn:Eg; [ | discriminate ].
  destruct (generateMockNews_some _ _ _ _ _ _ Hr Hnz Eg)
    as (Hpos & Hle & H5 & _).
  injection H as <-.
  eexists isnil, news, _. split; [ reflexivity | ].
  cbn [Total PageSize TotalPages].
  split; [ reflexivity | ]. split; [ exact Hle | ]. split; [ lia | ].
  set (total := Z.of_nat (List.length news)) in *.
  split.
  - intros Hsz.
    assert (H1 : NewsAggregator.wrap64 (total + pageSize) = total + pageSize)
      by (apply wrap64_exact; unfold min_int64, max_int64 in *; lia).
    rewrite H1.
    assert (H2 : NewsAggregator.wrap64 (total + pageSize - 1)
                 = total + pageSize - 1)
      by (apply wrap64_exact; unfold min_int64, max_int64 in *; lia).
    rewrite H2.
    rewrite Z.quot_div_nonneg by lia.
    destruct (total =? 0) eqn:Et.
    + apply Z.eqb_eq in Et. rewrite Et.
      rewrite Z.div_small by lia. reflexivity.
    + apply Z.eqb_neq in Et.
      assert (Hq : (total + pageSize - 1) / pageSize = 1).
      { symmetry. apply (Z.div_unique _ _ 1 (total - 1)); lia. }
      rewrite Hq. reflexivity.
  - assert (Hnum : - (2 * pageSize)
                   < NewsAggregator.wrap64
                       (NewsAggregator.wrap64 (total + pageSize) - 1)
                   < 2 * pageSize).
    { destruct (Z_le_gt_dec (total + pageSize) max_int64) as [Hin | Hout].
      - rewrite (wrap64_exact (total + pageSize))
          by (unfold min_int64, max_int64 in *; lia).
        rewrite (wrap64_exact (total + pageSize - 1))
          by (unfold min_int64, max_int64 in *; lia).
        lia.
      - rewrite (wrap64_over (total + pageSize))
          by (unfold min_int64, max_int64 in *; lia).
        destruct (Z.eq_dec (total + pageSize) (max_int64 + 1)) as [Heq | Hne].
        + rewrite (wrap64_under (total + pageSize - 2 ^ 64 - 1))
            by (unfold min_int64, max_int64 in *; lia).
          unfold min_int64, max_int64 in *. lia.
        + rewrite (wrap64_exact (total + pageSize - 2 ^ 64 - 1))
            by (unfold min_int64, max_int64 in *; lia).
          unfold min_int64, max_int64 in *. lia. }
    pose proof (quot_small_range _ pageSize ltac:(lia) Hnum) as Hq.
    rewrite wrap64_exact by (unfold min_int64, max_int64; lia).
    exact Hq.
Qed.

(** X7.  The [data] of a list response is [null] exactly when a non-empty
    search keeps no item; without a search it is always an array, empty
    when the page lies behind the last item. *)
Theorem X7_list_data_null_or_array :
  forall now page_q pageSize_q search r,
    NewsAggregator.getNewsHandler now page_q pageSize_q search = Responded r ->
    (data_of (Responded r) = Some JNull <->
     search <> "" /\ matching now search = [])
    /\ (data_of (Responded r) <> Some JNull ->
        exists items, data_of (Responded r) = Some (JArr items)).
Proof.
  intros now page_q pageSize_q search r H.
  unfold NewsAggregator.getNewsHandler in H.
  set (page := if Atoi_value page_q =? 0 then 1 else Atoi_value page_q) in *.
  set (pageSize := if Atoi_value pageSize_q =? 0 then 10
                   else Atoi_value pageSize_q) in *.
  assert (Hr : min_int64 <= pageSize <= max_int64 /\ pageSize <> 0).
  { pose proof (Atoi_value_in_int64 pageSize_q) as Hv. subst pageSize.
    destruct (Atoi_value pageSize_q =? 0) eqn:E;
      [ unfold min_int64, max_int64; lia | apply Z.eqb_neq in E; lia ]. }
  destruct Hr as [Hr Hnz].
  destruct (NewsAggregator.generateMockNews now page pageSize search)
    as [[isnil news]|] eqn:Eg; [ | discriminate ].
  destruct (generateMockNews_some _ _ _ _ _ _ Hr Hnz Eg)
    as (_ & _ & _ & Hnil).
  injection H as <-.
  assert (Hdata : data_of (Responded (write_json (marshal_Response
            {| Status := "success";
               Data := Some (NewsAggregator.marshal_NewsItems isnil news);
               Error := "";
               Pagination_ := Some
                 {| Page := page; PageSize := pageSize;
                    Total := Z.of_nat (List.length news);
                    TotalPages := NewsAggregator.wrap64
                      (Z.quot (NewsAggregator.wrap64
                         (NewsAggregator.wrap64
                            (Z.of_nat (List.length news) + pageSize) - 1))
                         pageSize) |} |})))
          = Some (NewsAggregator.marshal_NewsItems isnil news))
    by reflexivity.
  rewrite Hdata. unfold NewsAggregator.marshal_NewsItems.
  split.
  - rewrite Hnil. split.
    + intros Hd. destruct (String.eqb search "") eqn:Es; [ discriminate Hd | ].
      apply String.eqb_neq in Es. split; [ exact Es | ].
      destruct (matching now search); [ reflexivity | discriminate Hd ].
    + intros [Hs Hm]. apply String.eqb_neq in Hs. rewrite Hs, Hm. reflexivity.
  - intros Hd. destruct isnil; [ congruence | eauto ].
Qed.

(** ** Decimal numerals: [%d] and [strconv.Atoi] *)

Lemma read_digits_ge : forall d n, 0 <= n -> n <= read_digits d n.
Proof.
  induction d as [ | d IH | d IH | d IH | d IH | d IH | d IH | d IH | d IH
                   | d IH | d IH ];
    intros n Hn; cbn [read_digits]; [ lia | .. ];
    (etransitivity; [ | apply IH; lia ]); lia.
Qed.

Lemma ParseUint_digits_step :
  forall c k r n,
    digit_of c = Some k -> 0 <= k <= 9 -> 0 <= n ->
    10 * n + k <= max_uint64 ->
    ParseUint_digits (String c r) n = ParseUint_digits r (10 * n + k).
Proof.
  intros c k r n Hc Hk Hn Hmax. cbn [ParseUint_digits]. rewrite Hc.
  assert (Hcut : max_uint64 / 10 + 1 = 1844674407370955162) by reflexivity.
  rewrite Hcut. unfold max_uint64 in *.
  assert (E1 : (1844674407370955162 <=? n) = false) by (apply Z.leb_gt; lia).
  rewrite E1.
  assert (E2 : (18446744073709551615 <? n * 10 + k) = false)
    by (apply Z.ltb_ge; lia).
  rewrite E2. f_equal. lia.
Qed.

Lemma ParseUint_digits_read :
  forall d n,
    0 <= n -> read_digits d n <= max_uint64 ->
    ParseUint_digits (NilEmpty.string_of_uint d) n = (read_digits d n, None).
Proof.
  induction d as [ | d IH | d IH | d IH | d IH | d IH | d IH | d IH | d IH
                   | d IH | d IH ];
    intros n Hn Hmax; [ reflexivity | .. ];
    cbn [NilEmpty.string_of_uint read_digits] in *;
    match goal with
    | H : read_digits _ (10 * n + ?k) <= max_uint64 |- _ =>
        pose proof (read_digits_ge d (10 * n + k) ltac:(lia)) as Hge;
        rewrite (ParseUint_digits_step _ k) by (first [ reflexivity | lia ]);
        apply IH; [ lia | exact H ]
    | H : read_digits _ (10 * n) <= max_uint64 |- _ =>
        pose proof (read_digits_ge d (10 * n) ltac:(lia)) as Hge;
        rewrite (ParseUint_digits_step _ 0) by (first [ reflexivity | lia ]);
        replace (10 * n + 0) with (10 * n) by lia;
        apply IH; [ lia | exact H ]
    end.
Qed.

Lemma read_digits_of_uint_acc :
  forall d acc, read_digits d (Zpos acc) = Zpos (Pos.of_uint_acc d acc).
Proof.
  induction d as [ | d IH | d IH | d IH | d IH | d IH | d IH | d IH | d IH
                   | d IH | d IH ];
    intros acc; cbn [read_digits Pos.of_uint_acc];
    [ reflexivity | .. ]; rewrite <- IH; f_equal; lia.
Qed.

Lemma read_digits_of_uint :
  forall d, read_digits d 0 = Z.of_N (Pos.of_uint d).
Proof.
  induction d as [ | d IH | d IH | d IH | d IH | d IH | d IH | d IH | d IH
                   | d IH | d IH ];
    cbn [read_digits Pos.of_uint Z.of_N]; [ reflexivity | exact IH | .. ];
    rewrite <- read_digits_of_uint_acc; reflexivity.
Qed.

Lemma read_digits_to_uint :
  forall p, read_digits (Pos.to_uint p) 0 = Zpos p.
Proof.
  intros p. rewrite read_digits_of_uint, DecimalPos.Unsigned.of_to. reflexivity.
Qed.

Lemma ParseUint_to_uint :
  forall p, Zpos p <= max_uint64 ->
    ParseUint (NilEmpty.string_of_uint (Pos.to_uint p)) = (Zpos p, None).
Proof.
  intros p Hp. unfold ParseUint.
  pose proof (DecimalPos.Unsigned.to_uint_nonnil p) as Hnn.
  pose proof (ParseUint_digits_read (Pos.to_uint p) 0 ltac:(lia)) as H.
  rewrite read_digits_to_uint in H. specialize (H Hp).
  destruct (Pos.to_uint p); [ contradiction | .. ]; exact H.
Qed.

(** Every [int] printed with [%d] is read back by [strconv.Atoi]. *)
Lemma Atoi_Itoa : forall n, in_int64 n = true -> Atoi (Itoa n) = Some n.
Proof.
  intros n Hn. unfold in_int64, min_int64, max_int64 in Hn.
  apply andb_prop in Hn. destruct Hn as [H1 H2].
  apply Z.leb_le in H1. apply Z.leb_le in H2.
  destruct n as [ | p | p ]; [ reflexivity | | ].
  - unfold Atoi, ParseInt, Itoa.
    pose proof (ParseUint_to_uint p ltac:(unfold max_uint64; lia)) as HP.
    pose proof (DecimalPos.Unsigned.to_uint_nonnil p) as Hnn.
    destruct (Pos.to_uint p) eqn:Ed; [ contradiction | .. ];
      cbn [NilEmpty.string_of_uint] in *;
      match goal with
      | |- context [Ascii.eqb ?c "-"] =>
          change (Ascii.eqb c "-") with false;
          change (Ascii.eqb c "+") with false
      end; cbn [orb negb andb]; rewrite HP;
      unfold max_int64;
      replace (9223372036854775807 + 1 <=? Z.pos p) with false
        by (symmetry; apply Z.leb_gt; lia);
      reflexivity.
  - unfold Atoi, ParseInt, Itoa.
    pose proof (ParseUint_to_uint p ltac:(unfold max_uint64; lia)) as HP.
    change (Ascii.eqb "-" "-") with true. cbn [orb negb andb].
    rewrite HP. unfold max_int64.
    replace (9223372036854775807 + 1 <? Z.pos p) with false
      by (symmetry; apply Z.ltb_ge; lia).
    reflexivity.
Qed.

(** ** The comment store: creation, listing, deletion *)

(** What a creation request does to the table. *)
Lemma createComment_cases :
  forall d f ts b,
    (fst (CommentService.createCommentHandler d f ts b) = d
     /\ code (snd (CommentService.createCommentHandler d f ts b)) <> StatusOK)
    \/ (exists req,
          decode_CommentRequest b = Some req
          /\ Text req <> "" /\ 0 < NewsID req
          /\ (forall p, ParentID req = Some p ->
                        CommentService.select_by_id d p <> None)
          /\ CommentService.insert_fails f = false
          /\ fst (CommentService.createCommentHandler d f ts b) =
             CommentService.insert d (NewsID req)
               (stored_parent (ParentID req)) (Text req) ts
          /\ snd (CommentService.createCommentHandler d f ts b) =
             after_insert f
               (CommentService.insert d (NewsID req)
                  (stored_parent (ParentID req)) (Text req) ts)).
Proof.
  intros d f ts b. unfold CommentService.createCommentHandler.
  destruct (decode_CommentRequest b) as [req|];
    [ | left; split; [ reflexivity | discriminate ] ].
  destruct (String.eqb (Text req) "") eqn:Et;
    [ left; split; [ reflexivity | discriminate ] | ].
  destruct (NewsID req <=? 0) eqn:En;
    [ left; split; [ reflexivity | discriminate ] | ].
  apply String.eqb_neq in Et. apply Z.leb_gt in En.
  cbv zeta. fold (stored_parent (ParentID req)).
  destruct (ParentID req) as [p|] eqn:Ep.
  - destruct (CommentService.parent_lookup_fails f);
      [ left; split; [ reflexivity | discriminate ] | ].
    destruct (CommentService.select_by_id d p) eqn:Es;
      [ | left; split; [ reflexivity | discriminate ] ].
    destruct (CommentService.insert_fails f) eqn:Ei;
      [ left; split; [ reflexivity | discriminate ] | ].
    right. exists req. rewrite Ep.
    repeat (split; [ first [ reflexivity | assumption ] | ]).
    split; [ intros q Hq; injection Hq as <-; congruence | ].
    split; [ reflexivity | ]. unfold after_insert.
    destruct (CommentService.last_insert_id_fails f); [ split; reflexivity | ].
    destruct (CommentService.reread_fails f); [ split; reflexivity | ].
    destruct (CommentService.select_by_id (CommentService.insert _ _ _ _ _) _);
      split; reflexivity.
  - destruct (CommentService.insert_fails f) eqn:Ei;
      [ left; split; [ reflexivity | discriminate ] | ].
    right. exists req. rewrite Ep.
    repeat (split; [ first [ reflexivity | assumption ] | ]).
    split; [ intros q Hq; discriminate | ].
    split; [ reflexivity | ]. unfold after_insert.
    destruct (CommentService.last_insert_id_fails f); [ split; reflexivity | ].
    destruct (CommentService.reread_fails f); [ split; reflexivity | ].
    destruct (CommentService.select_by_id (CommentService.insert _ _ _ _ _) _);
      split; reflexivity.
Qed.

Lemma insert_keeps_ids :
  forall d n p t ts,
    CommentService.ids_from_counter d ->
    CommentService.ids_from_counter (CommentService.insert d n p t ts).
Proof.
  intros d n p t ts [H0 Hall]. split; simpl; [ lia | ].
  apply Forall_app. split.
  - eapply Forall_impl; [ | exact Hall ]. simpl. intros r Hr. lia.
  - constructor; [ simpl; lia | constructor ].
Qed.

Lemma delete_keeps_ids :
  forall d id,
    CommentService.ids_from_counter d ->
    CommentService.ids_from_counter (CommentService.delete d id).
Proof.
  intros d id [H0 Hall]. split; [ exact H0 | ]. simpl.
  rewrite Forall_forall in *. intros r Hr.
  apply filter_In in Hr. apply Hall. tauto.
Qed.

Lemma deleteComment_cases :
  forall d ef df idStr,
    (fst (CommentService.deleteCommentHandler d ef df idStr) = d
     /\ code (snd (CommentService.deleteCommentHandler d ef df idStr)) <> StatusOK)
    \/ (exists id,
          Atoi idStr = Some id
          /\ CommentService.select_by_id d id <> None
          /\ CommentService.deleteCommentHandler d ef df idStr =
             (CommentService.delete d id,
              write_json (success_envelope
                (JObj [("message", JStr "Comment deleted successfully")])))).
Proof.
  intros d ef df idStr. unfold CommentService.deleteCommentHandler.
  destruct (Atoi idStr) as [id|];
    [ | left; split; [ reflexivity | discriminate ] ].
  destruct ef; [ left; split; [ reflexivity | discriminate ] | ].
  destruct (CommentService.select_by_id d id) eqn:Es;
    [ | left; split; [ reflexivity | discriminate ] ].
  destruct df; [ left; split; [ reflexivity | discriminate ] | ].
  right. exists id. split; [ reflexivity | ]. split; [ congruence | reflexivity ].
Qed.

Lemma store_step_invariants :
  forall d r,
    CommentService.ids_from_counter d /\ CommentService.parents_precede d ->
    CommentService.ids_from_counter (store_step d r)
    /\ CommentService.parents_precede (store_step d r).
Proof.
  intros d r [Hids Hpar]. destruct r as [f ts b | ef df idStr]; simpl.
  - destruct (createComment_cases d f ts b)
      as [[-> _] | (req & _ & _ & _ & Hp & _ & -> & _)]; [ tauto | ].
    split; [ apply insert_keeps_ids; exact Hids | ].
    unfold CommentService.parents_precede, CommentService.insert. simpl.
    apply Forall_app. split; [ exact Hpar | ].
    constructor; [ | constructor ]. simpl.
    unfold stored_parent. destruct (ParentID req) as [p|]; [ | exact I ].
    destruct (0 <? p) eqn:E; [ | exact I ].
    specialize (Hp p eq_refl).
    destruct (CommentService.select_by_id d p) eqn:Es; [ | congruence ].
    pose proof (select_by_id_some d p c Hids Es). lia.
  - destruct (deleteComment_cases d ef df idStr)
      as [[-> _] | (id & _ & _ & ->)]; [ tauto | ].
    simpl. split; [ apply delete_keeps_ids; exact Hids | ].
    unfold CommentService.parents_precede, CommentService.delete. simpl.
    unfold CommentService.parents_precede in Hpar.
    rewrite Forall_forall in *. intros r Hr.
    apply filter_In in Hr. apply Hpar. tauto.
Qed.

(** X8.  In every store reached from the empty table by creation and
    deletion requests, whatever their bodies and driver faults, all ids
    lie between 1 and the AUTOINCREMENT counter and every recorded parent
    is an id handed out before the comment's own (the parent itself may
    have been deleted since), so that a thread never loops. *)
Theorem X8_store_invariants :
  forall l : list StoreRequest,
    CommentService.ids_from_counter (store_after l)
    /\ CommentService.parents_precede (store_after l).
Proof.
  intros l. unfold store_after.
  assert (H0 : CommentService.ids_from_counter CommentService.empty
               /\ CommentService.parents_precede CommentService.empty).
  { split; [ split; [ simpl; lia | constructor ] | constructor ]. }
  revert H0. generalize CommentService.empty.
  induction l as [|r l IH]; intros d Hd; simpl; [ exact Hd | ].
  apply IH. apply store_step_invariants. exact Hd.
Qed.

Lemma find_filter_same :
  forall (l : list Comment) id,
    find (fun r => c_ID r =? id) (filter (fun r => negb (c_ID r =? id)) l) = None.
Proof.
  induction l as [|x l IH]; intros id; simpl; [ reflexivity | ].
  destruct (c_ID x =? id) eqn:E; simpl; [ apply IH | ].
  rewrite E. apply IH.
Qed.

Lemma find_filter_other :
  forall (l : list Comment) id j,
    j <> id ->
    find (fun r => c_ID r =? j) (filter (fun r => negb (c_ID r =? id)) l) =
    find (fun r => c_ID r =? j) l.
Proof.
  induction l as [|x l IH]; intros id j Hj; simpl; [ reflexivity | ].
  destruct (c_ID x =? id) eqn:E; simpl.
  - apply Z.eqb_eq in E.
    assert (E' : (c_ID x =? j) = false) by (apply Z.eqb_neq; lia).
    rewrite E'. apply IH. exact Hj.
  - destruct (c_ID x =? j); [ reflexivity | apply IH; exact Hj ].
Qed.

(** X9.  Deleting an existing comment (no driver fault) answers 200,
    removes exactly that comment: it can no longer be looked up, every
    other comment is looked up as before, and the AUTOINCREMENT counter
    stays where it was. *)
Theorem X9_delete_removes_exactly_one :
  forall d idStr id old,
    Atoi idStr = Some id ->
    CommentService.select_by_id d id = Some old ->
    let res := CommentService.deleteCommentHandler d false false idStr in
    code (snd res) = StatusOK
    /\ CommentService.select_by_id (fst res) id = None
    /\ (forall j, j <> id ->
          CommentService.select_by_id (fst res) j = CommentService.select_by_id d j)
    /\ CommentService.seq (fst res) = CommentService.seq d.
Proof.
  intros d idStr id old Ha Hs res. subst res.
  unfold CommentService.deleteCommentHandler. rewrite Ha, Hs. cbn [fst snd].
  split; [ reflexivity | ].
  unfold CommentService.select_by_id, CommentService.delete. simpl.
  split; [ apply find_filter_same | ].
  split; [ intros j Hj; apply find_filter_other; exact Hj | reflexivity ].
Qed.

(** X10.  A deletion request that is not answered with 200 leaves the
    store as it was: an id that is no integer gives 400, an id that is
    not in the table gives 404, a driver fault (in the existence query,
    or in the DELETE of a row that exists) gives 500; there is no other
    status. *)
Theorem X10_failed_delete_changes_nothing :
  forall d ef df idStr,
    let res := CommentService.deleteCommentHandler d ef df idStr in
    (code (snd res) <> StatusOK -> fst res = d)
    /\ (Atoi idStr = None ->
        res = (d, http_Error "Invalid comment ID" StatusBadRequest))
    /\ (forall id, Atoi idStr = Some id -> ef = false ->
          CommentService.select_by_id d id = None ->
          res = (d, http_Error "Comment not found" StatusNotFound))
    /\ (code (snd res) = StatusOK \/ code (snd res) = StatusBadRequest
        \/ code (snd res) = StatusNotFound
        \/ code (snd res) = StatusInternalServerError)
    /\ (forall id, Atoi idStr = Some id ->
          ef = true
          \/ (ef = false /\ CommentService.select_by_id d id <> None
              /\ df = true) ->
          code (snd res) = StatusInternalServerError /\ fst res = d).
Proof.
  intros d ef df idStr res. subst res.
  unfold CommentService.deleteCommentHandler.
  destruct (Atoi idStr) as [id|].
  - split.
    { destruct ef; [ reflexivity | ].
      destruct (CommentService.select_by_id d id); [ | reflexivity ].
      destruct df; [ reflexivity | ]. simpl. intros H. contradiction H. reflexivity. }
    split; [ discriminate | ].
    split.
    { intros j Hj -> Hs. injection Hj as <-. rewrite Hs. reflexivity. }
    split.
    { destruct ef; [ simpl; tauto | ].
      destruct (CommentService.select_by_id d id); [ | simpl; tauto ].
      destruct df; simpl; tauto. }
    intros j Hj Hfault. injection Hj as <-.
    destruct Hfault as [-> | (-> & Hsome & ->)]; [ split; reflexivity | ].
    destruct (CommentService.select_by_id d id); [ split; reflexivity | ].
    contradiction Hsome. reflexivity.
  - split; [ reflexivity | ]. split; [ reflexivity | ].
    split; [ discriminate | ]. split; [ simpl; tauto | discriminate ].
Qed.

(** X11.  Ids are never handed out twice: after the deletion of a comment
    a successful creation appends a comment whose id is larger than every
    id the store held before, and the deleted id stays unused. *)
Theorem X11_deleted_ids_are_not_reused :
  forall d idStr id old f ts b,
    CommentService.ids_from_counter d ->
    Atoi idStr = Some id ->
    CommentService.select_by_id d id = Some old ->
    let d1 := fst (CommentService.deleteCommentHandler d false false idStr) in
    let res := CommentService.createCommentHandler d1 f ts b in
    code (snd res) = StatusOK ->
    CommentService.select_by_id (fst res) id = None
    /\ exists c,
         CommentService.rows (fst res) = (CommentService.rows d1 ++ [c])%list
         /\ c_ID c = CommentService.seq d + 1
         /\ Forall (fun r => c_ID r < c_ID c) (CommentService.rows d).
Proof.
  intros d idStr id old f ts b Hids Ha Hs d1 res Hok.
  assert (Hd1 : d1 = CommentService.delete d id).
  { subst d1. unfold CommentService.deleteCommentHandler. rewrite Ha, Hs.
    reflexivity. }
  subst res.
  destruct (createComment_cases d1 f ts b)
    as [[_ Hno] | (req & _ & _ & _ & _ & _ & Hfst & _)]; [ contradiction | ].
  rewrite Hfst. rewrite Hd1.
  pose proof (select_by_id_some d id old Hids Hs) as Hid.
  split.
  - unfold CommentService.select_by_id, CommentService.insert,
      CommentService.delete. cbn [CommentService.rows CommentService.seq].
    rewrite select_by_id_old.
    + cbn [c_ID].
      assert (E : (CommentService.seq d + 1 =? id) = false)
        by (apply Z.eqb_neq; lia).
      rewrite E. reflexivity.
    + rewrite Forall_forall. intros r Hr. apply filter_In in Hr.
      destruct Hr as [_ Hr]. apply negb_true_iff in Hr.
      apply Z.eqb_neq in Hr. exact Hr.
  - eexists. split; [ reflexivity | ]. split; [ reflexivity | ].
    destruct Hids as [_ Hall]. cbn [c_ID CommentService.delete CommentService.seq].
    eapply Forall_impl; [ | exact Hall ]. simpl. intros r Hr. lia.
Qed.

Lemma insert_sorted_perm :
  forall c l, Permutation (CommentService.insert_sorted c l) (c :: l).
Proof.
  intros c l. induction l as [|x l IH]; simpl; [ apply Permutation_refl | ].
  destruct (String.leb (c_CreatedAt c) (c_CreatedAt x)).
  - apply Permutation_refl.
  - eapply Permutation_trans; [ apply perm_skip; exact IH | apply perm_swap ].
Qed.

Lemma insert_sorted_sorted :
  forall c l,
    Sorted by_created_at l -> Sorted by_created_at (CommentService.insert_sorted c l).
Proof.
  intros c l H. induction H as [|x l Hs IH Hhd]; simpl.
  - constructor; constructor.
  - destruct (String.leb (c_CreatedAt c) (c_CreatedAt x)) eqn:E.
    + constructor; [ constructor; assumption | constructor; exact E ].
    + constructor; [ exact IH | ].
      assert (Hxc : by_created_at x c).
      { unfold by_created_at.
        destruct (String.leb_total (c_CreatedAt c) (c_CreatedAt x)); congruence. }
      destruct l as [|y l]; simpl.
      * constructor. exact Hxc.
      * destruct (String.leb (c_CreatedAt c) (c_CreatedAt y));
          constructor; [ exact Hxc | inversion Hhd; assumption ].
Qed.

Lemma select_by_news_perm :
  forall d n,
    Permutation (CommentService.select_by_news d n)
                (filter (fun r => c_NewsID r =? n) (CommentService.rows d)).
Proof.
  intros d n. unfold CommentService.select_by_news.
  induction (filter (fun r => c_NewsID r =? n) (CommentService.rows d))
    as [|x l IH]; simpl; [ constructor | ].
  eapply Permutation_trans; [ apply insert_sorted_perm | ].
  apply perm_skip. exact IH.
Qed.

(** X12.  The comments selected for a news item are exactly the rows with
    that [news_id] (each as often as it is stored), in ascending order of
    [created_at]. *)
Theorem X12_comments_listed_in_creation_order :
  forall d n,
    Permutation (CommentService.select_by_news d n)
                (filter (fun r => c_NewsID r =? n) (CommentService.rows d))
    /\ Sorted by_created_at (CommentService.select_by_news d n)
    /\ (forall c, In c (CommentService.select_by_news d n) <->
                  In c (CommentService.rows d) /\ c_NewsID c = n).
Proof.
  intros d n. split; [ apply select_by_news_perm | ]. split.
  - unfold CommentService.select_by_news.
    induction (filter (fun r => c_NewsID r =? n) (CommentService.rows d))
      as [|x l IH]; simpl; [ constructor | ].
    apply insert_sorted_sorted. exact IH.
  - intros c. split.
    + intros H. apply (Permutation_in _ (select_by_news_perm d n)) in H.
      apply filter_In in H. destruct H as [H1 H2].
      apply Z.eqb_eq in H2. tauto.
    + intros [H1 H2].
      apply (Permutation_in _ (Permutation_sym (select_by_news_perm d n))).
      apply filter_In. split; [ exact H1 | apply Z.eqb_eq; exact H2 ].
Qed.

(** What a successful creation stores and returns. *)
Lemma createComment_200 :
  forall d f ts b,
    CommentService.ids_from_counter d ->
    code (snd (CommentService.createCommentHandler d f ts b)) = StatusOK ->
    exists req,
      decode_CommentRequest b = Some req
      /\ Text req <> "" /\ 0 < NewsID req
      /\ CommentService.createCommentHandler d f ts b =
         (CommentService.insert d (NewsID req)
            (stored_parent (ParentID req)) (Text req) ts,
          write_json (success_envelope
            (marshal_Comment (stored_comment d req ts)))).
Proof.
  intros d f ts b Hids Hok.
  destruct (createComment_cases d f ts b)
    as [[_ Hno] | (req & Hd & Ht & Hn & _ & _ & Hfst & Hsnd)]; [ contradiction | ].
  exists req. split; [ exact Hd | ]. split; [ exact Ht | ]. split; [ exact Hn | ].
  rewrite (surjective_pairing (CommentService.createCommentHandler d f ts b)).
  rewrite Hfst. f_equal.
  rewrite Hsnd in *. unfold after_insert in *.
  destruct (CommentService.last_insert_id_fails f); [ discriminate Hok | ].
  destruct (CommentService.reread_fails f); [ discriminate Hok | ].
  rewrite select_by_id_inserted by exact Hids. reflexivity.
Qed.

(** X13.  A comment that was created with answer 200 is listed for its
    news item: the listing request the gateway would send for that news id
    is answered with an array that contains the new comment, as returned
    at creation. *)
Theorem X13_created_comment_is_listed :
  forall d f ts b req,
    CommentService.ids_from_counter d ->
    decode_CommentRequest b = Some req ->
    code (snd (CommentService.createCommentHandler d f ts b)) = StatusOK ->
    let d' := fst (CommentService.createCommentHandler d f ts b) in
    let listed := CommentService.select_by_news d' (NewsID req) in
    In (stored_comment d req ts) listed
    /\ CommentService.getCommentsHandler d' CommentService.no_faults
         (Itoa (NewsID req)) =
       write_json (success_envelope (JArr (map marshal_Comment listed)))
    /\ snd (CommentService.createCommentHandler d f ts b) =
       write_json (success_envelope (marshal_Comment (stored_comment d req ts))).
Proof.
  intros d f ts b req Hids Hd Hok d' listed. subst d' listed.
  destruct (createComment_200 d f ts b Hids Hok) as (req' & Hd' & Ht & Hn & ->).
  rewrite Hd in Hd'. injection Hd' as <-. cbn [fst snd].
  assert (Hin : In (stored_comment d req ts)
                   (CommentService.select_by_news
                      (CommentService.insert d (NewsID req)
                         (stored_parent (ParentID req)) (Text req) ts)
                      (NewsID req))).
  { apply (Permutation_in _ (Permutation_sym (select_by_news_perm _ _))).
    apply filter_In. split.
    - unfold CommentService.insert. simpl. apply in_or_app. right.
      left. reflexivity.
    - apply Z.eqb_refl. }
  split; [ exact Hin | ]. split; [ | reflexivity ].
  unfold CommentService.getCommentsHandler.
  pose proof (decode_CommentRequest_int b req Hd) as [Hint _].
  rewrite (Atoi_Itoa _ Hint).
  replace (String.eqb (Itoa (NewsID req)) "") with false.
  2:{ symmetry. apply String.eqb_neq. intros He.
      pose proof (Atoi_Itoa _ Hint) as Ha. rewrite He in Ha. discriminate Ha. }
  cbn [CommentService.query_fails CommentService.scan_fails
       CommentService.no_faults andb].
  destruct (CommentService.select_by_news _ _) as [|c l];
    [ contradiction | reflexivity ].
Qed.

(** X14.  A creation request changes the store by at most one appended row
    whose id is the next value of the counter; every answer other than
    200 or 500 (the validation and parent failures) leaves the store
    untouched, and the counter never decreases. *)
Theorem X14_creation_appends_at_most_one_row :
  forall d f ts b,
    let res := CommentService.createCommentHandler d f ts b in
    (fst res = d
     \/ exists c,
          CommentService.rows (fst res) = (CommentService.rows d ++ [c])%list
          /\ c_ID c = CommentService.seq d + 1
          /\ c_CreatedAt c = ts
          /\ CommentService.seq (fst res) = CommentService.seq d + 1)
    /\ (code (snd res) = StatusOK -> fst res <> d)
    /\ (code (snd res) <> StatusOK ->
        code (snd res) <> StatusInternalServerError -> fst res = d)
    /\ CommentService.seq d <= CommentService.seq (fst res).
Proof.
  intros d f ts b res. subst res.
  destruct (createComment_cases d f ts b)
    as [[Hfst Hno] | (req & _ & _ & _ & _ & _ & Hfst & Hsnd)].
  - rewrite Hfst. split; [ left; reflexivity | ].
    split; [ intros H; contradiction | ]. split; [ reflexivity | lia ].
  - assert (Hne : CommentService.insert d (NewsID req)
                    (stored_parent (ParentID req)) (Text req) ts <> d).
    { intros He. apply (f_equal CommentService.seq) in He. simpl in He. lia. }
    rewrite Hfst. split.
    { right. eexists. repeat split. }
    split; [ intros _; exact Hne | ].
    split; [ | simpl; lia ].
    rewrite Hsnd. unfold after_insert.
    destruct (CommentService.last_insert_id_fails f);
      [ intros _ H; contradiction H; reflexivity | ].
    destruct (CommentService.reread_fails f);
      [ intros _ H; contradiction H; reflexivity | ].
    destruct (CommentService.select_by_id _ _);
      [ intros H; contradiction H; reflexivity
      | intros _ H; contradiction H; reflexivity ].
Qed.

(** ** The submission pipeline when the store does not answer 200 *)

(** The run of a valid submission that the censor lets pass. *)
Lemma submit_run :
  forall f64 (S : Type) (answer : S -> Outbound -> S * Reply)
         (s s1 s2 : S) fresh rid b req rb r2,
    decode_CommentRequest b = Some req ->
    Text req <> "" -> 0 < NewsID req ->
    (forall cid, answer s (check_request cid (Text req))
                 = (s1, Replied StatusOK rb)) ->
    (forall cid, answer s1 (save_request cid req) = (s2, r2)) ->
    exists cid,
      cid <> "" /\ (rid <> "" -> cid = rid) /\
      submit f64 answer s fresh b rid =
      (s2, [check_request cid (Text req); save_request cid req],
       relay_store_reply f64 r2).
Proof.
  intros f64 S answer s s1 s2 fresh rid b req rb r2 Hd Ht Hn Hc Hs.
  unfold submit, gateway.
  destruct (requestIDMiddleware_binds fresh (routes f64) (post_comment b rid))
    as (cid & Hne & -> & Hrid).
  exists cid. split; [ exact Hne | ]. split; [ exact Hrid | ].
  unfold routes. simpl route. simpl req_body. unfold createCommentHandler.
  rewrite Hd. rewrite (eqb_empty_false _ Ht).
  assert (En : (NewsID req <=? 0) = false) by (apply Z.leb_gt; exact Hn).
  rewrite En. cbv zeta. cbn [put]. cbn [run].
  fold (check_of (Text req)). fold (check_request cid (Text req)).
  rewrite Hc.
  change (negb (StatusOK =? StatusOK)) with false. cbv iota.
  cbn [run]. fold (save_request cid req). rewrite Hs.
  unfold relay_store_reply.
  destruct r2 as [|st body]; [ reflexivity | ].
  destruct (negb (st =? StatusOK)); [ reflexivity | ].
  destruct (decode_Response f64 body); reflexivity.
Qed.

(** X15.  When the moderation answers 200 but the request to the comment
    store fails in transport or is answered with any status other than
    200, the gateway answers 500 "Failed to save comment", whatever the
    store said; both requests were issued, under the same non-empty
    correlation identifier. *)
Theorem X15_store_failure_is_reported_as_500 :
  forall f64 (S : Type) (answer : S -> Outbound -> S * Reply)
         (s s1 s2 : S) fresh rid b req rb r2,
    decode_CommentRequest b = Some req ->
    Text req <> "" -> 0 < NewsID req ->
    (forall cid, answer s (check_request cid (Text req))
                 = (s1, Replied StatusOK rb)) ->
    (forall cid, answer s1 (save_request cid req) = (s2, r2)) ->
    (r2 = TransportError
     \/ exists status body, r2 = Replied status body /\ status <> StatusOK) ->
    exists cid,
      cid <> "" /\ (rid <> "" -> cid = rid) /\
      submit f64 answer s fresh b rid =
      (s2, [check_request cid (Text req); save_request cid req],
       Responded (http_Error "Failed to save comment" StatusInternalServerError)).
Proof.
  intros f64 S answer s s1 s2 fresh rid b req rb r2 Hd Ht Hn Hc Hs Hfail.
  destruct (submit_run f64 S answer s s1 s2 fresh rid b req rb r2 Hd Ht Hn Hc Hs)
    as (cid & Hne & Hrid & ->).
  exists cid. split; [ exact Hne | ]. split; [ exact Hrid | ].
  f_equal. destruct Hfail as [-> | (status & body & -> & Hst)]; [ reflexivity | ].
  unfold relay_store_reply.
  assert (E : (status =? StatusOK) = false) by (apply Z.eqb_neq; exact Hst).
  rewrite E. reflexivity.
Qed.

Section StoreFailures.

Variable float64_literal : Z -> option Z.
Variable ToLower : string -> string.

(** The run of a valid, clean submission through the four services. *)
Lemma serve_submission :
  forall w fresh rid b req,
    decode_CommentRequest b = Some req ->
    Text req <> "" -> 0 < NewsID req ->
    Censor.IsBanned ToLower (censor w) (Text req) = false ->
    down w CensorSvc = false -> down w CommentSvc = false ->
    exists cid,
      serve float64_literal ToLower w fresh (post_comment b rid) =
      (with_db w (fst (CommentService.createCommentHandler (db w) (faults w)
                         (stamp w) (BJson (marshal_CommentRequest req)))),
       [check_request cid (Text req); save_request cid req],
       relay_store_reply float64_literal
         (reply_of (snd (CommentService.createCommentHandler (db w) (faults w)
                           (stamp w) (BJson (marshal_CommentRequest req)))))).
Proof.
  intros w fresh rid b req Hd Ht Hn Hclean Hdc Hdp.
  destruct (submit_run float64_literal World (answer ToLower) w w
              (with_db w (fst (CommentService.createCommentHandler (db w)
                 (faults w) (stamp w) (BJson (marshal_CommentRequest req)))))
              fresh rid b req
              (body (Censor.checkHandler ToLower (censor w)
                       (BJson (JObj [("text", JStr (Text req))]))))
              (reply_of (snd (CommentService.createCommentHandler (db w)
                 (faults w) (stamp w) (BJson (marshal_CommentRequest req)))))
              Hd Ht Hn) as (cid & _ & _ & Hrun).
  - intros cid. unfold check_request, check_of.
    rewrite answer_PostCheck, Hdc. unfold reply_of.
    rewrite checkHandler_code, Hclean. reflexivity.
  - intros cid. unfold save_request.
    rewrite answer_PostComments, Hdp. reflexivity.
  - exists cid. exact Hrun.
Qed.

(** X16.  A submission that names a parent the store does not hold is
    refused by the store with 400, but the gateway reports it to the
    client as 500 "Failed to save comment"; nothing is stored. *)
Theorem X16_missing_parent_becomes_500 :
  forall w fresh rid b req p,
    decode_CommentRequest b = Some req ->
    Text req <> "" -> 0 < NewsID req ->
    Censor.IsBanned ToLower (censor w) (Text req) = false ->
    down w CensorSvc = false -> down w CommentSvc = false ->
    ParentID req = Some p ->
    CommentService.parent_lookup_fails (faults w) = false ->
    CommentService.select_by_id (db w) p = None ->
    let result := serve float64_literal ToLower w fresh (post_comment b rid) in
    CommentService.createCommentHandler (db w) (faults w) (stamp w)
      (BJson (marshal_CommentRequest req)) =
      (db w, http_Error "Parent comment does not exist" StatusBadRequest)
    /\ outcome_of result =
       Responded (http_Error "Failed to save comment" StatusInternalServerError)
    /\ db (state_of result) = db w
    /\ List.length (trace_of result) = 2%nat.
Proof.
  intros w fresh rid b req p Hd Ht Hn Hclean Hdc Hdp Hp Hpl Hsel result.
  subst result.
  assert (Hstore :
    CommentService.createCommentHandler (db w) (faults w) (stamp w)
      (BJson (marshal_CommentRequest req)) =
    (db w, http_Error "Parent comment does not exist" StatusBadRequest)).
  { unfold CommentService.createCommentHandler.
    rewrite (decode_marshal_CommentRequest req (decode_CommentRequest_int b req Hd)).
    rewrite (eqb_empty_false _ Ht).
    assert (En : (NewsID req <=? 0) = false) by (apply Z.leb_gt; exact Hn).
    rewrite En. cbv zeta. rewrite Hp, Hpl, Hsel. reflexivity. }
  split; [ exact Hstore | ].
  destruct (serve_submission w fresh rid b req Hd Ht Hn Hclean Hdc Hdp)
    as (cid & ->).
  rewrite Hstore. repeat split.
Qed.

(** X17.  The store does not undo its INSERT: when reading back the id or
    the row fails after the insertion (the parent, if one is named, being
    in the table), the store answers 500 and the gateway answers 500
    "Failed to save comment", yet the comment is in the table. *)
Theorem X17_failure_after_insert_keeps_the_row :
  forall w fresh rid b req,
    decode_CommentRequest b = Some req ->
    Text req <> "" -> 0 < NewsID req ->
    Censor.IsBanned ToLower (censor w) (Text req) = false ->
    down w CensorSvc = false -> down w CommentSvc = false ->
    match ParentID req with
    | Some p => CommentService.parent_lookup_fails (faults w) = false
                /\ CommentService.select_by_id (db w) p <> None
    | None => True
    end ->
    CommentService.insert_fails (faults w) = false ->
    CommentService.last_insert_id_fails (faults w) = true
    \/ CommentService.reread_fails (faults w) = true ->
    let result := serve float64_literal ToLower w fresh (post_comment b rid) in
    outcome_of result =
      Responded (http_Error "Failed to save comment" StatusInternalServerError)
    /\ CommentService.rows (db (state_of result)) =
       (CommentService.rows (db w) ++ [stored_comment (db w) req (stamp w)])%list
    /\ code (snd (CommentService.createCommentHandler (db w) (faults w) (stamp w)
                    (BJson (marshal_CommentRequest req)))) =
       StatusInternalServerError.
Proof.
  intros w fresh rid b req Hd Ht Hn Hclean Hdc Hdp Hp Hins Hfault result.
  subst result.
  destruct (serve_submission w fresh rid b req Hd Ht Hn Hclean Hdc Hdp)
    as (cid & ->).
  assert (Hstore :
    exists msg,
    CommentService.createCommentHandler (db w) (faults w) (stamp w)
      (BJson (marshal_CommentRequest req)) =
    (CommentService.insert (db w) (NewsID req) (stored_parent (ParentID req))
       (Text req) (stamp w),
     http_Error msg StatusInternalServerError)).
  { unfold CommentService.createCommentHandler.
    rewrite (decode_marshal_CommentRequest req (decode_CommentRequest_int b req Hd)).
    rewrite (eqb_empty_false _ Ht).
    assert (En : (NewsID req <=? 0) = false) by (apply Z.leb_gt; exact Hn).
    rewrite En. cbv zeta. unfold stored_parent.
    destruct (ParentID req) as [p|].
    - destruct Hp as [Hl Hs]. rewrite Hl.
      destruct (CommentService.select_by_id (db w) p);
        [ | contradiction Hs; reflexivity ].
      rewrite Hins.
      destruct (CommentService.last_insert_id_fails (faults w)) eqn:E1;
        [ eexists; reflexivity | ].
      destruct Hfault as [Hf | Hf]; [ discriminate Hf | ].
      rewrite Hf. eexists; reflexivity.
    - rewrite Hins.
      destruct (CommentService.last_insert_id_fails (faults w)) eqn:E1;
        [ eexists; reflexivity | ].
      destruct Hfault as [Hf | Hf]; [ discriminate Hf | ].
      rewrite Hf. eexists; reflexivity. }
  destruct Hstore as [msg ->]. cbn [fst snd outcome_of state_of db with_db].
  split; [ reflexivity | ]. split; reflexivity.
Qed.

End StoreFailures.

(** ** The censor's word list (censor-service/main.go) *)

Lemma Contains_empty : forall s, Contains s "" = true.
Proof. intros [|c r]; reflexivity. Qed.

Lemma In_map_set :
  forall k m x, In x (Censor.map_set k m) <-> In x m \/ x = k.
Proof.
  intros k m x. unfold Censor.map_set.
  destruct (existsb (String.eqb k) m) eqn:E.
  - split; [ tauto | ]. intros [H | ->]; [ exact H | ].
    apply existsb_exists in E. destruct E as (y & Hy & Heq).
    apply String.eqb_eq in Heq. subst y. exact Hy.
  - rewrite in_app_iff. simpl. split; intros [H | H]; auto.
    destruct H as [<- | []]. right. reflexivity.
Qed.

Lemma IsBanned_iff :
  forall ToLower cs text,
    Censor.IsBanned ToLower cs text = true <->
    exists k, In k (Censor.bannedWords cs) /\ Contains (ToLower text) k = true.
Proof.
  intros ToLower cs text. unfold Censor.IsBanned. cbv zeta.
  apply existsb_exists.
Qed.

Lemma bool_eq_iff : forall a b : bool, (a = true <-> b = true) -> a = b.
Proof.
  intros [|] [|] [H1 H2]; try reflexivity.
  - symmetry. apply H1. reflexivity.
  - apply H2. reflexivity.
Qed.

(** X18.  After [AddBannedWord] the censor bans exactly the texts it
    banned before and those whose lower-cased form contains the trimmed,
    lower-cased word; no earlier ban is lost. *)
Theorem X18_AddBannedWord_extends_the_bans :
  forall (ToLower TrimSpace : string -> string) cs word text,
    Censor.IsBanned ToLower (Censor.AddBannedWord ToLower TrimSpace cs word) text =
    Censor.IsBanned ToLower cs text
    || Contains (ToLower text) (ToLower (TrimSpace word)).
Proof.
  intros ToLower TrimSpace cs word text. apply bool_eq_iff.
  rewrite orb_true_iff, !IsBanned_iff.
  unfold Censor.AddBannedWord. cbn [Censor.bannedWords]. split.
  - intros (k & Hin & Hc). apply In_map_set in Hin.
    destruct Hin as [Hin | ->]; [ left; exists k; tauto | right; exact Hc ].
  - intros [(k & Hin & Hc) | Hc].
    + exists k. split; [ apply In_map_set; left; exact Hin | exact Hc ].
    + exists (ToLower (TrimSpace word)).
      split; [ apply In_map_set; right; reflexivity | exact Hc ].
Qed.

(** X19.  After [RemoveBannedWord] a text is banned exactly when it
    contains one of the other words of the list: the removed key no longer
    bans anything by itself, and no text becomes banned by a removal. *)
Theorem X19_RemoveBannedWord_drops_one_key :
  forall (ToLower TrimSpace : string -> string) cs word text,
    (Censor.IsBanned ToLower (Censor.RemoveBannedWord ToLower TrimSpace cs word)
       text = true <->
     exists k, In k (Censor.bannedWords cs)
               /\ k <> ToLower (TrimSpace word)
               /\ Contains (ToLower text) k = true)
    /\ ~ In (ToLower (TrimSpace word))
            (Censor.bannedWords
               (Censor.RemoveBannedWord ToLower TrimSpace cs word))
    /\ (Censor.IsBanned ToLower
          (Censor.RemoveBannedWord ToLower TrimSpace cs word) text = true ->
        Censor.IsBanned ToLower cs text = true).
Proof.
  intros ToLower TrimSpace cs word text.
  assert (Hin : forall k,
    In k (Censor.bannedWords
            (Censor.RemoveBannedWord ToLower TrimSpace cs word)) <->
    In k (Censor.bannedWords cs) /\ k <> ToLower (TrimSpace word)).
  { intros k. unfold Censor.RemoveBannedWord. cbn [Censor.bannedWords].
    rewrite filter_In, negb_true_iff. split; intros [H1 H2]; split; auto.
    - intros ->. rewrite String.eqb_refl in H2. discriminate.
    - apply String.eqb_neq. exact H2. }
  split; [ | split ].
  - rewrite IsBanned_iff. split.
    + intros (k & Hk & Hc). apply Hin in Hk. exists k. tauto.
    + intros (k & Hk & Hne & Hc). exists k. split; [ apply Hin; tauto | exact Hc ].
  - intros H. apply Hin in H. destruct H as [_ H]. apply H. reflexivity.
  - rewrite !IsBanned_iff. intros (k & Hk & Hc). apply Hin in Hk.
    exists k. tauto.
Qed.

(** X20.  Removing a word that was just added gives back the censor as it
    was, provided the word's key was not on the list before. *)
Theorem X20_remove_after_add_restores :
  forall (ToLower TrimSpace : string -> string) cs word,
    ~ In (ToLower (TrimSpace word)) (Censor.bannedWords cs) ->
    Censor.RemoveBannedWord ToLower TrimSpace
      (Censor.AddBannedWord ToLower TrimSpace cs word) word = cs.
Proof.
  intros ToLower TrimSpace [m] word Hnot. cbn [Censor.bannedWords] in Hnot.
  unfold Censor.RemoveBannedWord, Censor.AddBannedWord, Censor.map_set.
  cbn [Censor.bannedWords]. f_equal.
  set (k := ToLower (TrimSpace word)) in *.
  assert (E : existsb (String.eqb k) m = false).
  { destruct (existsb (String.eqb k) m) eqn:E; [ | reflexivity ].
    apply existsb_exists in E. destruct E as (y & Hy & Heq).
    apply String.eqb_eq in Heq. subst y. contradiction. }
  rewrite E. rewrite filter_app. simpl. rewrite String.eqb_refl. simpl.
  rewrite app_nil_r.
  induction m as [|x m IH]; [ reflexivity | ].
  simpl. simpl in Hnot, E. apply orb_false_iff in E. destruct E as [E1 E2].
  rewrite String.eqb_sym, E1. simpl. f_equal.
  apply IH; [ tauto | exact E2 ].
Qed.

(** X21.  A word that is blank after trimming is stored as the empty key;
    from then on the censor bans every text, and [/check] answers 400 to
    every request it can decode. *)
Theorem X21_blank_word_bans_everything :
  forall (ToLower TrimSpace : string -> string) cs word,
    ToLower (TrimSpace word) = "" ->
    forall text,
      Censor.IsBanned ToLower
        (Censor.AddBannedWord ToLower TrimSpace cs word) text = true
      /\ Censor.checkHandler ToLower
           (Censor.AddBannedWord ToLower TrimSpace cs word)
           (BJson (JObj [("text", JStr text)])) =
         http_Error "Text contains prohibited content" StatusBadRequest.
Proof.
  intros ToLower TrimSpace cs word Hblank text.
  assert (Hb : Censor.IsBanned ToLower
                 (Censor.AddBannedWord ToLower TrimSpace cs word) text = true).
  { apply IsBanned_iff. exists "". split.
    - unfold Censor.AddBannedWord. cbn [Censor.bannedWords].
      apply In_map_set. right. symmetry. exact Hblank.
    - apply Contains_empty. }
  split; [ exact Hb | ].
  unfold Censor.checkHandler.
  assert (Hd : decode_CheckRequest (BJson (JObj [("text", JStr text)])) =
               Some {| ck_Text := text |}) by reflexivity.
  rewrite Hd. cbn [ck_Text]. rewrite Hb. reflexivity.
Qed.

(** ** The read routes of the gateway *)

(** X22.  On the three GET routes the gateway never looks at a
    collaborator's status code: with every status replaced by any other,
    the run issues the same requests and ends in the same state with the
    same answer.  (The POST route does compare both codes with 200.) *)
Theorem X22_get_routes_ignore_status_codes :
  forall f64 (S : Type) (answer : S -> Outbound -> S * Reply) (f : Z -> Z)
         (s : S) fresh r,
    route r <> PostComment ->
    run (restatus f answer) s (gateway f64 fresh r) =
    run answer s (gateway f64 fresh r).
Proof.
  intros f64 S answer f s fresh r Hroute.
  destruct (requestIDMiddleware_binds fresh (routes f64) r)
    as (cid & _ & Hbind & _).
  unfold gateway. rewrite Hbind. unfold routes.
  destruct (route r) as [ | page page_size search | id | ];
    [ reflexivity | | | contradiction ].
  - unfold getNewsHandler. cbv zeta. cbn [run]. unfold restatus at 1.
    destruct (answer s _) as [s1 [|st b]]; [ reflexivity | ].
    destruct (decode_Response f64 b); reflexivity.
  - unfold getNewsByIDHandler.
    destruct (Atoi id) as [n|]; [ | reflexivity ].
    cbn [run]. unfold restatus at 1.
    destruct (answer s _) as [s1 [|st b]]; [ reflexivity | ].
    destruct (decode_NewsItem b) as [item|]; [ | reflexivity ].
    cbn [run]. unfold restatus at 1.
    destruct (answer s1 _) as [s2 [|st2 b2]]; [ reflexivity | ].
    destruct (decode_Response f64 b2); reflexivity.
Qed.

Lemma Itoa_not_empty : forall n, in_int64 n = true -> String.eqb (Itoa n) "" = false.
Proof.
  intros n H. apply String.eqb_neq. intros E.
  pose proof (Atoi_Itoa n H) as Ha. rewrite E in Ha. discriminate Ha.
Qed.

(** The store's listing for the text the gateway's [%d] writes. *)
Lemma getComments_listing :
  forall d f n,
    in_int64 n = true ->
    CommentService.getCommentsHandler d f (Itoa n) =
    if CommentService.query_fails f then
      http_Error "Failed to fetch comments" StatusInternalServerError
    else if CommentService.scan_fails f
            && negb (Nat.eqb (List.length (CommentService.select_by_news d n)) 0)
    then http_Error "Failed to scan comment" StatusInternalServerError
    else write_json (success_envelope
                       (marshal_Comments (CommentService.select_by_news d n))).
Proof.
  intros d f n H. unfold CommentService.getCommentsHandler.
  rewrite (Itoa_not_empty n H), (Atoi_Itoa n H). reflexivity.
Qed.

(** X23.  The gateway writes the comments request with the number it
    parsed ([news_id=%d]); the store always parses that text back to the
    same number, so it never answers 400 to the gateway, and it answers
    what it would answer to the client's own spelling of the id. *)
Theorem X23_store_accepts_the_gateway_listing_request :
  forall d f id n,
    Atoi id = Some n ->
    CommentService.getCommentsHandler d f (Itoa n) =
      CommentService.getCommentsHandler d f id
    /\ code (CommentService.getCommentsHandler d f (Itoa n)) <> StatusBadRequest
    /\ (CommentService.query_fails f = false ->
        CommentService.scan_fails f = false ->
        CommentService.getCommentsHandler d f (Itoa n) =
        write_json (success_envelope
                      (marshal_Comments (CommentService.select_by_news d n)))).
Proof.
  intros d f id n Ha.
  pose proof (Atoi_in_int64 id n Ha) as Hr.
  pose proof (getComments_listing d f n Hr) as Hl.
  split; [ | split ].
  - rewrite Hl. unfold CommentService.getCommentsHandler. rewrite Ha.
    replace (String.eqb id "") with false; [ reflexivity | ].
    symmetry. apply String.eqb_neq. intros ->. discriminate Ha.
  - rewrite Hl. destruct (CommentService.query_fails f); [ discriminate | ].
    destruct (_ && _); discriminate.
  - intros Hq Hs. rewrite Hl, Hq, Hs. reflexivity.
Qed.

Lemma reencode_Comments :
  forall f64 l,
    Forall exact_numbers l ->
    reencode f64 (JArr (map marshal_Comment l)) =
    Some (JArr (map gateway_Comment l)).
Proof.
  intros f64 l H. induction H as [|c l Hc Hl IH]; [ reflexivity | ].
  cbn [reencode map bind] in *.
  destruct Hc as (H1 & H2 & H3).
  rewrite (reencode_Comment f64 c H1 H2 H3).
  unfold bind in *.
  match type of IH with
  | match ?x with _ => _ end = _ => destruct x as [l'|]; [ | discriminate IH ]
  end.
  injection IH as ->. reflexivity.
Qed.

(** X24.  In a store whose ids come from a counter below 2^53 and whose
    parents are older comments, the detail route of an existing news item
    lists exactly the comments stored for it, in ascending [created_at]
    order and with all their fields, beside the news item itself; the
    store is left as it was. *)
Theorem X24_detail_lists_the_stored_comments :
  forall f64 (ToLower : string -> string) (w : World) fresh id rid n item,
    Atoi id = Some n ->
    NewsAggregator.findNewsByID (now w) n = Some item ->
    down w NewsSvc = false -> down w CommentSvc = false ->
    CommentService.query_fails (faults w) = false ->
    CommentService.scan_fails (faults w) = false ->
    CommentService.ids_from_counter (db w) ->
    CommentService.parents_precede (db w) ->
    CommentService.seq (db w) <= 2 ^ 53 ->
    CommentService.select_by_news (db w) n <> [] ->
    let result := serve f64 ToLower w fresh (get_news id rid) in
    state_of result = w
    /\ news_of (outcome_of result) = Some (marshal_NewsItem item)
    /\ comments_of (outcome_of result) =
       Some (JArr (map gateway_Comment
                     (CommentService.select_by_news (db w) n))).
Proof.
  intros f64 ToLower w fresh id rid n item Ha Hf Hdn Hdc Hq Hs Hids Hpar Hseq
         Hne result.
  subst result.
  destruct (serve_detail f64 ToLower w fresh id rid) as (cid & _ & _ & ->).
  split; [ apply detail_result_state | ].
  pose proof (Atoi_in_int64 id n Ha) as Hr.
  assert (Hn : 1 <= n <= 5) by (apply findNewsByID_some in Hf; tauto).
  assert (Hex : Forall exact_numbers (CommentService.select_by_news (db w) n)).
  { apply Forall_forall. intros c Hc.
    apply (Permutation_in _ (select_by_news_perm (db w) n)) in Hc.
    apply filter_In in Hc. destruct Hc as [Hin Hnews].
    apply Z.eqb_eq in Hnews.
    destruct Hids as [_ Hids]. rewrite Forall_forall in Hids.
    unfold CommentService.parents_precede in Hpar.
    rewrite Forall_forall in Hpar.
    specialize (Hids c Hin). specialize (Hpar c Hin). cbv beta in Hids.
    unfold exact_numbers. split; [ lia | ]. split; [ lia | ].
    destruct (c_ParentID c) as [p|]; [ lia | exact I ]. }
  assert (Hnn : marshal_Comments (CommentService.select_by_news (db w) n)
                <> JNull).
  { unfold marshal_Comments.
    destruct (CommentService.select_by_news (db w) n);
      [ congruence | discriminate ]. }
  assert (Hre : reencode f64
                  (marshal_Comments (CommentService.select_by_news (db w) n)) =
                Some (JArr (map gateway_Comment
                              (CommentService.select_by_news (db w) n)))).
  { unfold marshal_Comments.
    destruct (CommentService.select_by_news (db w) n) eqn:E;
      [ congruence | ].
    rewrite <- E in *. apply reencode_Comments. exact Hex. }
  pose proof (decode_success_envelope f64 _ _ Hnn Hre) as Hdec.
  unfold detail_result.
  rewrite Ha, Hdn, Hf, Hdc, (getComments_listing (db w) (faults w) n Hr), Hq, Hs.
  cbn [andb].
  change (body (write_json (success_envelope
            (marshal_Comments (CommentService.select_by_news (db w) n)))))
    with (BJson (success_envelope
            (marshal_Comments (CommentService.select_by_news (db w) n)))).
  rewrite Hdec. split; reflexivity.
Qed.

(** ** The list route *)

(** Without an error [Atoi] gives the number; with one, 0 or a bound. *)
Lemma Atoi_value_cases :
  forall s,
    match Atoi s with
    | Some n => Atoi_value s = n
    | None => Atoi_value s = 0 \/ Atoi_value s = max_int64
              \/ Atoi_value s = min_int64
    end.
Proof.
  intros s. unfold Atoi, Atoi_value, ParseInt.
  destruct s as [|c r]; [ left; reflexivity | ].
  set (ds := if (Ascii.eqb c "-" || Ascii.eqb c "+")%bool then r else String c r).
  destruct (ParseUint ds) as [un [[ | ]|]]; cbn [fst];
    [ left; reflexivity | | ];
    destruct (Ascii.eqb c "-"); cbn [negb andb];
    repeat match goal with
           | |- context [if ?b then _ else _] => destruct b eqn:?
           end; cbn [fst]; auto.
Qed.

(** X25.  The list route sends one request to the news source, without
    headers, carrying the search text as it came and a page and page size
    that are never 0: a value that parses is forwarded (0 becomes the
    default 1 or 10, a negative number stays), one that does not parse
    counts as the default or, when it is a number beyond the [int] range,
    as the nearest bound. *)
Theorem X25_list_route_forwards_paging :
  forall f64 (S : Type) (answer : S -> Outbound -> S * Reply) (s : S)
         fresh page_q pageSize_q search rid,
    exists page pageSize,
      trace_of (run answer s
                  (gateway f64 fresh (list_news page_q pageSize_q search rid))) =
      [{| op := GetNewsList page pageSize search; header := [] |}]
      /\ page <> 0 /\ pageSize <> 0
      /\ in_int64 page = true /\ in_int64 pageSize = true
      /\ match Atoi page_q with
         | Some n => page = if n =? 0 then 1 else n
         | None => page = 1 \/ page = max_int64 \/ page = min_int64
         end
      /\ match Atoi pageSize_q with
         | Some n => pageSize = if n =? 0 then 10 else n
         | None => pageSize = 10 \/ pageSize = max_int64
                   \/ pageSize = min_int64
         end.
Proof.
  intros f64 S answer s fresh page_q pageSize_q search rid.
  exists (if Atoi_value page_q =? 0 then 1 else Atoi_value page_q),
         (if Atoi_value pageSize_q =? 0 then 10 else Atoi_value pageSize_q).
  split.
  - destruct (requestIDMiddleware_binds fresh (routes f64)
                (list_news page_q pageSize_q search rid))
      as (cid & _ & Hbind & _).
    unfold gateway. rewrite Hbind. unfold routes, list_news. cbn [route].
    unfold getNewsHandler. cbv zeta. cbn [run].
    destruct (answer s _) as [s1 [|st b]]; [ reflexivity | ].
    destruct (decode_Response f64 b); reflexivity.
  - pose proof (Atoi_value_in_int64 page_q) as Hp.
    pose proof (Atoi_value_in_int64 pageSize_q) as Hs.
    pose proof (Atoi_value_cases page_q) as Cp.
    pose proof (Atoi_value_cases pageSize_q) as Cs.
    split; [ destruct (Atoi_value page_q =? 0) eqn:E;
             [ discriminate | apply Z.eqb_neq; exact E ] | ].
    split; [ destruct (Atoi_value pageSize_q =? 0) eqn:E;
             [ discriminate | apply Z.eqb_neq; exact E ] | ].
    split; [ destruct (Atoi_value page_q =? 0); [ reflexivity | ];
             unfold in_int64; apply andb_true_intro;
             split; apply Z.leb_le; lia | ].
    split; [ destruct (Atoi_value pageSize_q =? 0); [ reflexivity | ];
             unfold in_int64; apply andb_true_intro;
             split; apply Z.leb_le; lia | ].
    split.
    + destruct (Atoi page_q) as [n|]; [ rewrite Cp; reflexivity | ].
      destruct Cp as [-> | [-> | ->]]; [ left | right; left | right; right ];
        reflexivity.
    + destruct (Atoi pageSize_q) as [n|]; [ rewrite Cs; reflexivity | ].
      destruct Cs as [-> | [-> | ->]]; [ left | right; left | right; right ];
        reflexivity.
Qed.

Lemma wrap64_in_int64 : forall z, in_int64 (NewsAggregator.wrap64 z) = true.
Proof.
  intros z. unfold in_int64, NewsAggregator.wrap64, min_int64, max_int64.
  pose proof (Z.mod_pos_bound (z + 2 ^ 63) (2 ^ 64) ltac:(lia)) as H.
  apply andb_true_intro. split; apply Z.leb_le; lia.
Qed.

Lemma slice_incl :
  forall (A : Type) (l : list A) a b, incl (NewsAggregator.slice l a b) l.
Proof.
  intros A l a b x H. unfold NewsAggregator.slice in H.
  rewrite <- (firstn_skipn (Z.to_nat a) l). apply in_or_app. right.
  rewrite <- (firstn_skipn (Z.to_nat (b - a)) (skipn (Z.to_nat a) l)).
  apply in_or_app. left. exact H.
Qed.

Lemma generateMockNews_ids :
  forall now page pageSize search isnil news,
    NewsAggregator.generateMockNews now page pageSize search = Some (isnil, news) ->
    Forall (fun item => 1 <= n_ID item <= 5) news.
Proof.
  intros now page pageSize search isnil news H.
  rewrite generateMockNews_matching in H. cbv zeta in H.
  destruct (_ && _) in H; [ | discriminate ].
  injection H as _ <-. apply Forall_forall. intros x Hx.
  apply slice_incl in Hx. unfold matching in Hx.
  assert (Hin : In x (NewsAggregator.mockNews now)).
  { destruct (String.eqb search ""); [ exact Hx | ].
    apply filter_In in Hx. tauto. }
  simpl in Hin.
  repeat (destruct Hin as [<- | Hin]; [ simpl; lia | ]). contradiction.
Qed.

Lemma reencode_NewsItems :
  forall f64 l,
    Forall (fun item => 1 <= n_ID item <= 5) l ->
    reencode f64 (JArr (map marshal_NewsItem l)) =
    Some (JArr (map gateway_NewsItem l)).
Proof.
  intros f64 l H. induction H as [|c l Hc Hl IH]; [ reflexivity | ].
  cbn [reencode map bind] in *.
  assert (Hone : reencode f64 (marshal_NewsItem c) = Some (gateway_NewsItem c)).
  { unfold marshal_NewsItem, gateway_NewsItem. simpl.
    rewrite (via_float64_exact f64 (n_ID c)) by lia. reflexivity. }
  rewrite Hone. unfold bind in *.
  match type of IH with
  | match ?x with _ => _ end = _ => destruct x as [l'|]; [ | discriminate IH ]
  end.
  injection IH as ->. reflexivity.
Qed.

(** The gateway's reading of a list envelope of the news source. *)
Lemma decode_list_envelope :
  forall f64 isnil news p,
    Forall (fun item => 1 <= n_ID item <= 5) news ->
    in_int64 (Page p) = true -> in_int64 (PageSize p) = true ->
    in_int64 (Total p) = true -> in_int64 (TotalPages p) = true ->
    decode_Response f64 (BJson (marshal_Response
      {| Status := "success";
         Data := Some (NewsAggregator.marshal_NewsItems isnil news);
         Error := ""; Pagination_ := Some p |})) =
    Some {| Status := "success";
            Data := if isnil then None
                    else Some (JArr (map gateway_NewsItem news));
            Error := ""; Pagination_ := Some p |}.
Proof.
  intros f64 isnil news [pg ps tot tp] Hids H1 H2 H3 H4.
  cbn [Page PageSize Total TotalPages] in *.
  unfold decode_Response, marshal_Response, marshal_Pagination.
  cbn [document Data Status Error Pagination_ String.eqb app
       Page PageSize Total TotalPages].
  cbn [Response_members].
  repeat match goal with
         | |- context [key_is ?a ?b] =>
             let v := eval vm_compute in (key_is a b) in
             change (key_is a b) with v
         end.
  cbv iota. cbn [set_string bind Status Data Error Pagination_].
  assert (Hdata : set_interface f64 (NewsAggregator.marshal_NewsItems isnil news)
                  = Some (if isnil then None
                          else Some (JArr (map gateway_NewsItem news)))).
  { unfold set_interface, NewsAggregator.marshal_NewsItems.
    destruct isnil; [ reflexivity | ].
    rewrite (reencode_NewsItems f64 news Hids). reflexivity. }
  rewrite Hdata. cbn [bind Status Data Error Pagination_].
  unfold set_Pagination. cbn [Pagination_members].
  repeat match goal with
         | |- context [key_is ?a ?b] =>
             let v := eval vm_compute in (key_is a b) in
             change (key_is a b) with v
         end.
  cbv iota. unfold set_int.
  rewrite H1. cbn [bind Page PageSize Total TotalPages].
  rewrite H2. cbn [bind Page PageSize Total TotalPages].
  rewrite H3. cbn [bind Page PageSize Total TotalPages].
  rewrite H4. cbn [bind Page PageSize Total TotalPages].
  reflexivity.
Qed.

(** X26.  Whatever list response the news source produces, the gateway
    hands it on with the same [status] and [pagination]; the items keep
    their values but come out with their members in key order, and a
    [data: null] (a search without a hit) is dropped from the envelope
    altogether. *)
Theorem X26_list_response_is_relayed :
  forall f64 (S : Type) (answer : S -> Outbound -> S * Reply) (s s1 : S)
         fresh page_q pageSize_q search rid now page_q' pageSize_q' search'
         r status,
    NewsAggregator.getNewsHandler now page_q' pageSize_q' search' = Responded r ->
    (forall c, answer s c = (s1, Replied status (body r))) ->
    exists isnil news p,
      r = write_json (marshal_Response
            {| Status := "success";
               Data := Some (NewsAggregator.marshal_NewsItems isnil news);
               Error := ""; Pagination_ := Some p |})
      /\ outcome_of (run answer s
           (gateway f64 fresh (list_news page_q pageSize_q search rid))) =
         Responded (write_json (marshal_Response
           {| Status := "success";
              Data := if isnil then None
                      else Some (JArr (map gateway_NewsItem news));
              Error := ""; Pagination_ := Some p |})).
Proof.
  intros f64 S answer s s1 fresh page_q pageSize_q search rid now
         page_q' pageSize_q' search' r status Hr Hans.
  unfold NewsAggregator.getNewsHandler in Hr.
  set (page := if Atoi_value page_q' =? 0 then 1 else Atoi_value page_q') in *.
  set (pageSize := if Atoi_value pageSize_q' =? 0 then 10
                   else Atoi_value pageSize_q') in *.
  assert (Hpg : in_int64 page = true).
  { pose proof (Atoi_value_in_int64 page_q') as Hv. subst page.
    destruct (Atoi_value page_q' =? 0); [ reflexivity | ].
    unfold in_int64. apply andb_true_intro. split; apply Z.leb_le; lia. }
  assert (Hps : in_int64 pageSize = true /\ pageSize <> 0).
  { pose proof (Atoi_value_in_int64 pageSize_q') as Hv. subst pageSize.
    destruct (Atoi_value pageSize_q' =? 0) eqn:E;
      [ split; [ reflexivity | discriminate ] | ].
    apply Z.eqb_neq in E. split; [ | exact E ].
    unfold in_int64. apply andb_true_intro. split; apply Z.leb_le; lia. }
  destruct Hps as [Hps Hnz].
  destruct (NewsAggregator.generateMockNews now page pageSize search')
    as [[isnil news]|] eqn:Eg; [ | discriminate ].
  pose proof (generateMockNews_ids _ _ _ _ _ _ Eg) as Hids.
  assert (Hrange : min_int64 <= pageSize <= max_int64).
  { unfold in_int64 in Hps. apply andb_prop in Hps. destruct Hps as [A B].
    apply Z.leb_le in A. apply Z.leb_le in B. lia. }
  destruct (generateMockNews_some _ _ _ _ _ _ Hrange Hnz Eg)
    as (_ & _ & H5 & _).
  injection Hr as <-.
  eexists isnil, news, _. split; [ reflexivity | ].
  destruct (requestIDMiddleware_binds fresh (routes f64)
              (list_news page_q pageSize_q search rid))
    as (cid & _ & Hbind & _).
  unfold gateway. rewrite Hbind. unfold routes, list_news. cbn [route].
  unfold getNewsHandler. cbv zeta. cbn [run]. rewrite Hans.
  unfold write_json at 1. cbn [body].
  rewrite decode_list_envelope.
  - reflexivity.
  - exact Hids.
  - exact Hpg.
  - exact Hps.
  - cbn [Total]. unfold in_int64, min_int64, max_int64.
    apply andb_true_intro. split; apply Z.leb_le; lia.
  - cbn [TotalPages]. apply wrap64_in_int64.
Qed.

(** X27.  The store does not repeat the gateway's refusals: to a request
    the gateway validated and forwarded it never answers "Invalid request
    body", "Comment text is required" or "Valid news ID is required"; its
    only 400 is for a parent that is not in the table. *)
Theorem X27_store_refuses_forwarded_requests_only_for_the_parent :
  forall d f ts b req,
    decode_CommentRequest b = Some req ->
    Text req <> "" -> 0 < NewsID req ->
    let r := snd (CommentService.createCommentHandler d f ts
                    (BJson (marshal_CommentRequest req))) in
    code r = StatusBadRequest ->
    r = http_Error "Parent comment does not exist" StatusBadRequest
    /\ exists p, ParentID req = Some p
                 /\ CommentService.select_by_id d p = None.
Proof.
  intros d f ts b req Hd Ht Hn r. subst r.
  unfold CommentService.createCommentHandler.
  rewrite (decode_marshal_CommentRequest req (decode_CommentRequest_int b req Hd)).
  rewrite (eqb_empty_false _ Ht).
  assert (En : (NewsID req <=? 0) = false) by (apply Z.leb_gt; exact Hn).
  rewrite En. cbv zeta.
  destruct (ParentID req) as [p|] eqn:Ep.
  - destruct (CommentService.parent_lookup_fails f);
      [ intros Hc; cbv in Hc; discriminate Hc | ].
    destruct (CommentService.select_by_id d p) eqn:Es.
    + destruct (CommentService.insert_fails f);
        [ intros Hc; cbv in Hc; discriminate Hc | ].
      destruct (CommentService.last_insert_id_fails f);
        [ intros Hc; cbv in Hc; discriminate Hc | ].
      destruct (CommentService.reread_fails f);
        [ intros Hc; cbv in Hc; discriminate Hc | ].
      destruct (CommentService.select_by_id (CommentService.insert _ _ _ _ _) _);
        intros Hc; cbv in Hc; discriminate Hc.
    + intros _. split; [ reflexivity | ]. exists p.
      split; [ reflexivity | exact Es ].
  - destruct (CommentService.insert_fails f);
      [ intros Hc; cbv in Hc; discriminate Hc | ].
    destruct (CommentService.last_insert_id_fails f);
      [ intros Hc; cbv in Hc; discriminate Hc | ].
    destruct (CommentService.reread_fails f);
      [ intros Hc; cbv in Hc; discriminate Hc | ].
    destruct (CommentService.select_by_id (CommentService.insert _ _ _ _ _) _);
      intros Hc; cbv in Hc; discriminate Hc.
Qed.

(** ** Instances *)

Lemma X4_witness :
  exists isnil,
    NewsAggregator.generateMockNews 0 2 2 "" =
    Some (isnil,
          firstn (Z.to_nat 2)
                 (skipn (Z.to_nat ((2 - 1) * 2)) (matching 0 ""))).
Proof.
  apply (X4_generateMockNews_is_paging 0 2 2 ""); unfold max_int64; lia.
Defined.


Lemma X6_witness :
  exists isnil news p,
    sample_list = write_json (marshal_Response
      {| Status := "success";
         Data := Some (NewsAggregator.marshal_NewsItems isnil news);
         Error := ""; Pagination_ := Some p |})
    /\ Total p = Z.of_nat (List.length news)
    /\ Total p <= PageSize p /\ Total p <= 5
    /\ (PageSize p <= max_int64 - 5 ->
        TotalPages p = if Total p =? 0 then 0 else 1)
    /\ -1 <= TotalPages p <= 1.
Proof.
  apply (X6_list_pagination_counts_the_page 0 "" "" "" sample_list).
  reflexivity.
Defined.

Lemma X7_witness :
  (data_of (Responded sample_list) = Some JNull <->
   "" <> "" /\ matching 0 "" = [])
  /\ (data_of (Responded sample_list) <> Some JNull ->
      exists items, data_of (Responded sample_list) = Some (JArr items)).
Proof.
  apply (X7_list_data_null_or_array 0 "" "" "" sample_list).
  reflexivity.
Defined.

Lemma X9_witness :
  CommentService.select_by_id
    (fst (CommentService.deleteCommentHandler sample_store false false "1")) 1
  = None.
Proof.
  apply (X9_delete_removes_exactly_one sample_store "1" 1 sample_comment).
  - reflexivity.
  - reflexivity.
Defined.

Lemma X11_witness :
  CommentService.select_by_id
    (fst (CommentService.createCommentHandler
            (fst (CommentService.deleteCommentHandler sample_store false false "1"))
            CommentService.no_faults "later" hello_comment)) 1
  = None.
Proof.
  apply (X11_deleted_ids_are_not_reused sample_store "1" 1 sample_comment
           CommentService.no_faults "later" hello_comment).
  - split; [ simpl; lia | repeat constructor; simpl; lia ].
  - reflexivity.
  - reflexivity.
  - reflexivity.
Defined.

Lemma X13_witness :
  In (stored_comment CommentService.empty hello_request "ts")
     (CommentService.select_by_news
        (fst (CommentService.createCommentHandler CommentService.empty
                CommentService.no_faults "ts" hello_comment)) 1).
Proof.
  apply (X13_created_comment_is_listed CommentService.empty
           CommentService.no_faults "ts" hello_comment hello_request).
  - split; [ simpl; lia | constructor ].
  - reflexivity.
  - reflexivity.
Defined.

Lemma X15_witness :
  exists cid,
    cid <> "" /\ ("abc" <> "" -> cid = "abc") /\
    submit no_literal (answer ToLowerASCII)
      (without_store (initial ToLowerASCII "ts" 0)) 0 hello_comment "abc" =
    (without_store (initial ToLowerASCII "ts" 0),
     [check_request cid "hello"; save_request cid hello_request],
     Responded (http_Error "Failed to save comment" StatusInternalServerError)).
Proof.
  apply (X15_store_failure_is_reported_as_500 no_literal World
           (answer ToLowerASCII)
           (without_store (initial ToLowerASCII "ts" 0))
           (without_store (initial ToLowerASCII "ts" 0))
           (without_store (initial ToLowerASCII "ts" 0))
           0%N "abc" hello_comment hello_request
           (BJson (success_envelope (JObj [("message", JStr "Text is clean")])))
           TransportError).
  - reflexivity.
  - discriminate.
  - simpl. lia.
  - intros cid. reflexivity.
  - intros cid. reflexivity.
  - left. reflexivity.
Defined.

Lemma X16_witness :
  outcome_of
    (serve no_literal ToLowerASCII (initial ToLowerASCII "ts" 0) 0
       (post_comment (BJson (marshal_CommentRequest reply_request)) "abc")) =
  Responded (http_Error "Failed to save comment" StatusInternalServerError).
Proof.
  apply (X16_missing_parent_becomes_500 no_literal ToLowerASCII
           (initial ToLowerASCII "ts" 0) 0%N "abc"
           (BJson (marshal_CommentRequest reply_request)) reply_request 7).
  - reflexivity.
  - discriminate.
  - simpl. lia.
  - reflexivity.
  - reflexivity.
  - reflexivity.
  - reflexivity.
  - reflexivity.
  - reflexivity.
Defined.

Lemma X17_witness :
  outcome_of
    (serve no_literal ToLowerASCII
       (with_faults (initial ToLowerASCII "ts" 0) reread_fault) 0
       (post_comment hello_comment "abc")) =
    Responded (http_Error "Failed to save comment" StatusInternalServerError)
  /\ CommentService.rows
       (db (state_of
          (serve no_literal ToLowerASCII
             (with_faults (initial ToLowerASCII "ts" 0) reread_fault) 0
             (post_comment hello_comment "abc")))) =
     ([] ++ [stored_comment CommentService.empty hello_request "ts"])%list
  /\ code (snd (CommentService.createCommentHandler CommentService.empty
                  reread_fault "ts"
                  (BJson (marshal_CommentRequest hello_request)))) =
     StatusInternalServerError.
Proof.
  apply (X17_failure_after_insert_keeps_the_row no_literal ToLowerASCII
           (with_faults (initial ToLowerASCII "ts" 0) reread_fault) 0%N "abc"
           hello_comment hello_request).
  - reflexivity.
  - discriminate.
  - simpl. lia.
  - reflexivity.
  - reflexivity.
  - reflexivity.
  - exact I.
  - reflexivity.
  - right. reflexivity.
Defined.

Lemma X20_witness :
  Censor.RemoveBannedWord ToLowerASCII TrimSpaceASCII
    (Censor.AddBannedWord ToLowerASCII TrimSpaceASCII
       (Censor.NewCensorService ToLowerASCII) " Spam ") " Spam "
  = Censor.NewCensorService ToLowerASCII.
Proof.
  apply (X20_remove_after_add_restores ToLowerASCII TrimSpaceASCII
           (Censor.NewCensorService ToLowerASCII) " Spam ").
  vm_compute. intros [H | [H | [H | []]]]; discriminate H.
Defined.

Lemma X21_witness :
  Censor.IsBanned ToLowerASCII
    (Censor.AddBannedWord ToLowerASCII TrimSpaceASCII
       (Censor.NewCensorService ToLowerASCII) "  ") "hello" = true
  /\ Censor.checkHandler ToLowerASCII
       (Censor.AddBannedWord ToLowerASCII TrimSpaceASCII
          (Censor.NewCensorService ToLowerASCII) "  ")
       (BJson (JObj [("text", JStr "hello")])) =
     http_Error "Text contains prohibited content" StatusBadRequest.
Proof.
  apply (X21_blank_word_bans_everything ToLowerASCII TrimSpaceASCII
           (Censor.NewCensorService ToLowerASCII) "  ").
  reflexivity.
Defined.

Lemma X22_witness :
  run (restatus (fun _ => StatusInternalServerError) (answer ToLowerASCII))
      (initial ToLowerASCII "ts" 0) (gateway no_literal 0 (get_news "1" "abc")) =
  run (answer ToLowerASCII)
      (initial ToLowerASCII "ts" 0) (gateway no_literal 0 (get_news "1" "abc")).
Proof.
  apply (X22_get_routes_ignore_status_codes no_literal World
           (answer ToLowerASCII) (fun _ => StatusInternalServerError)
           (initial ToLowerASCII "ts" 0) 0%N (get_news "1" "abc")).
  discriminate.
Defined.

Lemma X23_witness :
  CommentService.getCommentsHandler sample_store CommentService.no_faults
    (Itoa 1) =
  write_json (success_envelope
                (marshal_Comments
                   (CommentService.select_by_news sample_store 1))).
Proof.
  apply (X23_store_accepts_the_gateway_listing_request sample_store
           CommentService.no_faults "+1" 1).
  - reflexivity.
  - reflexivity.
  - reflexivity.
Defined.

Lemma X24_witness :
  comments_of
    (outcome_of
       (serve no_literal ToLowerASCII
          (with_db (initial ToLowerASCII "ts" 0) sample_store) 0
          (get_news "1" "abc"))) =
  Some (JArr (map gateway_Comment
                (CommentService.select_by_news sample_store 1))).
Proof.
  apply (X24_detail_lists_the_stored_comments no_literal ToLowerASCII
           (with_db (initial ToLowerASCII "ts" 0) sample_store) 0%N "1" "abc" 1
           {| n_ID := 1;
              n_Title := "Новости технологий";
              n_Content := "В этом выпуске: последние обновления в мире технологий, новые релизы и тренды.";
              n_Date := "1970-01-01 00:00:00" |}).
  - reflexivity.
  - reflexivity.
  - reflexivity.
  - reflexivity.
  - reflexivity.
  - reflexivity.
  - split; [ simpl; lia | repeat constructor; simpl; lia ].
  - repeat constructor.
  - simpl. lia.
  - discriminate.
Defined.

Lemma X26_witness :
  exists isnil news p,
    sample_list = write_json (marshal_Response
      {| Status := "success";
         Data := Some (NewsAggregator.marshal_NewsItems isnil news);
         Error := ""; Pagination_ := Some p |})
    /\ outcome_of (run (fun (_ : unit) (_ : Outbound) =>
                          (tt, Replied StatusOK (body sample_list))) tt
         (gateway no_literal 0 (list_news "" "" "" "abc"))) =
       Responded (write_json (marshal_Response
         {| Status := "success";
            Data := if isnil then None
                    else Some (JArr (map gateway_NewsItem news));
            Error := ""; Pagination_ := Some p |})).
Proof.
  apply (X26_list_response_is_relayed no_literal unit
           (fun _ _ => (tt, Replied StatusOK (body sample_list))) tt tt
           0%N "" "" "" "abc" 0 "" "" "" sample_list StatusOK).
  - reflexivity.
  - intros c. reflexivity.
Defined.

Lemma X27_witness :
  snd (CommentService.createCommentHandler CommentService.empty
         CommentService.no_faults "ts"
         (BJson (marshal_CommentRequest reply_request))) =
  http_Error "Parent comment does not exist" StatusBadRequest
  /\ exists p, ParentID reply_request = Some p
               /\ CommentService.select_by_id CommentService.empty p = None.
Proof.
  apply (X27_store_refuses_forwarded_requests_only_for_the_parent
           CommentService.empty CommentService.no_faults "ts"
           (BJson (marshal_CommentRequest reply_request)) reply_request).
  - reflexivity.
  - discriminate.
  - simpl. lia.
  - reflexivity.
Defined.
